(** * Vegetarian menu extractor: classification, bucketing and price totals

    A shallow embedding of the MCP server of the menu extractor
    ([src/mcp/tools/calculator.py], [src/mcp/tools/classifier.py],
    [src/mcp/llm/classifier.py], [src/mcp/rag/vectorstore.py],
    [src/mcp/main.py]) and the properties its specification states.

    Conventions of the embedding.
    - A Python [dict] with string keys is a [gmap string pyval]; [d.get(k, x)]
      is [get d k x].
    - Python numbers are exact rationals ([Q]): an [int], a [bool] used as a
      number and a [float] are all read through [as_number].  Rounding is
      round-half-even on the exact value, which is what [round(x, n)] does on
      the value a float holds.  NaN and the infinities are not represented,
      and sums and products do not round.  Where the rounding of the
      doubles is the question (the last digit of a total, a vote next to a
      tie), the calculator and the weighted vote are modelled a second time
      on IEEE doubles (module [Binary64]).
    - Text is a [string] of 8-bit characters; [lower] is [str.lower] on ASCII
      letters and leaves every other character alone.
    - A Python exception that leaves the modelled function is [None] in an
      [option] result. *)

From Stdlib Require Import Ascii String QArith Qround Qabs Qminmax ZArith Lia Lqa.
From Stdlib Require Import Permutation Sorted.
From Stdlib Require Import Floats.PrimFloat Floats.SpecFloat Floats.FloatOps Uint63.
From stdpp Require Import base option list gmap strings fin_maps.

Set Warnings "-inexact-float".

Local Open Scope string_scope.
Local Open Scope list_scope.

(** ** Python values *)

#[warnings="-register-all"]
Inductive pyval : Type :=
| VNone
| VBool (b : bool)
| VInt (z : Z)
| VFloat (q : Q)
| VStr (s : string)
| VList (l : list pyval).

Abbreviation pydict := (gmap string pyval).

(** [d.get(k, dflt)] *)
Definition get (d : pydict) (k : string) (dflt : pyval) : pyval :=
  default dflt (d !! k).

(** Truth value of an object in a condition ([if x:]). *)
Definition truthy (v : pyval) : bool :=
  match v with
  | VNone => false
  | VBool b => b
  | VInt z => negb (z =? 0)%Z
  | VFloat q => negb (Qeq_bool q 0)
  | VStr s => negb (String.eqb s "")
  | VList l => match l with [] => false | _ => true end
  end.

(** [x is None] *)
Definition is_none (v : pyval) : bool :=
  match v with VNone => true | _ => false end.

(** [isinstance(v, (int, float))] together with the number read; [bool] is a
    subclass of [int] in Python. *)
Definition as_number (v : pyval) : option Q :=
  match v with
  | VBool b => Some (if b then 1%Q else 0%Q)
  | VInt z => Some (inject_Z z)
  | VFloat q => Some q
  | _ => None
  end.

Definition Qlt_bool (x y : Q) : bool := negb (Qle_bool y x).

(** ** Text *)

Definition lower_char (c : ascii) : ascii :=
  let n := nat_of_ascii c in
  if (65 <=? n)%nat && (n <=? 90)%nat then ascii_of_nat (n + 32) else c.

(** [s.lower()] *)
Fixpoint lower (s : string) : string :=
  match s with
  | EmptyString => EmptyString
  | String c rest => String (lower_char c) (lower rest)
  end.

(** [needle in hay] on strings. *)
Fixpoint contains (needle hay : string) : bool :=
  String.prefix needle hay ||
  match hay with
  | EmptyString => false
  | String _ rest => contains needle rest
  end.

(** The class [\w] of the regular expressions, on ASCII. *)
Definition is_word_char (c : ascii) : bool :=
  let n := nat_of_ascii c in
  ((48 <=? n)%nat && (n <=? 57)%nat) ||
  ((65 <=? n)%nat && (n <=? 90)%nat) ||
  ((97 <=? n)%nat && (n <=? 122)%nat) ||
  (n =? 95)%nat.

Definition is_word (c : option ascii) : bool :=
  match c with Some a => is_word_char a | None => false end.

(** [\b] between the character [before] and the character [after] (either
    may be missing at an end of the text). *)
Definition at_boundary (before after : option ascii) : bool :=
  xorb (is_word before) (is_word after).

Definition last_char (dflt : option ascii) (s : string) : option ascii :=
  match String.length s with
  | O => dflt
  | S n => String.get n s
  end.

(** Does [\b kw \b] match [hay] right here, [prev] being the character in
    front of [hay]? *)
Definition word_match_here (prev : option ascii) (kw hay : string) : bool :=
  String.prefix kw hay &&
  at_boundary prev (String.get 0 hay) &&
  at_boundary (last_char prev kw) (String.get (String.length kw) hay).

Fixpoint search_word_from (prev : option ascii) (kw hay : string) : bool :=
  word_match_here prev kw hay ||
  match hay with
  | EmptyString => false
  | String c rest => search_word_from (Some c) kw rest
  end.

(** [re.search(rf'\b{re.escape(kw)}\b', text)] as a truth value. *)
Definition search_word (kw text : string) : bool :=
  search_word_from None kw text.

(** ** Rounding *)

(** Nearest integer, ties to the even one. *)
Definition round_half_even (x : Q) : Z :=
  let f := Qfloor x in
  let r := (x - inject_Z f)%Q in
  match (r ?= 1 # 2)%Q with
  | Lt => f
  | Gt => (f + 1)%Z
  | Eq => if Z.even f then f else (f + 1)%Z
  end.

(** [round(x, n)]: the multiple of [10^-n] nearest to [x]. *)
Definition round_ndigits (n : nat) (x : Q) : Q :=
  let scale := Pos.pow 10 (Pos.of_nat n) in
  match n with
  | O => inject_Z (round_half_even x)
  | _ => Qmake (round_half_even (x * inject_Z (Zpos scale))) scale
  end.

Definition round2 : Q -> Q := round_ndigits 2.
Definition round3 : Q -> Q := round_ndigits 3.

(** ** Calculator tool ([src/mcp/tools/calculator.py]) *)

Module CalculatorTool.

Record total := { total_sum : Q; item_count : nat }.

(** One turn of the loop of [execute]: the running [(total, valid_count)]. *)
Definition execute_step (acc : Q * nat) (item : pydict) : Q * nat :=
  let price := get item "price" (VFloat 0) in
  match as_number price with
  | Some p => if Qlt_bool 0 p then ((acc.1 + p)%Q, S acc.2) else acc
  | None => acc
  end.

Definition execute (vegetarian_items : list pydict) : total :=
  let acc := foldl execute_step (0%Q, O) vegetarian_items in
  {| total_sum := round2 acc.1; item_count := acc.2 |}.

(** A correction that gets past the comprehension building the map: both
    keys present and the name a string.  The label is any value; only its
    truth value is used. *)
Record correction := { c_name : string; c_is_vegetarian : pyval }.

Record recomputed := {
  vegetarian_items : list pydict;
  r_total_sum : Q;
  corrections_applied : nat
}.

(** The dict comprehension: entries are stored left to right, a later one
    overwriting an earlier one under the same key. *)
Definition correction_map (corrections : list correction) : gmap string pyval :=
  foldl (fun m c => <[lower (c_name c) := c_is_vegetarian c]> m) ∅ corrections.

Definition human_verified (name : string) (price : pyval) : pydict :=
  <["name" := VStr name]>
    (<["price" := price]>
      (<["confidence" := VFloat 1]>
        (<["reasoning" := VStr "Human verified"]> ∅))).

(** One turn of the loop over [items]; [None] when [name.lower()] raises
    because the name is not a string. *)
Definition recompute_step (cmap : gmap string pyval)
    (acc : list pydict) (item : pydict) : option (list pydict) :=
  match get item "name" (VStr "") with
  | VStr name =>
      match cmap !! lower name with
      | Some label =>
          if truthy label
          then Some (acc ++ [human_verified name (get item "price" (VFloat 0))])
          else Some acc
      | None =>
          if truthy (get item "is_vegetarian" (VBool false))
          then Some (acc ++ [item])
          else Some acc
      end
  | _ => None
  end.

Definition recompute_loop (cmap : gmap string pyval)
    (items : list pydict) : option (list pydict) :=
  foldl (fun acc item => acc ≫= fun a => recompute_step cmap a item)
        (Some []) items.

(** The builtin [sum] over the prices: starts from [0] and adds from the
    left; adding a value that is not a number raises [TypeError]. *)
Definition sum_prices (veg : list pydict) : option Q :=
  foldl (fun acc i =>
           acc ≫= fun a =>
           as_number (get i "price" (VFloat 0)) ≫= fun p => Some (a + p)%Q)
        (Some 0%Q) veg.

Definition recompute_with_corrections
    (items : list pydict) (corrections : list correction) : option recomputed :=
  recompute_loop (correction_map corrections) items ≫= fun veg =>
  sum_prices veg ≫= fun total =>
  Some {| vegetarian_items := veg;
          r_total_sum := round2 total;
          corrections_applied := length corrections |}.

End CalculatorTool.

(** ** Classifier engine ([src/mcp/llm/classifier.py]) *)

(** A raised exception, split the way the handlers of the engine split them:
    [ValueError] (with [json.JSONDecodeError], its subclass) is caught by the
    parsers, anything else only by the callers of the provider. *)
Inductive exn : Type :=
| ValueError (msg : string)
| OtherException (msg : string).

Inductive outcome (A : Type) : Type :=
| Ok (a : A)
| Raise (e : exn).
Arguments Ok {A} a.
Arguments Raise {A} e.

Definition error_msg (e : exn) : string :=
  match e with ValueError m => m | OtherException m => m end.

Definition type_name (v : pyval) : string :=
  match v with
  | VNone => "NoneType" | VBool _ => "bool" | VInt _ => "int"
  | VFloat _ => "float" | VStr _ => "str" | VList _ => "list"
  end.

(** Metadata stored with an indexed document, and a hit of the vector store. *)
Record metadata := {
  m_name : string;
  m_is_vegetarian : pyval;
  m_category : string;
  m_type : string;
  m_notes : string
}.

Record rag_hit := {
  h_id : string;
  document : string;
  h_metadata : metadata;
  distance : Q;
  relevance_score : Q
}.

(** A tier result: the four keys every classification dict carries.  The keys
    [llm_provider] and [llm_error], which nothing reads, are left out. *)
Record tier_result := {
  is_vegetarian : pyval;
  confidence : Q;
  reasoning : string;
  method : string
}.

(** The empty dict [{}] as the readers of a tier result see it
    ([.get("is_vegetarian")] is [None], [.get("reasoning", "")] is empty); it
    is also the keyword placeholder of the batch strategy. *)
Definition no_result : tier_result :=
  {| is_vegetarian := VNone; confidence := 0; reasoning := ""; method := "" |}.

(** A JSON object of an LLM reply after [json.loads], read through the three
    keys the parsers use.  [o_confidence] and [o_reasoning] are [None] when the
    key is absent; a reasoning that is present is text. *)
Record llm_object := {
  o_is_vegetarian : pyval;
  o_confidence : option pyval;
  o_reasoning : option string
}.

(** What [generate] followed by the search for a JSON object and [json.loads]
    comes to in single mode. *)
Inductive single_reply : Type :=
| SRaise (msg : string)          (* the provider call raised *)
| SNoObject                      (* no [{...}] found, or not valid JSON *)
| SObject (o : llm_object).

(** An element of the decoded array of a batch reply. *)
Inductive batch_elem : Type :=
| ENotObject (v : pyval)         (* not a dict: [.get] raises AttributeError *)
| EObject (dish name : pyval) (o : llm_object).

Inductive batch_reply : Type :=
| BRaise (msg : string)
| BNoArray                       (* no [[...]] located, or not valid JSON *)
| BArray (data : list batch_elem).

(** The three keyword sets, in the order their iteration visits them. *)
Record keywords := {
  _vegetarian_markers : list string;
  _positive_keywords : list string;
  _negative_keywords : list string
}.

(** The settings the classifier reads.  [llm_batch_size] is a positive count:
    the step of [range(0, len(needs_llm), batch_size)]. *)
Record settings := {
  confidence_threshold : Q;
  hitl_threshold : Q;
  rag_top_k : nat;
  llm_batch_enabled : bool;
  llm_batch_size : positive
}.

(** The collaborators of the engine.  [generate_single] and [generate_batch]
    take the number of the call, so that a provider may answer the same prompt
    differently each time. *)
Record oracles := {
  _retrieve_evidence : string -> list rag_hit;
  generate_single : nat -> string -> list rag_hit -> single_reply;
  generate_batch : nat -> list string -> batch_reply;
  float_of_str : string -> option Q
}.

Definition py_min (a b : Q) : Q := if Qlt_bool b a then b else a.

Definition Qsum (l : list Q) : Q := foldl Qplus 0%Q l.

Definition join (sep : string) (l : list string) : string := String.concat sep l.

Module LLMClassifier.
Section Engine.

Variable cfg : settings.
Variable kb : keywords.
Variable env : oracles.

Definition keyword_hit (verdict : bool) (why kw : string) : tier_result :=
  {| is_vegetarian := VBool verdict;
     confidence := 95 # 100;
     reasoning := why +:+ kw +:+ "'";
     method := "keyword" |}.

Definition _keyword_classification (dish_name : string) : tier_result :=
  let name_lower := lower dish_name in
  match find (fun marker => contains marker name_lower) (_vegetarian_markers kb) with
  | Some marker => keyword_hit true "Contains vegetarian marker: '" marker
  | None =>
  match find (fun kw => search_word kw name_lower) (_positive_keywords kb) with
  | Some kw => keyword_hit true "Contains vegetarian indicator: '" kw
  | None =>
  match find (fun kw => search_word kw name_lower) (_negative_keywords kb) with
  | Some kw => keyword_hit false "Contains non-vegetarian ingredient: '" kw
  | None =>
      {| is_vegetarian := VNone; confidence := 0;
         reasoning := "No keyword match"; method := "keyword" |}
  end end end.

(** The loop of [_analyze_rag_evidence]: [(veg_score, non_veg_score, reasons)]. *)
Definition rag_step (acc : Q * Q * list string) (item : rag_hit)
    : Q * Q * list string :=
  let '(veg_score, non_veg_score, reasons) := acc in
  let relevance := relevance_score item in
  let md := h_metadata item in
  if Qlt_bool relevance (3 # 10) then acc
  else match m_is_vegetarian md with
       | VBool true =>
           ((veg_score + relevance)%Q, non_veg_score,
            reasons ++ [m_name md +:+ " (vegetarian)"])
       | VBool false =>
           (veg_score, (non_veg_score + relevance)%Q,
            reasons ++ [m_name md +:+ " (non-vegetarian)"])
       | _ => acc
       end.

(** [_analyze_rag_evidence]; its second argument, the dish name, is not
    used by the source. *)
Definition _analyze_rag_evidence (evidence : list rag_hit) : tier_result :=
  match evidence with
  | [] => {| is_vegetarian := VNone; confidence := 0;
             reasoning := "No relevant evidence found"; method := "rag" |}
  | _ =>
    let '(veg_score, non_veg_score, reasons) :=
      foldl rag_step (0%Q, 0%Q, []) evidence in
    let similar := "Similar to: " +:+ join ", " (take 3 reasons) in
    if Qlt_bool non_veg_score veg_score && Qlt_bool (1 # 2) veg_score then
      {| is_vegetarian := VBool true;
         confidence := py_min (85 # 100)
                         (veg_score / (veg_score + non_veg_score + (1 # 10)));
         reasoning := similar; method := "rag" |}
    else if Qlt_bool veg_score non_veg_score && Qlt_bool (1 # 2) non_veg_score then
      {| is_vegetarian := VBool false;
         confidence := py_min (85 # 100)
                         (non_veg_score / (veg_score + non_veg_score + (1 # 10)));
         reasoning := similar; method := "rag" |}
    else
      {| is_vegetarian := VNone; confidence := 3 # 10;
         reasoning := "Inconclusive RAG evidence"; method := "rag" |}
  end.

(** [float(v)] *)
Definition py_float (v : pyval) : outcome Q :=
  match v with
  | VBool b => Ok (if b then 1%Q else 0%Q)
  | VInt z => Ok (inject_Z z)
  | VFloat q => Ok q
  | VStr s =>
      match float_of_str env s with
      | Some q => Ok q
      | None => Raise (ValueError ("could not convert string to float: '" +:+ s +:+ "'"))
      end
  | _ => Raise (OtherException
           ("float() argument must be a string or a real number, not '"
            +:+ type_name v +:+ "'"))
  end.

Definition failed (why meth : string) : tier_result :=
  {| is_vegetarian := VNone; confidence := 0; reasoning := why; method := meth |}.

(** The dict both parsers build from a decoded object; the only step of it
    that can raise is the conversion of the confidence. *)
Definition result_of_object (o : llm_object) (dflt meth : string)
    : outcome tier_result :=
  match py_float (default (VFloat (7 # 10)) (o_confidence o)) with
  | Ok c => Ok {| is_vegetarian := o_is_vegetarian o; confidence := c;
                  reasoning := default dflt (o_reasoning o); method := meth |}
  | Raise e => Raise e
  end.

(** [_parse_llm_response]: a [ValueError] is caught here, any other
    exception goes on to the caller. *)
Definition _parse_llm_response (response : single_reply) : outcome tier_result :=
  match response with
  | SObject o =>
      match result_of_object o "LLM classification" "llm" with
      | Ok r => Ok r
      | Raise (ValueError _) => Ok (failed "Failed to parse LLM response" "llm")
      | Raise e => Raise e
      end
  | _ => Ok (failed "Failed to parse LLM response" "llm")
  end.

Definition _llm_classification (call : nat) (dish_name : string)
    (evidence : list rag_hit) : tier_result :=
  match generate_single env call dish_name (take 5 evidence) with
  | SRaise msg => failed ("LLM error: " +:+ msg) "llm"
  | response =>
      match _parse_llm_response response with
      | Ok r => r
      | Raise e => failed ("LLM error: " +:+ error_msg e) "llm"
      end
  end.

(** [_combine_results]: the weighted vote of the tiers that have an opinion. *)
Definition _combine_results (keyword rag llm : tier_result) : tier_result :=
  let results := [(keyword, 4 # 10); (rag, 3 # 10); (llm, 3 # 10)] in
  let valid_results :=
    List.filter (fun rw : tier_result * Q => negb (is_none (is_vegetarian rw.1)))
                results in
  match valid_results with
  | [] => {| is_vegetarian := VNone; confidence := 0;
             reasoning := "Unable to classify"; method := "combined" |}
  | first :: _ =>
    let weighted_sum :=
      Qsum (map (fun rw : tier_result * Q =>
                   ((if truthy (is_vegetarian rw.1) then 1 else 0)
                    * confidence rw.1 * rw.2)%Q) valid_results) in
    let total_weight :=
      Qsum (map (fun rw : tier_result * Q => (confidence rw.1 * rw.2)%Q)
                valid_results) in
    if Qeq_bool total_weight 0 then first.1
    else
      let veg_probability := (weighted_sum / total_weight)%Q in
      let reasons :=
        List.filter (fun r => negb (String.eqb r ""))
                    (map (fun rw : tier_result * Q => reasoning rw.1) valid_results) in
      {| is_vegetarian := VBool (Qlt_bool (1 # 2) veg_probability);
         confidence := round3 (Qabs (veg_probability - (1 # 2)) * 2);
         reasoning := join "; " (take 2 reasons);
         method := "combined" |}
  end.

(** An entry of the fallback chain: a tier with its confidence as printed
    with two decimals, or the token [fallback_to_rag]. *)
Inductive chain_entry : Type :=
  | Consulted (tier : string) (shown : Q)
  | FallbackToRag.

(** What [classify] returns: the tier result with the keys added to it. *)
Record classification := {
  c_result : tier_result;
  c_evidence : list string;
  c_fallback_chain : list chain_entry;
  c_llm_failed : option bool
  }.

Definition classify (call : nat) (dish_name : string) : classification :=
  let keyword_result := _keyword_classification dish_name in
  let chain1 := [Consulted "keyword" (round2 (confidence keyword_result))] in
  if Qle_bool (9 # 10) (confidence keyword_result) then
    {| c_result := keyword_result; c_evidence := [];
       c_fallback_chain := chain1; c_llm_failed := None |}
  else
    let rag_evidence := _retrieve_evidence env dish_name in
    let rag_result := _analyze_rag_evidence rag_evidence in
    let chain2 := chain1 ++ [Consulted "rag" (round2 (confidence rag_result))] in
    let documents := map document (take 3 rag_evidence) in
    if Qle_bool (confidence_threshold cfg) (confidence rag_result) then
      {| c_result := rag_result; c_evidence := documents;
         c_fallback_chain := chain2; c_llm_failed := None |}
    else
      let llm_result := _llm_classification call dish_name rag_evidence in
      let chain3 := chain2 ++ [Consulted "llm" (round2 (confidence llm_result))] in
      let llm_failed :=
        Qeq_bool (confidence llm_result) 0 || is_none (is_vegetarian llm_result) in
      {| c_result := _combine_results keyword_result rag_result llm_result;
         c_evidence := documents;
         c_fallback_chain := if llm_failed then chain3 ++ [FallbackToRag] else chain3;
         c_llm_failed := Some llm_failed |}.

(** [a or b] *)
Definition or_else (a b : pyval) : pyval := if truthy a then a else b.

(** One turn of the loop of [_parse_batch_response] over the decoded array.
    [items] are the names of the batch, which the caller never leaves empty. *)
Definition batch_elem_step (items : list string) (i : nat) (el : batch_elem)
    (results : gmap string tier_result) : outcome (gmap string tier_result) :=
  match el with
  | ENotObject v =>
      Raise (OtherException ("'" +:+ type_name v +:+ "' object has no attribute 'get'"))
  | EObject dish name o =>
      let dish_name := or_else dish name in
      let dish_name :=
        if negb (truthy dish_name) && (i <? length items)%nat
        then VStr (nth i items "") else dish_name in
      if truthy dish_name then
        let store (key : option string) :=
          match result_of_object o "Batch LLM" "llm_batch" with
          | Ok r => Ok (match key with Some k => <[k := r]> results | None => results end)
          | Raise e => Raise e
          end in
        match dish_name with
        | VStr d =>
            match find (fun item => contains (lower item) (lower d)
                                    || contains (lower d) (lower item)) items with
            | Some item => store (Some item)
            | None => store (Some d)
            end
        | v =>
            match items with
            | [] => store None
            | _ => Raise (OtherException
                     ("'" +:+ type_name v +:+ "' object has no attribute 'lower'"))
            end
        end
      else Ok results
  end.

(** The loop, stopped by the first exception; the results stored before it
    stay in the dict. *)
Fixpoint batch_loop (items : list string) (i : nat) (data : list batch_elem)
    (results : gmap string tier_result) : gmap string tier_result * option exn :=
  match data with
  | [] => (results, None)
  | el :: rest =>
      match batch_elem_step items i el results with
      | Ok results' => batch_loop items (S i) rest results'
      | Raise e => (results, Some e)
      end
  end.

Definition fill_missing (items : list string)
    (results : gmap string tier_result) : gmap string tier_result :=
  foldl (fun res name =>
           match res !! name with
           | Some _ => res
           | None => <[name := failed "Failed to parse batch response" "llm_batch"]> res
           end) results items.

Definition _parse_batch_response (response : batch_reply) (items : list string)
    : outcome (gmap string tier_result) :=
  match response with
  | BArray data =>
      match batch_loop items 0 data ∅ with
      | (results, None) => Ok results
      | (results, Some (ValueError _)) => Ok (fill_missing items results)
      | (_, Some e) => Raise e
      end
  | _ => Ok (fill_missing items ∅)
  end.

Definition classify_batch_llm (call : nat) (items : list string)
    : gmap string tier_result :=
  match items with
  | [] => ∅
  | _ =>
    let errors (msg : string) : gmap string tier_result :=
      foldl (fun m name => <[name := failed ("Batch LLM error: " +:+ msg) "llm_batch"]> m)
            ∅ items in
    match generate_batch env call items with
    | BRaise msg => errors msg
    | response =>
        match _parse_batch_response response items with
        | Ok results => results
        | Raise e => errors (error_msg e)
        end
    end
  end.

End Engine.
End LLMClassifier.

(** ** Vector store ([src/mcp/rag/vectorstore.py]) *)

Module VectorStore.

(** A row of what the collection returns for the one query embedding: the
    parallel lists [ids], [documents], [metadatas], [distances] zipped. *)
Record row := {
  r_id : string;
  r_document : string;
  r_metadata : metadata;
  r_distance : Q
}.

Section Store.

Variable cfg : settings.
(** [self._collection.query(query_embeddings=[embed(query)], n_results=k)] *)
Variable collection_query : string -> nat -> list row.

Definition hit_of_row (r : row) : rag_hit :=
  {| h_id := r_id r;
     document := r_document r;
     h_metadata := r_metadata r;
     distance := r_distance r;
     relevance_score := 1 - r_distance r |}.

(** [k = top_k or settings.rag_top_k]: an absent [top_k] and a [top_k] of
    zero both select the configured value. *)
Definition effective_k (top_k : option nat) : nat :=
  match top_k with
  | Some (S n) => S n
  | _ => rag_top_k cfg
  end.

Definition search (query : string) (top_k : option nat) : list rag_hit :=
  map hit_of_row (collection_query query (effective_k top_k)).

End Store.
End VectorStore.

(** ** Classifier tool ([src/mcp/tools/classifier.py]) *)

Module ClassifierTool.

(** What the loops read from an input dict:
    [item.get("name", "")], [item.get("price", 0.0)],
    [item.get("source_image", 1)]. *)
Record menu_item := {
  i_name : string;
  i_price : pyval;
  i_source_image : pyval
}.

(** [None] when the name is not a string: [dish_name.lower()] raises and the
    request fails as a whole. *)
Definition read_item (item : pydict) : option menu_item :=
  match get item "name" (VStr "") with
  | VStr n => Some {| i_name := n;
                      i_price := get item "price" (VFloat 0);
                      i_source_image := get item "source_image" (VInt 1) |}
  | _ => None
  end.

(** A dict the tool has built, with the position of the input item it was
    built for.  The position stands for the identity of the object: the tool
    allocates its dicts afresh for every item. *)
Record placed := { origin : nat; entry : pydict }.

Record classification := {
  vegetarian_items : list placed;
  non_vegetarian_items : list placed;
  uncertain_items : list placed;
  all_items : list placed
}.

Definition no_items : classification :=
  {| vegetarian_items := []; non_vegetarian_items := [];
     uncertain_items := []; all_items := [] |}.

Definition add_vegetarian (p : placed) (c : classification) : classification :=
  {| vegetarian_items := vegetarian_items c ++ [p];
     non_vegetarian_items := non_vegetarian_items c;
     uncertain_items := uncertain_items c;
     all_items := all_items c |}.

Definition add_non_vegetarian (p : placed) (c : classification) : classification :=
  {| vegetarian_items := vegetarian_items c;
     non_vegetarian_items := non_vegetarian_items c ++ [p];
     uncertain_items := uncertain_items c;
     all_items := all_items c |}.

Definition add_uncertain (p : placed) (c : classification) : classification :=
  {| vegetarian_items := vegetarian_items c;
     non_vegetarian_items := non_vegetarian_items c;
     uncertain_items := uncertain_items c ++ [p];
     all_items := all_items c |}.

Definition add_all (p : placed) (c : classification) : classification :=
  {| vegetarian_items := vegetarian_items c;
     non_vegetarian_items := non_vegetarian_items c;
     uncertain_items := uncertain_items c;
     all_items := all_items c ++ [p] |}.

(** The dict [classified_item] of both strategies. *)
Definition classified_item (item_name : string) (item_price : pyval) (conf : Q)
    (why : string) (evidence : list string) (source : pyval) (meth : string)
    : pydict :=
  <["name" := VStr item_name]>
    (<["price" := item_price]>
      (<["confidence" := VFloat conf]>
        (<["reasoning" := VStr why]>
          (<["evidence" := VList (map VStr evidence)]>
            (<["source_image" := source]>
              (<["method" := VStr meth]> ∅)))))).

(** The copy [{**classified_item, ...}] appended to [all_items]. *)
Definition detailed (ci : pydict) (is_veg : pyval) (related : list string)
    (category : pyval) : pydict :=
  <["is_vegetarian" := is_veg]>
    (<["currency" := VStr "USD"]>
      (<["related_ingredients" := VList (map VStr related)]>
        (<["category" := category]> ci))).

Section Tool.

Variable cfg : settings.
Variable kb : keywords.
Variable env : oracles.

(** The three-way test that ends both loops. *)
Definition bucket (i : nat) (ci : pydict) (is_veg : pyval) (conf : Q)
    (c : classification) : classification :=
  if is_none is_veg || Qlt_bool conf (hitl_threshold cfg) then
    add_uncertain
      {| origin := i; entry := <["suggested_classification" := is_veg]> ci |} c
  else if truthy is_veg then
    add_vegetarian {| origin := i; entry := ci |} c
  else
    add_non_vegetarian {| origin := i; entry := ci |} c.

Definition sequential_step (c : classification) (i : nat) (item : menu_item)
    : classification :=
  let result := LLMClassifier.classify cfg kb env i (i_name item) in
  let r := LLMClassifier.c_result result in
  let ci := classified_item (i_name item) (i_price item) (confidence r)
              (reasoning r) (LLMClassifier.c_evidence result)
              (i_source_image item) (method r) in
  let is_veg := is_vegetarian r in
  bucket i ci is_veg (confidence r)
    (add_all {| origin := i; entry := detailed ci is_veg [] VNone |} c).

Fixpoint sequential_loop (i : nat) (items : list menu_item)
    (c : classification) : classification :=
  match items with
  | [] => c
  | item :: rest => sequential_loop (S i) rest (sequential_step c i item)
  end.

Definition _execute_sequential (items : list menu_item) : classification :=
  sequential_loop 0 items no_items.

(** An entry of [needs_llm]. *)
Record pending := {
  n_origin : nat;
  n_name : string;
  n_price : pyval;
  n_source_image : pyval;
  n_evidence : list rag_hit;
  n_rag_result : tier_result;
  n_related_ingredients : list string
}.

(** First pass of the batch strategy, one item: the buckets and
    [needs_llm] after it. *)
Definition first_pass_step (st : classification * list pending) (i : nat)
    (item : menu_item) : classification * list pending :=
  let '(c, needs_llm) := st in
  let keyword_result := LLMClassifier._keyword_classification kb (i_name item) in
  if Qle_bool (9 # 10) (confidence keyword_result) then
    let ci := classified_item (i_name item) (i_price item)
                (confidence keyword_result) (reasoning keyword_result) []
                (i_source_image item) "keyword" in
    let c := add_all {| origin := i;
                        entry := detailed ci (is_vegetarian keyword_result) [] VNone |} c in
    if truthy (is_vegetarian keyword_result)
    then (add_vegetarian {| origin := i; entry := ci |} c, needs_llm)
    else (add_non_vegetarian {| origin := i; entry := ci |} c, needs_llm)
  else
    let rag_evidence := _retrieve_evidence env (i_name item) in
    let rag_result := LLMClassifier._analyze_rag_evidence rag_evidence in
    let related_ingredients :=
      map (fun e => m_name (h_metadata e))
          (List.filter (fun e => String.eqb (m_type (h_metadata e)) "ingredient")
                       (take 3 rag_evidence)) in
    let waiting :=
      {| n_origin := i; n_name := i_name item; n_price := i_price item;
         n_source_image := i_source_image item; n_evidence := rag_evidence;
         n_rag_result := rag_result;
         n_related_ingredients := related_ingredients |} in
    if Qle_bool (confidence_threshold cfg) (confidence rag_result) then
      let ci := classified_item (i_name item) (i_price item)
                  (confidence rag_result) (reasoning rag_result)
                  (map document (take 3 rag_evidence))
                  (i_source_image item) "rag" in
      let category :=
        match rag_evidence with
        | e :: _ => VStr (m_category (h_metadata e))
        | [] => VNone
        end in
      let c := add_all {| origin := i;
                          entry := detailed ci (is_vegetarian rag_result)
                                     related_ingredients category |} c in
      if truthy (is_vegetarian rag_result) then
        (add_vegetarian {| origin := i; entry := ci |} c, needs_llm)
      else
        match is_vegetarian rag_result with
        | VBool false => (add_non_vegetarian {| origin := i; entry := ci |} c, needs_llm)
        | _ => (c, needs_llm ++ [waiting])
        end
    else (c, needs_llm ++ [waiting]).

Fixpoint first_pass (i : nat) (items : list menu_item)
    (st : classification * list pending) : classification * list pending :=
  match items with
  | [] => st
  | item :: rest => first_pass (S i) rest (first_pass_step st i item)
  end.

(** The slices [needs_llm[i:i + batch_size]] for
    [i in range(0, len(needs_llm), batch_size)].  [fuel] bounds the number
    of slices; the length of the list is enough. *)
Fixpoint slices {A : Type} (fuel size : nat) (l : list A) : list (list A) :=
  match fuel with
  | O => []
  | S fuel' =>
      match l with
      | [] => []
      | _ => take size l :: slices fuel' size (drop size l)
      end
  end.

Definition batches {A : Type} (l : list A) : list (list A) :=
  slices (length l) (Pos.to_nat (llm_batch_size cfg)) l.

(** Second pass, one item of a batch. *)
Definition second_pass_step (llm_results : gmap string tier_result)
    (c : classification) (item : pending) : classification :=
  let llm_result := default no_result (llm_results !! n_name item) in
  let combined :=
    LLMClassifier._combine_results no_result (n_rag_result item) llm_result in
  let ci := classified_item (n_name item) (n_price item) (confidence combined)
              (reasoning combined) (map document (take 3 (n_evidence item)))
              (n_source_image item) "llm_batch" in
  let is_veg := is_vegetarian combined in
  bucket (n_origin item) ci is_veg (confidence combined)
    (add_all {| origin := n_origin item;
                entry := detailed ci is_veg (n_related_ingredients item) VNone |} c).

(** Second pass, one batch: one call of the provider, then its items. *)
Definition second_pass_batch (call : nat) (batch : list pending)
    (c : classification) : classification :=
  let llm_results :=
    LLMClassifier.classify_batch_llm env call (map n_name batch) in
  foldl (second_pass_step llm_results) c batch.

Fixpoint second_pass (call : nat) (bs : list (list pending))
    (c : classification) : classification :=
  match bs with
  | [] => c
  | batch :: rest => second_pass (S call) rest (second_pass_batch call batch c)
  end.

Definition _execute_with_batch (items : list menu_item) : classification :=
  let '(c, needs_llm) := first_pass 0 items (no_items, []) in
  second_pass 0 (batches needs_llm) c.

Definition execute (items : list menu_item) : classification :=
  if llm_batch_enabled cfg
  then _execute_with_batch items
  else _execute_sequential items.

End Tool.
End ClassifierTool.

(** ** The classify-and-calculate endpoint ([src/mcp/main.py]) *)

Module Main.

(** The two shapes of the response; [status] tells them apart. *)
Inductive response : Type :=
| NeedsReview (confident_items uncertain_items : list pydict)
              (partial_sum : Q) (all_items : list pydict)
| Success (vegetarian_items : list pydict) (total_sum : Q)
          (all_items : list pydict).

Definition status (r : response) : string :=
  match r with
  | NeedsReview _ _ _ _ => "needs_review"
  | Success _ _ _ => "success"
  end.

Section Endpoint.

Variable cfg : settings.
Variable kb : keywords.
Variable env : oracles.

Definition classify_and_calculate (items : list ClassifierTool.menu_item)
    : response :=
  let classification := ClassifierTool.execute cfg kb env items in
  let all_items :=
    map ClassifierTool.entry (ClassifierTool.all_items classification) in
  let veg :=
    map ClassifierTool.entry (ClassifierTool.vegetarian_items classification) in
  let uncertain :=
    map ClassifierTool.entry (ClassifierTool.uncertain_items classification) in
  match uncertain with
  | _ :: _ =>
      NeedsReview veg uncertain
        (CalculatorTool.total_sum (CalculatorTool.execute veg)) all_items
  | [] =>
      Success veg (CalculatorTool.total_sum (CalculatorTool.execute veg)) all_items
  end.

(** The endpoint on the dicts of the request: it fails as a whole when an
    item cannot be read. *)
Definition classify_and_calculate_request (items : list pydict)
    : option response :=
  classify_and_calculate <$> mapM ClassifierTool.read_item items.

End Endpoint.
End Main.

(** ** The shipped configuration *)

(** The defaults of [configs/settings.py]. *)
Definition default_settings : settings :=
  {| confidence_threshold := 6 # 10;
     hitl_threshold := 4 # 10;
     rag_top_k := 5;
     llm_batch_enabled := true;
     llm_batch_size := 8 |}.

(** The keyword lists of [KNOWLEDGE_BASE["keywords"]], lower-cased as the
    constructor of the engine stores them. *)
Definition default_keywords : keywords :=
  {| _vegetarian_markers :=
       map lower ["(v)"; "[v]"; "(vg)"; "[vg]"; "(vegan)"; "(vegetarian)"];
     _positive_keywords :=
       map lower ["vegetarian"; "veggie"; "vegan"; "plant-based"; "meatless";
                  "meat-free"; "tofu"; "tempeh"; "seitan"; "falafel"; "hummus";
                  "🌱"; "🥬"; "🥕"];
     _negative_keywords :=
       map lower ["chicken"; "beef"; "pork"; "lamb"; "duck"; "turkey";
                  "fish"; "salmon"; "tuna"; "shrimp"; "crab"; "lobster";
                  "bacon"; "ham"; "sausage"; "pepperoni"; "prosciutto";
                  "anchovy"; "anchovies"; "oyster"; "mussel"; "clam";
                  "caesar"] |}.

(** A request dict [{"name": n, "price": p}]. *)
Definition menu_dict (n : string) (p : pyval) : pydict :=
  <["name" := VStr n]> (<["price" := p]> ∅).

(** ** Specification-side definitions *)

(** The prices the calculator is specified to add up: those that are numbers
    and strictly positive, in list order. *)
Definition positive_prices (l : list pydict) : list Q :=
  omap (fun item : pydict =>
          as_number (get item "price" (VFloat 0)) ≫= fun p =>
          if Qlt_bool 0 p then Some p else None) l.

(** Σ over a list of rationals. *)
Definition Qsigma (l : list Q) : Q := foldr Qplus 0%Q l.

(** A correction counts for the dish [n] when the lower-cased names agree. *)
Definition same_dish (n : string) (c : CalculatorTool.correction) : bool :=
  String.eqb (lower (CalculatorTool.c_name c)) (lower n).

(** The corrections with every correction for [n] dropped but the last one. *)
Fixpoint keep_last_of (n : string) (cs : list CalculatorTool.correction)
    : list CalculatorTool.correction :=
  match cs with
  | [] => []
  | c :: rest =>
      if same_dish n c && existsb (same_dish n) rest
      then keep_last_of n rest
      else c :: keep_last_of n rest
  end.

(** The label the map holds for key [k]: that of the last correction stored
    under it. *)
Fixpoint last_label (k : string) (cs : list CalculatorTool.correction)
    : option pyval :=
  match cs with
  | [] => None
  | c :: rest =>
      match last_label k rest with
      | Some v => Some v
      | None =>
          if String.eqb (lower (CalculatorTool.c_name c)) k
          then Some (CalculatorTool.c_is_vegetarian c) else None
      end
  end.

(** [max(0, min(1, x))] *)
Definition clamp01 (x : Q) : Q :=
  if Qlt_bool x 0 then 0%Q else if Qlt_bool 1 x then 1%Q else x.

(** ** The weighted vote, taken apart *)

(** A tier with its confidence replaced. *)
Definition with_confidence (r : tier_result) (c : Q) : tier_result :=
  {| is_vegetarian := is_vegetarian r; confidence := c;
     reasoning := reasoning r; method := method r |}.

Definition has_opinion (rw : tier_result * Q) : bool :=
  negb (is_none (is_vegetarian rw.1)).

Definition vote_term (rw : tier_result * Q) : Q :=
  (if truthy (is_vegetarian rw.1) then 1 else 0) * confidence rw.1 * rw.2.

Definition weight_term (rw : tier_result * Q) : Q :=
  confidence rw.1 * rw.2.

(** The [is_vegetarian] that [_combine_results] returns for the tiers that
    have an opinion. *)
Definition verdict (valid_results : list (tier_result * Q)) : pyval :=
  match valid_results with
  | [] => VNone
  | first :: _ =>
      if Qeq_bool (Qsum (map weight_term valid_results)) 0
      then is_vegetarian first.1
      else VBool (Qlt_bool (1 # 2)
                    (Qsum (map vote_term valid_results)
                     / Qsum (map weight_term valid_results)))
  end.

(** The confidence [_combine_results] returns when the weights do not cancel. *)
Definition vote_confidence (valid_results : list (tier_result * Q)) : Q :=
  let p := (Qsum (map vote_term valid_results)
            / Qsum (map weight_term valid_results))%Q in
  round3 (Qabs (p - (1 # 2)) * 2).

(** ** Bookkeeping of the classifier tool *)

(** The dict [d] carries the three fields read from the input item. *)
Definition describes (item : ClassifierTool.menu_item) (d : pydict) : Prop :=
  d !! "name" = Some (VStr (ClassifierTool.i_name item))
  /\ d !! "price" = Some (ClassifierTool.i_price item)
  /\ d !! "source_image" = Some (ClassifierTool.i_source_image item).

(** The placed dict [p] was built for the item at position [origin p] of
    [items] and carries its fields. *)
Definition built_for (items : list ClassifierTool.menu_item)
    (p : ClassifierTool.placed) : Prop :=
  exists item, items !! ClassifierTool.origin p = Some item
               /\ describes item (ClassifierTool.entry p).

(** The three buckets, one after the other. *)
Definition bucketed (c : ClassifierTool.classification)
    : list ClassifierTool.placed :=
  ClassifierTool.vegetarian_items c
  ++ ClassifierTool.non_vegetarian_items c
  ++ ClassifierTool.uncertain_items c.

(** The positions, counted from [i], of the items that satisfy [f]. *)
Fixpoint positions (f : ClassifierTool.menu_item -> bool) (i : nat)
    (items : list ClassifierTool.menu_item) : list nat :=
  match items with
  | [] => []
  | item :: rest =>
      if f item then i :: positions f (S i) rest else positions f (S i) rest
  end.

(** An item the first pass of the batch strategy settles: the keyword tier
    is decisive, or the RAG tier reaches the confidence threshold. *)
Definition settled_early (cfg : settings) (kb : keywords) (env : oracles)
    (item : ClassifierTool.menu_item) : bool :=
  Qle_bool (9 # 10)
    (confidence (LLMClassifier._keyword_classification kb
                   (ClassifierTool.i_name item)))
  || Qle_bool (confidence_threshold cfg)
       (confidence (LLMClassifier._analyze_rag_evidence
                      (_retrieve_evidence env (ClassifierTool.i_name item)))).

(** The entry [n] of [needs_llm] stands for the item at position
    [n_origin n] of [items]. *)
Definition pending_for (items : list ClassifierTool.menu_item)
    (n : ClassifierTool.pending) : Prop :=
  exists item, items !! ClassifierTool.n_origin n = Some item
               /\ ClassifierTool.n_name n = ClassifierTool.i_name item
               /\ ClassifierTool.n_price n = ClassifierTool.i_price item
               /\ ClassifierTool.n_source_image n = ClassifierTool.i_source_image item.

(** Every dict in the buckets and in [all_items] was built for an item of the
    request. *)
Definition well_built (items : list ClassifierTool.menu_item)
    (c : ClassifierTool.classification) : Prop :=
  Forall (built_for items) (bucketed c)
  /\ Forall (built_for items) (ClassifierTool.all_items c).

(** The positions the first pass has accounted for: bucketed or waiting. *)
Definition accounted (st : ClassifierTool.classification * list ClassifierTool.pending)
    : list nat :=
  map ClassifierTool.origin (bucketed st.1)
  ++ map ClassifierTool.n_origin st.2.

(** Bucketing is complete: the three buckets hold as many dicts as the
    request has items, the positions they were built for are the positions of
    the request, each once, so no position is in two buckets, and every dict
    carries the fields of the item at its position. *)
Definition complete_bucketing (items : list ClassifierTool.menu_item)
    (c : ClassifierTool.classification) : Prop :=
  length (ClassifierTool.vegetarian_items c)
  + length (ClassifierTool.non_vegetarian_items c)
  + length (ClassifierTool.uncertain_items c) = length items
  /\ map ClassifierTool.origin (bucketed c) ≡ₚ seq 0 (length items)
  /\ NoDup (map ClassifierTool.origin (bucketed c))
  /\ (forall p q, p ∈ ClassifierTool.vegetarian_items c ->
                  q ∈ ClassifierTool.non_vegetarian_items c ->
                  ClassifierTool.origin p <> ClassifierTool.origin q)
  /\ (forall p q, p ∈ ClassifierTool.vegetarian_items c ->
                  q ∈ ClassifierTool.uncertain_items c ->
                  ClassifierTool.origin p <> ClassifierTool.origin q)
  /\ (forall p q, p ∈ ClassifierTool.non_vegetarian_items c ->
                  q ∈ ClassifierTool.uncertain_items c ->
                  ClassifierTool.origin p <> ClassifierTool.origin q)
  /\ Forall (built_for items) (bucketed c).

(** ** Worked inputs *)

(** A line with a negative price and a line whose price is text, as the
    review store keeps them, and the corrections that call them vegetarian. *)
Definition refund_item : pydict :=
  <["source_image" := VInt 1]> (menu_dict "Refund" (VFloat (-5))).

Definition text_price_item : pydict :=
  <["source_image" := VInt 1]> (menu_dict "Soup" (VStr "12.00")).

Definition refund_is_vegetarian : CalculatorTool.correction :=
  {| CalculatorTool.c_name := "refund";
     CalculatorTool.c_is_vegetarian := VBool true |}.

Definition soup_is_vegetarian : CalculatorTool.correction :=
  {| CalculatorTool.c_name := "soup";
     CalculatorTool.c_is_vegetarian := VBool true |}.

(** The corrections of a reviewer who changes their mind about the soup. *)
Definition soup_no_then_yes : list CalculatorTool.correction :=
  [ {| CalculatorTool.c_name := "Soup";
       CalculatorTool.c_is_vegetarian := VBool false |};
    {| CalculatorTool.c_name := "SOUP";
       CalculatorTool.c_is_vegetarian := VBool true |} ].

(** Tier results for a dish the keyword matcher does not know: RAG leaning
    non-vegetarian at 0.5, the LLM saying vegetarian at 0.6. *)
Definition rag_leaning_non_veg : tier_result :=
  {| is_vegetarian := VBool false; confidence := 5 # 10;
     reasoning := "Similar to: chicken (non-vegetarian)"; method := "rag" |}.

Definition llm_says_veg : tier_result :=
  {| is_vegetarian := VBool true; confidence := 6 # 10;
     reasoning := "No meat listed"; method := "llm" |}.

(** Two hits of the vector store, vegetarian evidence slightly ahead. *)
Definition tofu_hit : rag_hit :=
  {| h_id := "ing_tofu";
     document := "tofu: Soybean curd, plant-based protein source";
     h_metadata := {| m_name := "tofu"; m_is_vegetarian := VBool true;
                      m_category := "protein"; m_type := "ingredient";
                      m_notes := "Vegan protein alternative" |};
     distance := 4 # 10;
     relevance_score := 6 # 10 |}.

Definition chicken_hit : rag_hit :=
  {| h_id := "ing_chicken";
     document := "chicken: Poultry meat";
     h_metadata := {| m_name := "chicken"; m_is_vegetarian := VBool false;
                      m_category := "meat"; m_type := "ingredient";
                      m_notes := "" |};
     distance := 5 # 10;
     relevance_score := 5 # 10 |}.

(** A provider whose JSON reply carries a negative confidence:
    [{"is_vegetarian": false, "confidence": -0.25, "reasoning": "unsure"}]. *)
Definition negative_confidence_reply : llm_object :=
  {| o_is_vegetarian := VBool false;
     o_confidence := Some (VFloat (-1 # 4));
     o_reasoning := Some "unsure" |}.

Definition negative_confidence_env : oracles :=
  {| _retrieve_evidence := fun _ => [tofu_hit; chicken_hit];
     generate_single := fun _ _ _ => SObject negative_confidence_reply;
     generate_batch := fun _ _ => BNoArray;
     float_of_str := fun _ => None |}.

(** A collection whose nearest documents lie at distances 0.4 and 1.5. *)
Definition near_row : VectorStore.row :=
  {| VectorStore.r_id := "ing_tofu";
     VectorStore.r_document := "tofu: Soybean curd, plant-based protein source";
     VectorStore.r_metadata := h_metadata tofu_hit;
     VectorStore.r_distance := 4 # 10 |}.

Definition far_row : VectorStore.row :=
  {| VectorStore.r_id := "ing_chicken";
     VectorStore.r_document := "chicken: Poultry meat";
     VectorStore.r_metadata := h_metadata chicken_hit;
     VectorStore.r_distance := 15 # 10 |}.

Definition near_far_collection (query : string) (k : nat) : list VectorStore.row :=
  take k [near_row; far_row].

(** A request of two dishes, and collaborators that know nothing about the
    first: no evidence in the store, and a provider that answers
    [[{"dish": "Chef's Mystery Bowl", "is_vegetarian": true,
       "confidence": 0.8, "reasoning": "vegetables only"}]]. *)
Definition mystery_then_chicken : list ClassifierTool.menu_item :=
  [ {| ClassifierTool.i_name := "Chef's Mystery Bowl";
       ClassifierTool.i_price := VFloat 12;
       ClassifierTool.i_source_image := VInt 1 |};
    {| ClassifierTool.i_name := "Chicken Wings";
       ClassifierTool.i_price := VFloat 9;
       ClassifierTool.i_source_image := VInt 1 |} ].

Definition mystery_env : oracles :=
  {| _retrieve_evidence := fun _ => [];
     generate_single := fun _ _ _ => SNoObject;
     generate_batch := fun _ _ =>
       BArray [EObject (VStr "Chef's Mystery Bowl") VNone
                 {| o_is_vegetarian := VBool true;
                    o_confidence := Some (VFloat (8 # 10));
                    o_reasoning := Some "vegetables only" |}];
     float_of_str := fun _ => None |}.

(** A provider whose array holds no object at all: the parser returns an
    empty dict and the tool finds no result for the dish. *)
Definition silent_env : oracles :=
  {| _retrieve_evidence := fun _ => [];
     generate_single := fun _ _ _ => SNoObject;
     generate_batch := fun _ _ => BArray [];
     float_of_str := fun _ => None |}.

(** The configuration with the batch strategy switched off. *)
Definition sequential_settings : settings :=
  {| confidence_threshold := 6 # 10;
     hitl_threshold := 4 # 10;
     rag_top_k := 5;
     llm_batch_enabled := false;
     llm_batch_size := 8 |}.

(** ** Further specification-side definitions *)

(** What one turn of the loop of [recompute_with_corrections] appends for
    [item]: nothing, the item itself, or its human-verified copy; [None] when
    the turn raises. *)
Definition kept (cmap : gmap string pyval) (item : pydict) : option (list pydict) :=
  CalculatorTool.recompute_step cmap [] item.

(** A dict as [recompute_with_corrections] builds it for a dish that a
    correction with a true label names. *)
Definition human_verified_by (cmap : gmap string pyval) (d : pydict) : Prop :=
  exists n price label,
    d = CalculatorTool.human_verified n price
    /\ cmap !! lower n = Some label /\ truthy label = true.

(** The key and the label a correction contributes to the map. *)
Definition map_entry (c : CalculatorTool.correction) : string * pyval :=
  (lower (CalculatorTool.c_name c), CalculatorTool.c_is_vegetarian c).

(** The same reviewer decisions as [soup_no_then_yes], typed in other cases. *)
Definition soup_no_then_yes_other_case : list CalculatorTool.correction :=
  [ {| CalculatorTool.c_name := "sOUP";
       CalculatorTool.c_is_vegetarian := VBool false |};
    {| CalculatorTool.c_name := "soup";
       CalculatorTool.c_is_vegetarian := VBool true |} ].

(** A hit too far from the query to count, and a store that is sure about
    tofu dishes. *)
Definition faint_hit : rag_hit :=
  {| h_id := "dish_beef_burger";
     document := "Beef Burger: Ground beef patty in a bun";
     h_metadata := {| m_name := "Beef Burger"; m_is_vegetarian := VBool false;
                      m_category := "american"; m_type := "dish";
                      m_notes := "" |};
     distance := 8 # 10;
     relevance_score := 2 # 10 |}.

Definition tofu_env : oracles :=
  {| _retrieve_evidence := fun _ => [tofu_hit; faint_hit];
     generate_single := fun _ _ _ => SNoObject;
     generate_batch := fun _ _ => BNoArray;
     float_of_str := fun _ => None |}.

(** The hits that count as evidence: relevance at least 0.3. *)
Definition relevant (h : rag_hit) : bool :=
  negb (Qlt_bool (relevance_score h) (3 # 10)).

(** The same store as [tofu_env] with a provider that does answer. *)
Definition tofu_env_answering : oracles :=
  {| _retrieve_evidence := fun _ => [tofu_hit; faint_hit];
     generate_single := fun _ _ _ => SObject negative_confidence_reply;
     generate_batch := fun _ _ => BArray [];
     float_of_str := fun _ => None |}.

(** The result the batch parser builds from a decoded object, when the
    conversion of its confidence succeeds. *)
Definition object_result (env : oracles) (o : llm_object) : option tier_result :=
  match LLMClassifier.result_of_object env o "Batch LLM" "llm_batch" with
  | Ok r => Some r
  | Raise _ => None
  end.

(** An array element that names its dish under the key ["dish"]. *)
Definition answer_for (da : string * llm_object) : batch_elem :=
  EObject (VStr da.1) VNone da.2.

(** No name of the batch is contained in another one, case ignored. *)
Definition unrelated_names (items : list string) : Prop :=
  forall a b, In a items -> In b items -> a <> b ->
              contains (lower a) (lower b) = false.

(** Is the reply something other than a decoded array? *)
Definition no_array (reply : batch_reply) : bool :=
  match reply with BArray _ => false | _ => true end.

(** The dict the batch parser is expected to return for a list of answers:
    each answer stored under its dish name. *)
Definition stored_answers (env : oracles) (answers : list (string * llm_object))
    : gmap string tier_result :=
  foldl (fun m (da : string * llm_object) =>
           match object_result env da.2 with
           | Some r => <[da.1 := r]> m
           | None => m
           end) ∅ answers.

(** Two answers of a provider, for a salad and for a soup, in that order. *)
Definition says_vegetarian : llm_object :=
  {| o_is_vegetarian := VBool true;
     o_confidence := Some (VFloat (9 # 10));
     o_reasoning := Some "vegetables only" |}.

Definition says_meat : llm_object :=
  {| o_is_vegetarian := VBool false;
     o_confidence := Some (VFloat (8 # 10));
     o_reasoning := Some "contains meat" |}.

(** ** Review store and feedback log ([src/api/routes/review.py]) *)

Module Review.

(** A [MenuItemSchema]: the API validates items into this shape before it
    keeps or forwards them. *)
Record MenuItemSchema := {
  s_name : string;
  s_price : Q;
  s_source_image : option Z
}.

(** [item.model_dump()] *)
Definition model_dump (item : MenuItemSchema) : pydict :=
  <["name" := VStr (s_name item)]>
    (<["price" := VFloat (s_price item)]>
      (<["source_image" := match s_source_image item with
                           | Some i => VInt i
                           | None => VNone
                           end]> ∅)).

(** A value of [_pending_reviews]. *)
Record pending_review := {
  p_items : list MenuItemSchema;
  p_partial_result : pydict
}.

(** A line of the feedback log. *)
Record feedback_record := {
  f_timestamp : string;
  f_request_id : string;
  f_dish_name : string;
  f_human_label : pyval;
  f_feedback_type : string
}.

(** The two pieces of state of the module: the dict [_pending_reviews] and
    the file at [_feedback_log_path] ([None] while the file does not exist). *)
Record state := {
  _pending_reviews : gmap string pending_review;
  feedback_file : option (list feedback_record)
}.

Definition store_pending_review (request_id : string)
    (items : list MenuItemSchema) (partial_result : pydict) (st : state) : state :=
  {| _pending_reviews :=
       <[request_id := {| p_items := items; p_partial_result := partial_result |}]>
         (_pending_reviews st);
     feedback_file := feedback_file st |}.

Definition get_pending_review (request_id : string) (st : state)
    : option pending_review :=
  _pending_reviews st !! request_id.

Definition clear_pending_review (request_id : string) (st : state) : state :=
  {| _pending_reviews := delete request_id (_pending_reviews st);
     feedback_file := feedback_file st |}.

(** The records [log_feedback] writes, one per correction; [now k] is the
    clock read for the [k]-th of them. *)
Definition feedback_records (now : nat -> string) (request_id : string)
    (corrections : list CalculatorTool.correction) : list feedback_record :=
  imap (fun k c =>
          {| f_timestamp := now k;
             f_request_id := request_id;
             f_dish_name := CalculatorTool.c_name c;
             f_human_label := CalculatorTool.c_is_vegetarian c;
             f_feedback_type := "hitl_correction" |}) corrections.

(** [log_feedback]: appends to the file, creating it; when the file cannot
    be opened ([writable = false]) the exception is swallowed and nothing
    changes. *)
Definition log_feedback (writable : bool) (now : nat -> string)
    (request_id : string) (corrections : list CalculatorTool.correction)
    (st : state) : state :=
  if writable then
    {| _pending_reviews := _pending_reviews st;
       feedback_file :=
         Some (default [] (feedback_file st)
               ++ feedback_records now request_id corrections) |}
  else st.

(** The loop of [get_feedback_stats] over the records: per dish name, the
    pair [(veg_count, non_veg_count)]. *)
Definition count_step (dishes : gmap string (nat * nat)) (item : feedback_record)
    : gmap string (nat * nat) :=
  let counts := default (0, 0) (dishes !! f_dish_name item) in
  if truthy (f_human_label item)
  then <[f_dish_name item := (S counts.1, counts.2)]> dishes
  else <[f_dish_name item := (counts.1, S counts.2)]> dishes.

(** The two dicts [get_feedback_stats] can answer: the one for a missing
    file, with its empty ["feedback"] list, and the one computed from the
    records. *)
Inductive feedback_stats : Type :=
| NoFeedback
| Stats (total_corrections unique_dishes : nat)
        (dish_stats : gmap string (nat * nat))
        (recent_feedback : list feedback_record).

(** The value under ["total_corrections"], a key of both dicts. *)
Definition total_corrections (s : feedback_stats) : nat :=
  match s with
  | NoFeedback => 0
  | Stats total _ _ _ => total
  end.

Definition get_feedback_stats (st : state) : feedback_stats :=
  match feedback_file st with
  | None => NoFeedback
  | Some feedback =>
      let dishes := foldl count_step ∅ feedback in
      Stats (length feedback) (size dishes) dishes
            (drop (length feedback - 20) feedback)
  end.

(** What [submit_review] answers. *)
Inductive review_response : Type :=
| NotFound                       (* HTTP 404 *)
| ServerError                    (* the call to the MCP server failed *)
| Reviewed (request_id : string) (vegetarian_items : list pydict)
           (total_sum : Q) (applied_corrections : nat).

(** [submit_review].  [mcp_up] tells whether the call to the recompute tool
    of the MCP server goes through; the vegetarian items of the response are
    the dicts the tool returns, each wrapped in a [ClassifiedItemSchema]. *)
Definition submit_review (writable mcp_up : bool) (now : nat -> string)
    (request_id : string) (corrections : list CalculatorTool.correction)
    (st : state) : state * review_response :=
  match get_pending_review request_id st with
  | None => (st, NotFound)
  | Some pending =>
      let st := log_feedback writable now request_id corrections st in
      let result :=
        if mcp_up
        then CalculatorTool.recompute_with_corrections
               (map model_dump (p_items pending)) corrections
        else None in
      match result with
      | None => (st, ServerError)
      | Some r =>
          (clear_pending_review request_id st,
           Reviewed request_id (CalculatorTool.vegetarian_items r)
             (CalculatorTool.r_total_sum r) (length corrections))
      end
  end.

End Review.

(** ** Provider selection ([src/mcp/llm/providers.py]) *)

Module Providers.

Inductive provider : Type := Ollama | OpenAI.

Record provider_settings := {
  llm_provider : provider;
  openai_api_key : string
}.

(** [OpenAIProvider.is_available]: a key longer than ten characters. *)
Definition openai_is_available (cfg : provider_settings) : bool :=
  negb (String.eqb (openai_api_key cfg) "")
  && (10 <? String.length (openai_api_key cfg))%nat.

(** [get_llm_provider].  [probe k] is the outcome of the [k]-th health probe
    of the Ollama server made during the call; [None] is the
    [RuntimeError]. *)
Definition get_llm_provider (cfg : provider_settings) (probe : nat -> bool)
    : option provider :=
  match llm_provider cfg with
  | Ollama =>
      if probe 0 then Some Ollama
      else if openai_is_available cfg then Some OpenAI
      else if probe 1 then Some Ollama
      else None
  | OpenAI =>
      if openai_is_available cfg then Some OpenAI
      else if probe 0 then Some Ollama
      else None
  end.

End Providers.

(** ** Specification-side definitions for the review store *)

(** The last correction naming the dish of [item] has a true label. *)
Definition corrected_vegetarian (cs : list CalculatorTool.correction)
    (item : Review.MenuItemSchema) : bool :=
  match CalculatorTool.correction_map cs !! lower (Review.s_name item) with
  | Some label => truthy label
  | None => false
  end.

Definition verified_copy (item : Review.MenuItemSchema) : pydict :=
  CalculatorTool.human_verified (Review.s_name item) (VFloat (Review.s_price item)).

(** The records of the log about the dish [d], and how many of them carry a
    true label and how many do not. *)
Definition about (d : string) (r : Review.feedback_record) : bool :=
  String.eqb (Review.f_dish_name r) d.

Definition tally (d : string) (feedback : list Review.feedback_record) : nat * nat :=
  (length (filter (fun r => truthy (Review.f_human_label r) = true)
                  (filter (fun r => about d r = true) feedback)),
   length (filter (fun r => truthy (Review.f_human_label r) = false)
                  (filter (fun r => about d r = true) feedback))).

Definition soup_schema : Review.MenuItemSchema :=
  {| Review.s_name := "Soup"; Review.s_price := 7; Review.s_source_image := Some 1%Z |}.

Definition salad_schema : Review.MenuItemSchema :=
  {| Review.s_name := "Salad"; Review.s_price := 8; Review.s_source_image := None |}.

Definition one_pending_review : Review.state :=
  Review.store_pending_review "r-1" [soup_schema; salad_schema] ∅
    {| Review._pending_reviews := ∅; Review.feedback_file := None |}.

Definition fixed_clock (k : nat) : string := "2024-01-01T00:00:00".

(** ** Specification-side definitions for the agreement of the buckets *)

(** The bucket dict [p] has its counterpart in [all_items]: a dict built for
    the same position, with the same name and confidence, whose
    [is_vegetarian] value satisfies [P]. *)
Definition listed_with (c : ClassifierTool.classification)
    (P : pyval -> Prop) (p : ClassifierTool.placed) : Prop :=
  exists a v,
    a ∈ ClassifierTool.all_items c
    /\ ClassifierTool.origin a = ClassifierTool.origin p
    /\ ClassifierTool.entry a !! "name" = ClassifierTool.entry p !! "name"
    /\ ClassifierTool.entry a !! "confidence" = ClassifierTool.entry p !! "confidence"
    /\ ClassifierTool.entry a !! "is_vegetarian" = Some v
    /\ P v.

(** The buckets agree with the verdicts listed in [all_items]: vegetarian
    dicts have a true verdict, non-vegetarian ones a verdict that is present
    and false, and an uncertain dict carries the listed verdict as its
    suggestion. *)
Definition buckets_agree (c : ClassifierTool.classification) : Prop :=
  Forall (listed_with c (fun v => truthy v = true))
         (ClassifierTool.vegetarian_items c)
  /\ Forall (listed_with c (fun v => is_none v = false /\ truthy v = false))
            (ClassifierTool.non_vegetarian_items c)
  /\ Forall (fun p => listed_with c
                        (fun v => ClassifierTool.entry p !! "suggested_classification"
                                  = Some v) p)
            (ClassifierTool.uncertain_items c).

(** ** Specification-side definitions for the batch strategy without a provider *)

(** Neither the keyword matcher nor the RAG tier has an opinion about the
    dish. *)
Definition without_opinion (kb : keywords) (env : oracles)
    (item : ClassifierTool.menu_item) : bool :=
  is_none (is_vegetarian
             (LLMClassifier._keyword_classification kb (ClassifierTool.i_name item)))
  && is_none (is_vegetarian
                (LLMClassifier._analyze_rag_evidence
                   (_retrieve_evidence env (ClassifierTool.i_name item)))).

(** The RAG result kept in an entry of [needs_llm] has no opinion. *)
Definition rag_silent (n : ClassifierTool.pending) : bool :=
  is_none (is_vegetarian (ClassifierTool.n_rag_result n)).

(** What [_analyze_rag_evidence] guarantees of the result kept in an entry:
    a confidence that is not negative, and positive with an opinion. *)
Definition rag_sound (n : ClassifierTool.pending) : Prop :=
  (0 <= confidence (ClassifierTool.n_rag_result n))%Q
  /\ (rag_silent n = true \/ (0 < confidence (ClassifierTool.n_rag_result n))%Q).

(** An uncertain dict without a suggestion. *)
Definition no_suggestion (p : ClassifierTool.placed) : Prop :=
  ClassifierTool.entry p !! "suggested_classification" = Some VNone
  /\ ClassifierTool.entry p !! "confidence" = Some (VFloat 0).

(** No evidence in the store and a provider that returns no array. *)
Definition down_env : oracles :=
  {| _retrieve_evidence := fun _ => [];
     generate_single := fun _ _ _ => SNoObject;
     generate_batch := fun _ _ => BNoArray;
     float_of_str := fun _ => None |}.

(** ** Specification-side definitions for the review threshold *)

(** A bucket dict whose confidence is not below the review threshold: the
    test [confidence < hitl_threshold] is false for it. *)
Definition not_below_threshold (cfg : settings) (p : ClassifierTool.placed) : Prop :=
  exists q, ClassifierTool.entry p !! "confidence" = Some (VFloat q)
            /\ Qlt_bool q (hitl_threshold cfg) = false.

(** The keyword matcher has an opinion about the dish. *)
Definition keyword_known (kb : keywords) (item : ClassifierTool.menu_item) : Prop :=
  is_none (is_vegetarian
             (LLMClassifier._keyword_classification kb (ClassifierTool.i_name item)))
  = false.

(** The configuration of a service that wants every dish reviewed unless the
    classification is nearly certain. *)
Definition strict_settings : settings :=
  {| confidence_threshold := 6 # 10;
     hitl_threshold := 99 # 100;
     rag_top_k := 5;
     llm_batch_enabled := true;
     llm_batch_size := 8 |}.

(** Is the reply of the provider something other than a decoded object? *)
Definition no_object (reply : single_reply) : bool :=
  match reply with SObject _ => false | _ => true end.

(** A configuration that trusts the RAG tier only from 0.9 on. *)
Definition wary_settings : settings :=
  {| confidence_threshold := 9 # 10;
     hitl_threshold := 4 # 10;
     rag_top_k := 5;
     llm_batch_enabled := false;
     llm_batch_size := 8 |}.

(** ** The calculator and the weighted vote on IEEE doubles
    ([src/mcp/tools/calculator.py], [src/mcp/llm/classifier.py]) *)

(** Where the last digit of a total or a vote next to a tie is at stake,
    exact rationals are not enough: the code computes with Python floats,
    which are IEEE 754 binary64 numbers, and every operation rounds.  This
    module models [execute] and [_combine_results] on the primitive floats
    of Rocq, which are the same binary64 numbers with the same
    round-to-nearest-even operations. *)
Module Binary64.

(** The Python objects a price can be: [None], a [bool], an [int], a
    [float], a [str], or anything else (a list, a dict). *)
Inductive object : Type :=
| DNone
| DBool (b : bool)
| DInt (z : Z)
| DFloat (x : float)
| DStr (s : string)
| DOther.

(** The value [m * 2^e] of a finite double. *)
Definition exact (m : positive) (e : Z) : Q :=
  if (0 <=? e)%Z then inject_Z (Zpos m * 2 ^ e)
  else Qmake (Zpos m) (Pos.pow 2 (Z.to_pos (- e))).

(** The number a double stands for; [None] for NaN and the infinities. *)
Definition value (x : float) : option Q :=
  match Prim2SF x with
  | S754_zero _ => Some 0%Q
  | S754_finite s m e => Some (if s then (- exact m e)%Q else exact m e)
  | _ => None
  end.

(** [q / 2^s] *)
Definition scaled (q : Q) (s : Z) : Q :=
  if (0 <=? s)%Z then (q / inject_Z (2 ^ s))%Q else (q * inject_Z (2 ^ (- s)))%Q.

(** The double nearest to the positive rational [q], ties to the even
    mantissa: the exponent [s] is chosen so that [q / 2^s] has 53 bits (fewer
    in the subnormal range), the quotient is rounded to an integer, and the
    integer is scaled back.  A [q] beyond the largest double gives
    infinity. *)
Definition nearest (q : Q) : float :=
  let e0 := (Z.log2 (Qnum q) - Z.log2 (Zpos (Qden q)))%Z in
  let s0 := (e0 - 52)%Z in
  let s1 := if Qlt_bool (scaled q s0) (inject_Z (2 ^ 52)) then (s0 - 1)%Z else s0 in
  let s := Z.max s1 (-1074) in
  Z.ldexp (PrimFloat.of_uint63 (Uint63.of_Z (round_half_even (scaled q s)))) s.

(** [round(x, n)] on a float: the value of [x] is rounded to [n] decimals,
    ties to even, and the decimal is converted back to the nearest double;
    zeros, NaN and the infinities round to themselves. *)
Definition py_round (n : nat) (x : float) : float :=
  match Prim2SF x with
  | S754_finite s m e =>
      let r := round_ndigits n (exact m e) in
      let y := if Qeq_bool r 0 then PrimFloat.zero else nearest r in
      if s then PrimFloat.opp y else y
  | _ => x
  end.

(** The conversion of an [int] operand of a float addition; [None] is the
    [OverflowError] for an [int] too large for a double. *)
Definition float_of_int (z : Z) : option float :=
  let y := match z with
           | Z0 => PrimFloat.zero
           | Zpos _ => nearest (inject_Z z)
           | Zneg p => PrimFloat.opp (nearest (inject_Z (Zpos p)))
           end in
  if PrimFloat.is_infinity y then None else Some y.

(** [item.get("price", 0.0)] *)
Definition price (item : gmap string object) : object :=
  default (DFloat PrimFloat.zero) (item !! "price").

(** [isinstance(price, (int, float)) and price > 0]; a NaN is not greater
    than zero, and [bool] is a subclass of [int]. *)
Definition positive_number (v : object) : bool :=
  match v with
  | DFloat x => PrimFloat.ltb PrimFloat.zero x
  | DInt z => (0 <? z)%Z
  | DBool b => b
  | _ => false
  end.

(** The double that [total += price] adds for a number. *)
Definition as_double (v : object) : option float :=
  match v with
  | DFloat x => Some x
  | DInt z => float_of_int z
  | DBool b => float_of_int (if b then 1 else 0)
  | _ => None
  end.

Record total := { total_sum : float; item_count : nat }.

(** One turn of the loop of [execute]; [None] when the addition raises. *)
Definition execute_step (acc : float * nat) (item : gmap string object)
    : option (float * nat) :=
  if positive_number (price item)
  then as_double (price item) ≫= fun p => Some (PrimFloat.add acc.1 p, S acc.2)
  else Some acc.

Definition execute (vegetarian_items : list (gmap string object)) : option total :=
  foldl (fun acc item => acc ≫= fun a => execute_step a item)
        (Some (PrimFloat.zero, O)) vegetarian_items ≫= fun acc =>
  Some {| total_sum := py_round 2 acc.1; item_count := acc.2 |}.

(** The builtin [sum] over floats: it starts from the [int] 0 and adds from
    the left, one rounded addition per term, as CPython does up to 3.11. *)
Definition sum (terms : list float) : float := foldl PrimFloat.add PrimFloat.zero terms.

(** A tier result whose confidence is a double. *)
Record tier := {
  is_vegetarian : pyval;
  confidence : float;
  reasoning : string;
  method : string
}.

(** [_combine_results] of [src/mcp/llm/classifier.py] on doubles. *)
Definition _combine_results (keyword rag llm : tier) : tier :=
  let results := [(keyword, 0.4%float); (rag, 0.3%float); (llm, 0.3%float)] in
  let valid_results :=
    List.filter (fun rw : tier * float => negb (is_none (is_vegetarian rw.1)))
                results in
  match valid_results with
  | [] => {| is_vegetarian := VNone; confidence := PrimFloat.zero;
             reasoning := "Unable to classify"; method := "combined" |}
  | first :: _ =>
    let weighted_sum :=
      sum (map (fun rw : tier * float =>
                  PrimFloat.mul
                    (PrimFloat.mul (if truthy (is_vegetarian rw.1) then 1 else 0)%float
                                   (confidence rw.1))
                    rw.2) valid_results) in
    let total_weight :=
      sum (map (fun rw : tier * float => PrimFloat.mul (confidence rw.1) rw.2)
               valid_results) in
    if PrimFloat.eqb total_weight PrimFloat.zero then first.1
    else
      let veg_probability := PrimFloat.div weighted_sum total_weight in
      let reasons :=
        List.filter (fun r => negb (String.eqb r ""))
                    (map (fun rw : tier * float => reasoning rw.1) valid_results) in
      {| is_vegetarian := VBool (PrimFloat.ltb 0.5 veg_probability);
         confidence :=
           py_round 3 (PrimFloat.mul
                         (PrimFloat.abs (PrimFloat.sub veg_probability 0.5)) 2);
         reasoning := join "; " (take 2 reasons);
         method := "combined" |}
  end.

End Binary64.

(** ** Specification-side definitions for the calculator on doubles *)

(** The doubles [execute] adds up: the prices that are numbers strictly
    greater than zero, in list order, each as the double it is converted
    to; [None] when one of them does not convert. *)
Definition added_doubles (l : list (gmap string Binary64.object)) : option (list float) :=
  mapM Binary64.as_double
       (List.filter Binary64.positive_number (map Binary64.price l)).

(** The total as C2 states it: the exact sum of the values of the doubles,
    rounded to two decimals, as the double nearest to that decimal. *)
Definition exact_sum (xs : list float) : option Q :=
  foldr (fun x acc => acc ≫= fun a => Binary64.value x ≫= fun v => Some (v + a)%Q)
        (Some 0%Q) xs.

(** A dict [{"price": v}]. *)
Definition priced (v : Binary64.object) : gmap string Binary64.object :=
  <["price" := v]> ∅.


(** ** Specification-side definitions for the vote near a tie *)









(* ================================================================== *)
(** * Properties *)

(** ** Arithmetic helpers *)

Lemma Qlt_bool_iff (x y : Q) : Qlt_bool x y = true <-> (x < y)%Q.
Proof.
  unfold Qlt_bool. rewrite negb_true_iff.
  split; intros H.
  - apply Qnot_le_lt. intros Hle. apply Qle_bool_iff in Hle. congruence.
  - destruct (Qle_bool y x) eqn:E; [|reflexivity].
    apply Qle_bool_iff in E. exfalso. apply (Qlt_not_le _ _ H E).
Qed.

Lemma Qlt_bool_false_iff (x y : Q) : Qlt_bool x y = false <-> (y <= x)%Q.
Proof.
  unfold Qlt_bool. rewrite negb_false_iff. apply Qle_bool_iff.
Qed.

Lemma round_half_even_proper (x y : Q) :
  (x == y)%Q -> round_half_even x = round_half_even y.
Proof.
  intros E. unfold round_half_even.
  rewrite (Qfloor_comp _ _ E).
  assert (Hc : ((x - inject_Z (Qfloor y)) ?= 1 # 2)%Q
               = ((y - inject_Z (Qfloor y)) ?= 1 # 2)%Q).
  { apply Qcompare_comp; [rewrite E|]; reflexivity. }
  rewrite Hc. reflexivity.
Qed.

Lemma round_ndigits_proper (n : nat) (x y : Q) :
  (x == y)%Q -> round_ndigits n x = round_ndigits n y.
Proof.
  intros E. unfold round_ndigits. destruct n.
  - f_equal. apply round_half_even_proper, E.
  - f_equal. apply round_half_even_proper. rewrite E. reflexivity.
Qed.

(** ** Calculator *)

Lemma execute_loop_spec (l : list pydict) (t : Q) (n : nat) :
  let acc := foldl CalculatorTool.execute_step (t, n) l in
  (acc.1 == t + Qsigma (positive_prices l))%Q
  /\ acc.2 = (n + length (positive_prices l))%nat.
Proof.
  revert t n. induction l as [|item l IH]; intros t n acc; subst acc.
  - cbn. split; [ring | lia].
  - cbn [foldl positive_prices omap list_omap]. fold (positive_prices l).
    unfold CalculatorTool.execute_step at 2 4.
    destruct (as_number (get item "price" (VFloat 0))) as [p|] eqn:Hp; cbn [mbind option_bind].
    + destruct (Qlt_bool 0 p) eqn:Hpos.
      * destruct (IH (t + p)%Q (S n)) as [H1 H2]. cbn [fst snd] in *. split.
        -- rewrite H1. cbn [Qsigma foldr]. fold (Qsigma (positive_prices l)). ring.
        -- rewrite H2. cbn [length]. lia.
      * apply IH.
    + apply IH.
Qed.

Lemma execute_loop_raised (l : list (gmap string Binary64.object)) :
  foldl (fun acc item => acc ≫= fun a => Binary64.execute_step a item) None l = None.
Proof. induction l as [|item l IH]; [reflexivity|exact IH]. Qed.

Lemma execute_loop_doubles (l : list (gmap string Binary64.object))
    (t : float) (n : nat) :
  foldl (fun acc item => acc ≫= fun a => Binary64.execute_step a item) (Some (t, n)) l
  = added_doubles l ≫= fun xs =>
    Some (foldl PrimFloat.add t xs, (n + length xs)%nat).
Proof.
  unfold added_doubles. revert t n.
  induction l as [|item l IH]; intros t n.
  - cbn. by rewrite Nat.add_0_r.
  - cbn [foldl map List.filter]. cbn [mbind option_bind].
    unfold Binary64.execute_step at 2.
    destruct (Binary64.positive_number (Binary64.price item)).
    + cbn [mapM]. destruct (Binary64.as_double (Binary64.price item)) as [p|].
      * cbn [mbind option_bind fst snd]. rewrite IH.
        destruct (mapM Binary64.as_double _) as [xs|]; [|reflexivity].
        cbn [mbind option_bind mret option_ret foldl length]. do 2 f_equal. lia.
      * cbn [mbind option_bind]. apply execute_loop_raised.
    + apply IH.
Qed.

(** C2, as stated, fails on the code.  The prices 0.1 and 0.025 are both
    counted; their values add up to a little more than 0.125, which to two
    decimals is 0.13, but the float addition of the loop returns 0.125
    itself, and [round(0.125, 2)] is 0.12.  And an [int] price of [10^400] is
    a number greater than zero that no total is returned for: adding it
    raises [OverflowError]. *)
Lemma calculator_total_is_not_rounded_exact_sum :
  let l := [priced (Binary64.DFloat 0.1); priced (Binary64.DFloat 0.025)] in
  added_doubles l = Some [0.1%float; 0.025%float]
  /\ Binary64.execute l
     = Some {| Binary64.total_sum := 0.12; Binary64.item_count := 2 |}
  /\ (exists sum, exact_sum [0.1%float; 0.025%float] = Some sum
                  /\ (1 # 8 < sum)%Q
                  /\ round2 sum = 13 # 100
                  /\ Binary64.nearest (round2 sum) = 0.13%float)
  /\ PrimFloat.eqb 0.12 0.13 = false
  /\ Binary64.positive_number (Binary64.DInt (10 ^ 400)) = true
  /\ Binary64.execute [priced (Binary64.DInt (10 ^ 400))] = None.
Proof.
  cbv zeta. split; [reflexivity|]. split; [reflexivity|]. split.
  - eexists. split; [reflexivity|]. split; [reflexivity|]. split; reflexivity.
  - split; [reflexivity|]. split; reflexivity.
Qed.

(** C2, amended.  For every list of items, [execute] adds up, in list
    order and in double arithmetic from 0.0, the prices that are numbers
    strictly greater than zero (an [int] as the double it converts to), and
    returns as [total_sum] that double rounded by [round(., 2)] and as
    [item_count] the number of those prices; zero, negative, NaN and
    non-numeric prices contribute to neither.  It raises exactly when one
    of the counted prices is an [int] that no double holds. *)
Theorem calculator_total_is_rounded_double_sum
    (l : list (gmap string Binary64.object)) :
  Binary64.execute l
  = added_doubles l ≫= fun xs =>
    Some {| Binary64.total_sum := Binary64.py_round 2 (foldl PrimFloat.add PrimFloat.zero xs);
            Binary64.item_count := length xs |}.
Proof.
  unfold Binary64.execute. rewrite execute_loop_doubles.
  by destruct (added_doubles l).
Qed.

(** C3. [recompute_with_corrections] does not total the way [execute] does.
    On an item priced -5 that a correction marks vegetarian it reports
    [total_sum = -5], while [execute] on the vegetarian items it returns
    gives 0; on an item whose price is text it raises, while [execute] skips
    the price. *)
Theorem recompute_total_differs_from_calculator_total :
  (exists r,
     CalculatorTool.recompute_with_corrections [refund_item] [refund_is_vegetarian]
       = Some r
     /\ CalculatorTool.vegetarian_items r
        = [CalculatorTool.human_verified "Refund" (VFloat (-5))]
     /\ CalculatorTool.r_total_sum r = round2 (-5)
     /\ CalculatorTool.total_sum
          (CalculatorTool.execute (CalculatorTool.vegetarian_items r)) = round2 0
     /\ ~ (CalculatorTool.r_total_sum r ==
           CalculatorTool.total_sum
             (CalculatorTool.execute (CalculatorTool.vegetarian_items r)))%Q)
  /\ CalculatorTool.recompute_with_corrections [text_price_item] [soup_is_vegetarian]
     = None
  /\ CalculatorTool.total_sum
       (CalculatorTool.execute
          [CalculatorTool.human_verified "Soup" (VStr "12.00")]) = round2 0.
Proof.
  split; [|split; reflexivity].
  eexists. split; [reflexivity|].
  repeat split. intros H. vm_compute in H. discriminate H.
Qed.

(** Where the two totals do agree: when every vegetarian item returned has
    a price that is a number and not negative. *)
Lemma sum_prices_of_valid_prices (veg : list pydict) (t : Q) :
  Forall (fun d : pydict =>
            exists q, as_number (get d "price" (VFloat 0)) = Some q /\ (0 <= q)%Q) veg ->
  exists s,
    foldl (fun acc i =>
             acc ≫= fun a =>
             as_number (get i "price" (VFloat 0)) ≫= fun p => Some (a + p)%Q)
          (Some t) veg = Some s
    /\ (s == t + Qsigma (positive_prices veg))%Q.
Proof.
  revert t. induction veg as [|d veg IH]; intros t Hvalid.
  - exists t. split; [reflexivity|]. cbn. ring.
  - apply Forall_cons in Hvalid as [(q & Hq & Hpos) Hvalid].
    cbn [foldl positive_prices omap list_omap]. fold (positive_prices veg).
    rewrite Hq. cbn [mbind option_bind].
    destruct (IH (t + q)%Q Hvalid) as (s & Hs & Es).
    exists s. split; [exact Hs|]. rewrite Es.
    destruct (Qlt_bool 0 q) eqn:Hlt.
    + cbn [Qsigma foldr]. fold (Qsigma (positive_prices veg)). ring.
    + apply Qlt_bool_false_iff in Hlt.
      assert (E : (q == 0)%Q) by lra. rewrite E. ring.
Qed.

Lemma recompute_total_agrees_on_valid_prices
    (items : list pydict) (cs : list CalculatorTool.correction)
    (r : CalculatorTool.recomputed) :
  CalculatorTool.recompute_with_corrections items cs = Some r ->
  Forall (fun d : pydict =>
            exists q, as_number (get d "price" (VFloat 0)) = Some q /\ (0 <= q)%Q)
         (CalculatorTool.vegetarian_items r) ->
  CalculatorTool.r_total_sum r
  = CalculatorTool.total_sum
      (CalculatorTool.execute (CalculatorTool.vegetarian_items r)).
Proof.
  unfold CalculatorTool.recompute_with_corrections.
  destruct (CalculatorTool.recompute_loop _ items) as [veg|]; [|discriminate].
  cbn [mbind option_bind].
  destruct (CalculatorTool.sum_prices veg) as [total|] eqn:Hsum; [|discriminate].
  cbn [mbind option_bind]. intros [= <-].
  cbn [CalculatorTool.vegetarian_items CalculatorTool.r_total_sum]. intros Hvalid.
  destruct (sum_prices_of_valid_prices veg 0%Q Hvalid) as (s & Hs & Es).
  unfold CalculatorTool.sum_prices in Hsum. rewrite Hs in Hsum.
  injection Hsum as ->.
  unfold CalculatorTool.execute, round2. cbn [CalculatorTool.total_sum].
  destruct (execute_loop_spec veg 0%Q 0%nat) as [H1 _].
  apply round_ndigits_proper. rewrite Es, H1. reflexivity.
Qed.

(** ** Corrections *)

Lemma correction_map_lookup (cs : list CalculatorTool.correction)
    (m : gmap string pyval) (k : string) :
  foldl (fun m c => <[lower (CalculatorTool.c_name c)
                      := CalculatorTool.c_is_vegetarian c]> m) m cs !! k
  = match last_label k cs with
    | Some v => Some v
    | None => m !! k
    end.
Proof.
  revert m. induction cs as [|c rest IH]; intros m; [reflexivity|].
  cbn [foldl last_label]. rewrite IH.
  destruct (last_label k rest) as [v|]; [reflexivity|].
  destruct (String.eqb_spec (lower (CalculatorTool.c_name c)) k) as [->|Hne].
  - apply lookup_insert_eq.
  - by apply lookup_insert_ne.
Qed.

Lemma last_label_of_later_duplicate (n : string)
    (cs : list CalculatorTool.correction) :
  existsb (same_dish n) cs = true -> is_Some (last_label (lower n) cs).
Proof.
  induction cs as [|c rest IH]; [discriminate|].
  cbn [existsb last_label]. intros H.
  destruct (last_label (lower n) rest) as [v|] eqn:E; [by eexists|].
  apply orb_true_iff in H as [H|H].
  - unfold same_dish in H. rewrite H. by eexists.
  - destruct (IH H) as [v Hv]. discriminate Hv.
Qed.

Lemma last_label_keep_last_of (n k : string)
    (cs : list CalculatorTool.correction) :
  last_label k (keep_last_of n cs) = last_label k cs.
Proof.
  induction cs as [|c rest IH]; [reflexivity|].
  cbn [keep_last_of].
  destruct (same_dish n c && existsb (same_dish n) rest) eqn:Hdup.
  - rewrite IH. cbn [last_label].
    destruct (last_label k rest) as [v|] eqn:E; [reflexivity|].
    apply andb_true_iff in Hdup as [Hc Hlater].
    destruct (String.eqb_spec (lower (CalculatorTool.c_name c)) k) as [Hk|Hk];
      [|reflexivity].
    apply String.eqb_eq in Hc.
    destruct (last_label_of_later_duplicate n rest Hlater) as [v Hv].
    rewrite <- Hc, Hk, E in Hv. discriminate Hv.
  - cbn [last_label]. rewrite IH. reflexivity.
Qed.

Lemma correction_map_keep_last_of (n : string)
    (cs : list CalculatorTool.correction) :
  CalculatorTool.correction_map (keep_last_of n cs)
  = CalculatorTool.correction_map cs.
Proof.
  apply map_eq. intros k. unfold CalculatorTool.correction_map.
  rewrite !correction_map_lookup, last_label_keep_last_of. reflexivity.
Qed.

(** C10. Whatever the items, and whichever dish name [n] the corrections
    repeat (case-insensitively), [recompute_with_corrections] returns the
    vegetarian items and the total it returns when only the last correction
    for [n] is submitted, and it raises in the same cases; its
    [corrections_applied] is the number of corrections submitted, repeated
    ones included. *)
Theorem recompute_duplicate_corrections_last_wins
    (items : list pydict) (cs : list CalculatorTool.correction) (n : string) :
  CalculatorTool.vegetarian_items
      <$> CalculatorTool.recompute_with_corrections items cs
    = CalculatorTool.vegetarian_items
      <$> CalculatorTool.recompute_with_corrections items (keep_last_of n cs)
  /\ CalculatorTool.r_total_sum
      <$> CalculatorTool.recompute_with_corrections items cs
    = CalculatorTool.r_total_sum
      <$> CalculatorTool.recompute_with_corrections items (keep_last_of n cs)
  /\ CalculatorTool.corrections_applied
      <$> CalculatorTool.recompute_with_corrections items cs
    = (fun _ => length cs)
      <$> CalculatorTool.recompute_with_corrections items cs.
Proof.
  unfold CalculatorTool.recompute_with_corrections.
  rewrite correction_map_keep_last_of.
  destruct (CalculatorTool.recompute_loop (CalculatorTool.correction_map cs) items)
    as [veg|]; cbn; [|done].
  destruct (CalculatorTool.sum_prices veg) as [total|]; cbn; done.
Qed.

(** ** The endpoint *)

(** C1. For every request, when the classifier tool returns uncertain items
    the endpoint answers [needs_review] with [partial_sum] the calculator's
    [total_sum] over exactly the confident vegetarian items; when it returns
    none the endpoint answers [success] with [total_sum] computed the same
    way.  In both cases that number is the rounded sum of the positive prices
    of the confident vegetarian items. *)
Theorem classify_and_calculate_hitl_consistent
    (cfg : settings) (kb : keywords) (env : oracles)
    (items : list ClassifierTool.menu_item) :
  let c := ClassifierTool.execute cfg kb env items in
  let veg := map ClassifierTool.entry (ClassifierTool.vegetarian_items c) in
  let uncertain := map ClassifierTool.entry (ClassifierTool.uncertain_items c) in
  let all := map ClassifierTool.entry (ClassifierTool.all_items c) in
  let total := CalculatorTool.total_sum (CalculatorTool.execute veg) in
  let answer := Main.classify_and_calculate cfg kb env items in
  total = round2 (Qsigma (positive_prices veg))
  /\ match ClassifierTool.uncertain_items c with
     | _ :: _ => answer = Main.NeedsReview veg uncertain total all
                 /\ Main.status answer = "needs_review"
     | [] => answer = Main.Success veg total all
             /\ Main.status answer = "success"
     end.
Proof.
  intros c veg uncertain all total answer. split.
  - subst total. unfold CalculatorTool.execute, round2.
    cbn [CalculatorTool.total_sum].
    destruct (execute_loop_spec veg 0%Q 0%nat) as [H1 _].
    apply round_ndigits_proper. rewrite H1. ring.
  - subst answer. unfold Main.classify_and_calculate. fold c.
    destruct (ClassifierTool.uncertain_items c) as [|u us] eqn:E;
      cbn [map]; split; reflexivity.
Qed.

(** ** Keyword matcher *)

Lemma find_existsb {A : Type} (f : A -> bool) (l : list A) :
  existsb f l = true -> exists x, find f l = Some x /\ f x = true.
Proof.
  induction l as [|a l IH]; [discriminate|].
  cbn [existsb find]. destruct (f a) eqn:E.
  - intros _. by exists a.
  - cbn [orb]. exact IH.
Qed.

(** C7. For every dish name whose lower-cased form contains one of the
    vegetarian markers as a substring, the keyword matcher answers vegetarian
    with confidence 0.95, whatever the positive and negative keyword lists
    hold and whatever else the name contains. *)
Theorem keyword_marker_takes_precedence (kb : keywords) (dish_name : string) :
  existsb (fun marker => contains marker (lower dish_name))
          (_vegetarian_markers kb) = true ->
  is_vegetarian (LLMClassifier._keyword_classification kb dish_name) = VBool true
  /\ confidence (LLMClassifier._keyword_classification kb dish_name) = 95 # 100
  /\ method (LLMClassifier._keyword_classification kb dish_name) = "keyword".
Proof.
  intros H. apply find_existsb in H as (marker & Hfind & _).
  unfold LLMClassifier._keyword_classification. rewrite Hfind.
  repeat split.
Qed.

Lemma keyword_marker_takes_precedence_witness :
  is_vegetarian (LLMClassifier._keyword_classification default_keywords
                   "Veggie Chicken Tenders (V)") = VBool true
  /\ confidence (LLMClassifier._keyword_classification default_keywords
                   "Veggie Chicken Tenders (V)") = 95 # 100
  /\ method (LLMClassifier._keyword_classification default_keywords
               "Veggie Chicken Tenders (V)") = "keyword".
Proof.
  apply (keyword_marker_takes_precedence default_keywords
           "Veggie Chicken Tenders (V)").
  reflexivity.
Defined.

(** ** Weighted combination *)

Lemma combine_results_verdict (k r l : tier_result) :
  is_vegetarian (LLMClassifier._combine_results k r l)
  = verdict (List.filter has_opinion [(k, 4 # 10); (r, 3 # 10); (l, 3 # 10)]).
Proof.
  unfold LLMClassifier._combine_results, verdict.
  change (fun rw : tier_result * Q => negb (is_none (is_vegetarian rw.1)))
    with has_opinion.
  destruct (List.filter has_opinion [(k, 4 # 10); (r, 3 # 10); (l, 3 # 10)])
    as [|first rest]; [reflexivity|].
  change (fun rw : tier_result * Q =>
            ((if truthy (is_vegetarian rw.1) then 1 else 0)
             * confidence rw.1 * rw.2)%Q) with vote_term.
  change (fun rw : tier_result * Q => (confidence rw.1 * rw.2)%Q) with weight_term.
  destruct (Qeq_bool (Qsum (map weight_term (first :: rest))) 0); reflexivity.
Qed.

Lemma Qsum_snoc (l : list Q) (x : Q) : Qsum (l ++ [x]) = (Qsum l + x)%Q.
Proof. unfold Qsum. by rewrite foldl_app. Qed.

Lemma vote_bounds (others : list (tier_result * Q)) :
  Forall (fun rw : tier_result * Q => 0 <= confidence rw.1 /\ 0 <= rw.2)%Q others ->
  (0 <= Qsum (map vote_term others))%Q
  /\ (Qsum (map vote_term others) <= Qsum (map weight_term others))%Q.
Proof.
  induction others as [|x others IH] using rev_ind; intros H.
  - cbn. split; lra.
  - apply Forall_app in H as [Ho Hx]. apply Forall_singleton in Hx as [Hc Hw].
    destruct (IH Ho) as [H1 H2].
    rewrite !map_app. cbn [map]. rewrite !Qsum_snoc.
    assert (Hcw : (0 <= confidence x.1 * x.2)%Q) by (by apply Qmult_le_0_compat).
    unfold vote_term at 2 4, weight_term at 2.
    destruct (truthy (is_vegetarian x.1)).
    + assert (E : (1 * confidence x.1 * x.2 == confidence x.1 * x.2)%Q) by ring.
      rewrite E. split; lra.
    + assert (E : (0 * confidence x.1 * x.2 == 0)%Q) by ring.
      rewrite E. split; lra.
Qed.

Lemma half_lt_div (n d : Q) :
  (0 < d)%Q -> Qlt_bool (1 # 2) (n / d) = Qlt_bool d (2 * n).
Proof.
  intros Hd.
  assert (Hiff : ((1 # 2) < n / d <-> d < 2 * n)%Q).
  { split; intros H.
    - assert (H' : ((1 # 2) * d < n / d * d)%Q) by (by apply Qmult_lt_compat_r).
      assert (E : (n / d * d == n)%Q) by (field; lra).
      rewrite E in H'. lra.
    - apply Qlt_shift_div_l; [exact Hd | lra]. }
  destruct (Qlt_bool d (2 * n)) eqn:E.
  - apply Qlt_bool_iff, Hiff, Qlt_bool_iff, E.
  - apply Qlt_bool_false_iff. apply Qlt_bool_false_iff in E.
    apply Qnot_lt_le. intros H. apply Hiff in H. lra.
Qed.

Lemma verdict_snoc (others : list (tier_result * Q)) (x : tier_result * Q) :
  verdict (others ++ [x])
  = if Qeq_bool (Qsum (map weight_term others) + weight_term x) 0
    then is_vegetarian (hd x others).1
    else VBool (Qlt_bool (1 # 2)
                  ((Qsum (map vote_term others) + vote_term x)
                   / (Qsum (map weight_term others) + weight_term x))).
Proof.
  assert (Hw : Qsum (map weight_term (others ++ [x]))
               = (Qsum (map weight_term others) + weight_term x)%Q)
    by (rewrite map_app; cbn [map]; by rewrite Qsum_snoc).
  assert (Hv : Qsum (map vote_term (others ++ [x]))
               = (Qsum (map vote_term others) + vote_term x)%Q)
    by (rewrite map_app; cbn [map]; by rewrite Qsum_snoc).
  unfold verdict. rewrite <- Hw, <- Hv.
  destruct others as [|o os]; reflexivity.
Qed.

(** The arithmetic of the vote: raising the share [c * w] of a tier whose
    sign is [s] keeps a vote that already went its way. *)
Lemma vote_shift (A T c c' w : Q) (s : bool) :
  (0 <= A)%Q -> (A <= T)%Q -> (0 <= c)%Q -> (c <= c')%Q -> (0 <= w)%Q ->
  ~ (T + c' * w == 0)%Q ->
  Qeq_bool (T + c * w) 0 = true
  \/ Qlt_bool (1 # 2) ((A + (if s then 1 else 0) * c * w) / (T + c * w)) = s ->
  Qlt_bool (1 # 2) ((A + (if s then 1 else 0) * c' * w) / (T + c' * w)) = s.
Proof.
  intros HA HAT Hc Hcc Hw Hden' Hbefore.
  assert (Hcw : (0 <= c * w)%Q) by (by apply Qmult_le_0_compat).
  assert (Hcw' : (c * w <= c' * w)%Q) by (by apply Qmult_le_compat_r).
  assert (Hpos' : (0 < T + c' * w)%Q).
  { destruct (Qlt_le_dec 0 (T + c' * w)) as [|Hle]; [assumption|].
    exfalso. apply Hden'. lra. }
  rewrite (half_lt_div _ _ Hpos').
  destruct Hbefore as [Hzero|Hvote].
  - apply Qeq_bool_iff in Hzero.
    destruct s.
    + apply Qlt_bool_iff. lra.
    + apply Qlt_bool_false_iff. lra.
  - destruct (Qeq_bool (T + c * w) 0) eqn:Hz.
    + apply Qeq_bool_iff in Hz.
      destruct s.
      * apply Qlt_bool_iff. lra.
      * apply Qlt_bool_false_iff. lra.
    + apply Qeq_bool_neq in Hz.
      assert (Hpos : (0 < T + c * w)%Q).
      { destruct (Qlt_le_dec 0 (T + c * w)) as [|Hle]; [assumption|].
        exfalso. apply Hz. lra. }
      rewrite (half_lt_div _ _ Hpos) in Hvote.
      destruct s.
      * apply Qlt_bool_iff in Hvote. apply Qlt_bool_iff. lra.
      * apply Qlt_bool_false_iff in Hvote. apply Qlt_bool_false_iff. lra.
Qed.

(** The vote itself: with the other tiers contributing [A] out of [T], the
    probability moves up when a vegetarian tier's share grows from [x] to
    [x'], and down when a non-vegetarian tier's share does. *)
Lemma vote_probability_monotone (A T x x' : Q) :
  (0 <= A)%Q -> (A <= T)%Q -> (0 <= x)%Q -> (x <= x')%Q -> (0 < T + x)%Q ->
  ((A + x) / (T + x) <= (A + x') / (T + x'))%Q
  /\ (A / (T + x') <= A / (T + x))%Q.
Proof.
  intros HA HAT Hx Hxx Hden.
  assert (Hden' : (0 < T + x')%Q) by lra.
  split.
  - apply Qle_shift_div_r; [exact Hden|].
    assert (E : ((A + x') / (T + x') * (T + x) == (A + x') * (T + x) / (T + x'))%Q)
      by (field; lra).
    rewrite E. apply Qle_shift_div_l; [exact Hden'|]. nra.
  - apply Qle_shift_div_r; [exact Hden'|].
    assert (E : (A / (T + x) * (T + x') == A * (T + x') / (T + x))%Q)
      by (field; lra).
    rewrite E. apply Qle_shift_div_l; [exact Hden|]. nra.
Qed.

Lemma verdict_llm_monotone (others : list (tier_result * Q))
    (l : tier_result) (w c' : Q) :
  Forall (fun rw : tier_result * Q => 0 <= confidence rw.1 /\ 0 <= rw.2)%Q others ->
  (0 <= w)%Q -> (0 <= confidence l)%Q -> (confidence l <= c')%Q ->
  truthy (verdict (others ++ [(l, w)])) = truthy (is_vegetarian l) ->
  truthy (verdict (others ++ [(with_confidence l c', w)]))
  = truthy (is_vegetarian l).
Proof.
  intros Hothers Hw Hc Hcc. rewrite !verdict_snoc.
  destruct (vote_bounds others Hothers) as [HA HAT].
  unfold weight_term at 2 4 6 8, vote_term at 2 4.
  cbn [fst snd with_confidence is_vegetarian confidence].
  set (A := Qsum (map vote_term others)) in *.
  set (T := Qsum (map weight_term others)) in *.
  set (s := truthy (is_vegetarian l)).
  assert (Hcw : (0 <= confidence l * w)%Q) by (by apply Qmult_le_0_compat).
  assert (Hcw' : (confidence l * w <= c' * w)%Q) by (by apply Qmult_le_compat_r).
  destruct (Qeq_bool (T + c' * w) 0) eqn:Hz'.
  - apply Qeq_bool_iff in Hz'.
    assert (Hz : Qeq_bool (T + confidence l * w) 0 = true)
      by (apply Qeq_bool_iff; lra).
    rewrite Hz. by destruct others.
  - apply Qeq_bool_neq in Hz'. intros Hbefore. cbn [truthy].
    apply (vote_shift A T (confidence l) c' w s HA HAT Hc Hcc Hw Hz').
    destruct (Qeq_bool (T + confidence l * w) 0); [by left|by right].
Qed.

Lemma verdict_has_opinion (valid_results : list (tier_result * Q)) :
  valid_results <> [] ->
  Forall (fun rw => has_opinion rw = true) valid_results ->
  is_none (verdict valid_results) = false.
Proof.
  intros Hne Hall. unfold verdict.
  destruct valid_results as [|first rest]; [done|].
  apply Forall_cons in Hall as [Hfirst _].
  destruct (Qeq_bool _ 0); [|reflexivity].
  unfold has_opinion in Hfirst. by apply negb_true_iff in Hfirst.
Qed.

(** The weighted vote as a formula over exact numbers is monotone in the
    confidence of the LLM tier: keyword and RAG results fixed, all
    confidences in [0,1], an LLM tier with an opinion, when the combined
    verdict has the sign of the LLM tier it still has it (and is not [None])
    after the LLM tier's confidence is raised with its sign kept.  This is a
    fact about the formula only: the code evaluates it in doubles, where the
    rounding of the products, of the sums and of the quotient decides the
    comparison with 0.5 when the vote is within rounding of a tie. *)
Lemma combine_monotone_in_llm_confidence
    (keyword rag llm : tier_result) (c' : Q) :
  is_none (is_vegetarian llm) = false ->
  (0 <= confidence keyword <= 1)%Q ->
  (0 <= confidence rag <= 1)%Q ->
  (0 <= confidence llm <= 1)%Q ->
  (confidence llm <= c' <= 1)%Q ->
  truthy (is_vegetarian (LLMClassifier._combine_results keyword rag llm))
    = truthy (is_vegetarian llm) ->
  truthy (is_vegetarian
            (LLMClassifier._combine_results keyword rag (with_confidence llm c')))
    = truthy (is_vegetarian llm)
  /\ is_none (is_vegetarian
                (LLMClassifier._combine_results keyword rag (with_confidence llm c')))
     = false.
Proof.
  intros Hllm [Hk _] [Hr _] [Hl _] [Hcc _].
  rewrite !combine_results_verdict.
  change [(keyword, 4 # 10); (rag, 3 # 10); (llm, 3 # 10)]
    with ([(keyword, 4 # 10); (rag, 3 # 10)] ++ [(llm, 3 # 10)]).
  change [(keyword, 4 # 10); (rag, 3 # 10); (with_confidence llm c', 3 # 10)]
    with ([(keyword, 4 # 10); (rag, 3 # 10)] ++ [(with_confidence llm c', 3 # 10)]).
  rewrite !List.filter_app.
  assert (Hv : forall c, List.filter has_opinion [(with_confidence llm c, 3 # 10)]
                         = [(with_confidence llm c, 3 # 10)]).
  { intros c. cbn. unfold has_opinion. cbn. by rewrite Hllm. }
  assert (Hv0 : List.filter has_opinion [(llm, 3 # 10)] = [(llm, 3 # 10)]).
  { cbn. unfold has_opinion. cbn. by rewrite Hllm. }
  rewrite Hv, Hv0.
  set (others := List.filter has_opinion [(keyword, 4 # 10); (rag, 3 # 10)]).
  assert (Hothers : Forall (fun rw : tier_result * Q =>
                              0 <= confidence rw.1 /\ 0 <= rw.2)%Q others).
  { apply Forall_forall. intros rw Hin. apply list_elem_of_In in Hin.
    apply List.filter_In in Hin as [Hin _].
    destruct Hin as [<-|[<-|[]]]; cbn; split; (assumption || lra). }
  intros Hbefore. split.
  - apply verdict_llm_monotone; (assumption || lra).
  - apply verdict_has_opinion.
    + by destruct others.
    + apply Forall_app. split.
      * apply Forall_forall. intros rw Hin. apply list_elem_of_In in Hin.
        by apply List.filter_In in Hin as [_ Hin].
      * apply Forall_singleton. unfold has_opinion. cbn. by rewrite Hllm.
Qed.

Lemma combine_monotone_in_llm_confidence_witness :
  truthy (is_vegetarian
            (LLMClassifier._combine_results no_result rag_leaning_non_veg
               (with_confidence llm_says_veg (9 # 10))))
    = truthy (is_vegetarian llm_says_veg)
  /\ is_none (is_vegetarian
                (LLMClassifier._combine_results no_result rag_leaning_non_veg
                   (with_confidence llm_says_veg (9 # 10))))
     = false.
Proof.
  apply (combine_monotone_in_llm_confidence
           no_result rag_leaning_non_veg llm_says_veg (9 # 10)).
  - reflexivity.
  - cbn. lra.
  - cbn. lra.
  - cbn. lra.
  - cbn. lra.
  - reflexivity.
Defined.




Lemma combine_results_confidence (k r l : tier_result) :
  let valid_results :=
    List.filter has_opinion [(k, 4 # 10); (r, 3 # 10); (l, 3 # 10)] in
  valid_results <> [] ->
  Qeq_bool (Qsum (map weight_term valid_results)) 0 = false ->
  confidence (LLMClassifier._combine_results k r l)
  = vote_confidence valid_results.
Proof.
  intros valid_results Hne Hden. subst valid_results.
  unfold LLMClassifier._combine_results, vote_confidence.
  change (fun rw : tier_result * Q => negb (is_none (is_vegetarian rw.1)))
    with has_opinion.
  destruct (List.filter has_opinion [(k, 4 # 10); (r, 3 # 10); (l, 3 # 10)])
    as [|first rest]; [done|].
  change (fun rw : tier_result * Q => (confidence rw.1 * rw.2)%Q) with weight_term.
  rewrite Hden. reflexivity.
Qed.

(** C9. The combined confidence is not clamped.  A reply of the provider
    with a confidence of -0.25, which [_parse_llm_response] takes as it is,
    against RAG evidence leaning vegetarian at 0.5, makes [classify] return
    a combined result whose confidence, [|p - 0.5| * 2] rounded to three
    decimals with [p = 2], is 3. *)
Theorem combined_confidence_can_exceed_one :
  let evidence := _retrieve_evidence negative_confidence_env "Chef's Mystery Bowl" in
  let rag := LLMClassifier._analyze_rag_evidence evidence in
  let llm := LLMClassifier._llm_classification negative_confidence_env 0
               "Chef's Mystery Bowl" evidence in
  let combined :=
    LLMClassifier.c_result
      (LLMClassifier.classify default_settings default_keywords
         negative_confidence_env 0 "Chef's Mystery Bowl") in
  LLMClassifier._parse_llm_response negative_confidence_env
      (SObject negative_confidence_reply) = Ok llm
  /\ confidence llm = -1 # 4
  /\ (confidence rag == 1 # 2)%Q
  /\ combined = LLMClassifier._combine_results
                  (LLMClassifier._keyword_classification default_keywords
                     "Chef's Mystery Bowl") rag llm
  /\ confidence combined = vote_confidence [(rag, 3 # 10); (llm, 3 # 10)]
  /\ (confidence combined == 3)%Q
  /\ (1 < confidence combined)%Q.
Proof.
  cbv zeta. repeat split; try reflexivity.
Qed.

(** ** Vector store *)

(** C8, as stated, fails: with [top_k = 0] on a collection whose second
    nearest document lies at distance 1.5, [search] returns two hits, more
    than [top_k], and the second has relevance -0.5, which is neither in
    [0,1] nor the clamped value 0. *)
Lemma search_relevance_is_not_clamped :
  let hits := VectorStore.search default_settings near_far_collection
                "Chef's Mystery Bowl" (Some 0%nat) in
  ~ (length hits <= 0)
  /\ ~ Forall (fun h => (relevance_score h == clamp01 (1 - distance h))%Q) hits
  /\ ~ Forall (fun h => (0 <= relevance_score h <= 1)%Q) hits.
Proof.
  cbv zeta. split; [|split].
  - vm_compute. lia.
  - intros H. vm_compute in H.
    apply Forall_cons in H as [_ H]. apply Forall_cons in H as [H _].
    discriminate H.
  - intros H. vm_compute in H.
    apply Forall_cons in H as [_ H]. apply Forall_cons in H as [[H _] _].
    by apply H.
Qed.

(** C8, amended.  For every query and [top_k], [search] returns one hit per
    row the collection returns, in the same order, each with
    [relevance_score = 1 - distance] and no clamping: the relevance is in
    [0,1] when the distance is, and negative when the distance exceeds 1.
    The number of rows asked for is [top_k] when it is at least 1 and
    [rag_top_k] when it is absent; when the collection returns at most as
    many rows as it is asked for, so does [search], and when it returns them
    in ascending order of distance, so does [search]. *)
Theorem search_relevance_is_one_minus_distance
    (cfg : settings) (collection_query : string -> nat -> list VectorStore.row)
    (query : string) (top_k : option nat) :
  let k := VectorStore.effective_k cfg top_k in
  let rows := collection_query query k in
  let hits := VectorStore.search cfg collection_query query top_k in
  match top_k with
  | None => k = rag_top_k cfg
  | Some (S n) => k = S n
  | Some O => True
  end
  /\ length hits = length rows
  /\ map distance hits = map VectorStore.r_distance rows
  /\ map document hits = map VectorStore.r_document rows
  /\ Forall (fun h => relevance_score h = (1 - distance h)%Q) hits
  /\ Forall (fun h => (0 <= distance h <= 1)%Q -> (0 <= relevance_score h <= 1)%Q) hits
  /\ Forall (fun h => (1 < distance h)%Q -> (relevance_score h < 0)%Q) hits
  /\ (length rows <= k -> length hits <= k)
  /\ (Sorted Qle (map VectorStore.r_distance rows) -> Sorted Qle (map distance hits)).
Proof.
  intros k rows hits.
  assert (Hd : map distance hits = map VectorStore.r_distance rows).
  { subst hits rows. unfold VectorStore.search. fold k.
    rewrite List.map_map. reflexivity. }
  assert (Hlen : length hits = length rows).
  { subst hits rows. unfold VectorStore.search. fold k. by rewrite length_map. }
  assert (Hrel : Forall (fun h => relevance_score h = (1 - distance h)%Q) hits).
  { subst hits. unfold VectorStore.search. apply Forall_forall.
    intros h Hin. apply list_elem_of_In, List.in_map_iff in Hin as (r & <- & _).
    reflexivity. }
  split; [by destruct top_k as [[|n]|]|].
  split; [exact Hlen|]. split; [exact Hd|]. split.
  { subst hits rows. unfold VectorStore.search. fold k.
    rewrite List.map_map. reflexivity. }
  split; [exact Hrel|]. split.
  { eapply Forall_impl; [exact Hrel|]. cbn. intros h -> [? ?]. split; lra. }
  split.
  { eapply Forall_impl; [exact Hrel|]. cbn. intros h -> ?. lra. }
  split.
  - intros H. by rewrite Hlen.
  - intros H. by rewrite Hd.
Qed.

Lemma search_relevance_is_one_minus_distance_witness :
  let hits := VectorStore.search default_settings near_far_collection
                "Chef's Mystery Bowl" (Some 2%nat) in
  Forall (fun h => relevance_score h = (1 - distance h)%Q) hits
  /\ length hits <= 2
  /\ Sorted Qle (map distance hits).
Proof.
  cbv zeta.
  destruct (search_relevance_is_one_minus_distance default_settings
              near_far_collection "Chef's Mystery Bowl" (Some 2%nat))
    as (_ & _ & _ & _ & Hrel & _ & _ & Hlen & Hsorted).
  split; [exact Hrel|]. split.
  - apply Hlen. vm_compute. lia.
  - apply Hsorted. repeat constructor; vm_compute; discriminate.
Defined.

(** ** Classifier tool *)

Lemma describes_classified_item (item : ClassifierTool.menu_item) (conf : Q)
    (why : string) (evidence : list string) (meth : string) :
  describes item
    (ClassifierTool.classified_item (ClassifierTool.i_name item)
       (ClassifierTool.i_price item) conf why evidence
       (ClassifierTool.i_source_image item) meth).
Proof. repeat split. Qed.

Lemma describes_detailed (item : ClassifierTool.menu_item) (d : pydict)
    (is_veg : pyval) (related : list string) (category : pyval) :
  describes item d ->
  describes item (ClassifierTool.detailed d is_veg related category).
Proof.
  intros (Hn & Hp & Hs). unfold ClassifierTool.detailed.
  repeat split; by rewrite !lookup_insert_ne.
Qed.

Lemma describes_suggestion (item : ClassifierTool.menu_item) (d : pydict)
    (is_veg : pyval) :
  describes item d ->
  describes item (<["suggested_classification" := is_veg]> d).
Proof.
  intros (Hn & Hp & Hs). repeat split; by rewrite lookup_insert_ne.
Qed.

Section ToolInvariants.

Variable cfg : settings.
Variable kb : keywords.
Variable env : oracles.
(** The whole request. *)
Variable items : list ClassifierTool.menu_item.

Lemma bucketed_snoc_vegetarian (p : ClassifierTool.placed)
    (c : ClassifierTool.classification) :
  bucketed (ClassifierTool.add_vegetarian p c) ≡ₚ bucketed c ++ [p].
Proof.
  unfold bucketed. destruct c as [veg nv unc al]. cbn.
  rewrite <- (app_assoc veg [p]), <- (app_assoc veg (nv ++ unc) [p]).
  apply Permutation_app_head. apply (Permutation_cons_append (nv ++ unc) p).
Qed.

Lemma bucketed_snoc_non_vegetarian (p : ClassifierTool.placed)
    (c : ClassifierTool.classification) :
  bucketed (ClassifierTool.add_non_vegetarian p c) ≡ₚ bucketed c ++ [p].
Proof.
  unfold bucketed. destruct c as [veg nv unc al]. cbn.
  rewrite <- (app_assoc veg (nv ++ unc) [p]).
  apply Permutation_app_head.
  rewrite <- (app_assoc nv [p]), <- (app_assoc nv unc [p]).
  apply Permutation_app_head. apply (Permutation_cons_append unc p).
Qed.

Lemma bucketed_snoc_uncertain (p : ClassifierTool.placed)
    (c : ClassifierTool.classification) :
  bucketed (ClassifierTool.add_uncertain p c) = bucketed c ++ [p].
Proof. unfold bucketed. cbn. by rewrite !app_assoc. Qed.

(** What the three-way test does: the dict goes into exactly one bucket,
    and [all_items] is left alone. *)
Lemma bucket_inv (i : nat) (item : ClassifierTool.menu_item) (ci : pydict)
    (is_veg : pyval) (conf : Q) (c : ClassifierTool.classification) :
  items !! i = Some item ->
  describes item ci ->
  let c' := ClassifierTool.bucket cfg i ci is_veg conf c in
  ClassifierTool.all_items c' = ClassifierTool.all_items c
  /\ map ClassifierTool.origin (bucketed c')
       ≡ₚ map ClassifierTool.origin (bucketed c) ++ [i]
  /\ (Forall (built_for items) (bucketed c) ->
      Forall (built_for items) (bucketed c')).
Proof.
  intros Hi Hci c'. subst c'. unfold ClassifierTool.bucket.
  destruct (is_none is_veg || Qlt_bool conf (hitl_threshold cfg));
    [|destruct (truthy is_veg)].
  - split; [reflexivity|]. rewrite bucketed_snoc_uncertain. split.
    + by rewrite map_app.
    + intros H. apply Forall_app. split; [exact H|].
      apply Forall_singleton. exists item. split; [exact Hi|].
      by apply describes_suggestion.
  - split; [reflexivity|]. rewrite bucketed_snoc_vegetarian. split.
    + by rewrite map_app.
    + intros H. apply Forall_app. split; [exact H|].
      apply Forall_singleton. by exists item.
  - split; [reflexivity|]. rewrite bucketed_snoc_non_vegetarian. split.
    + by rewrite map_app.
    + intros H. apply Forall_app. split; [exact H|].
      apply Forall_singleton. by exists item.
Qed.

Lemma sequential_step_inv (i : nat) (item : ClassifierTool.menu_item)
    (c : ClassifierTool.classification) :
  items !! i = Some item ->
  let c' := ClassifierTool.sequential_step cfg kb env c i item in
  map ClassifierTool.origin (ClassifierTool.all_items c')
    = map ClassifierTool.origin (ClassifierTool.all_items c) ++ [i]
  /\ map ClassifierTool.origin (bucketed c')
       ≡ₚ map ClassifierTool.origin (bucketed c) ++ [i]
  /\ (Forall (built_for items) (bucketed c) ->
      Forall (built_for items) (bucketed c'))
  /\ (Forall (built_for items) (ClassifierTool.all_items c) ->
      Forall (built_for items) (ClassifierTool.all_items c')).
Proof.
  intros Hi c'. subst c'. unfold ClassifierTool.sequential_step.
  set (result := LLMClassifier.classify cfg kb env i (ClassifierTool.i_name item)).
  set (r := LLMClassifier.c_result result).
  set (ci := ClassifierTool.classified_item _ _ _ _ _ _ _).
  set (c1 := ClassifierTool.add_all _ c).
  assert (Hci : describes item ci) by apply describes_classified_item.
  destruct (bucket_inv i item ci (is_vegetarian r) (confidence r) c1 Hi Hci)
    as (Hall & Hperm & Hbuilt).
  rewrite Hall. repeat split.
  - subst c1. cbn. by rewrite map_app.
  - exact Hperm.
  - exact Hbuilt.
  - intros H. subst c1. cbn. apply Forall_app. split; [exact H|].
    apply Forall_singleton. exists item. split; [exact Hi|].
    by apply describes_detailed.
Qed.

Lemma sequential_loop_inv (rest done : list ClassifierTool.menu_item)
    (c : ClassifierTool.classification) :
  items = done ++ rest ->
  map ClassifierTool.origin (ClassifierTool.all_items c) = seq 0 (length done) ->
  map ClassifierTool.origin (bucketed c) ≡ₚ seq 0 (length done) ->
  Forall (built_for items) (bucketed c) ->
  Forall (built_for items) (ClassifierTool.all_items c) ->
  let c' := ClassifierTool.sequential_loop cfg kb env (length done) rest c in
  map ClassifierTool.origin (ClassifierTool.all_items c') = seq 0 (length items)
  /\ map ClassifierTool.origin (bucketed c') ≡ₚ seq 0 (length items)
  /\ Forall (built_for items) (bucketed c')
  /\ Forall (built_for items) (ClassifierTool.all_items c').
Proof.
  revert done c. induction rest as [|item rest IH]; intros done c Hsplit Hall Hb Hfb Hfa.
  - cbn. rewrite app_nil_r in Hsplit. subst done. by repeat split.
  - cbn [ClassifierTool.sequential_loop].
    assert (Hi : items !! length done = Some item).
    { rewrite Hsplit. by rewrite list_lookup_middle. }
    destruct (sequential_step_inv (length done) item c Hi) as (H1 & H2 & H3 & H4).
    specialize (IH (done ++ [item])
                   (ClassifierTool.sequential_step cfg kb env c (length done) item)).
    rewrite length_app in IH. cbn [length] in IH.
    replace (length done + 1) with (S (length done)) in IH by lia.
    apply IH.
    + by rewrite <- app_assoc.
    + rewrite H1, Hall. by rewrite seq_S.
    + rewrite H2, Hb. by rewrite seq_S.
    + by apply H3.
    + by apply H4.
Qed.

End ToolInvariants.

Lemma rag_verdict_cases (evidence : list rag_hit) :
  let r := LLMClassifier._analyze_rag_evidence evidence in
  is_vegetarian r = VBool true
  \/ is_vegetarian r = VBool false
  \/ (is_vegetarian r = VNone /\ (confidence r = 0%Q \/ confidence r = 3 # 10)).
Proof.
  unfold LLMClassifier._analyze_rag_evidence.
  destruct evidence as [|e evidence]; [right; right; split; [done|by left]|].
  destruct (foldl LLMClassifier.rag_step (0%Q, 0%Q, []) (e :: evidence))
    as [[veg_score non_veg_score] reasons].
  destruct (Qlt_bool non_veg_score veg_score && Qlt_bool (1 # 2) veg_score);
    [by left|].
  destruct (Qlt_bool veg_score non_veg_score && Qlt_bool (1 # 2) non_veg_score);
    [right; by left|].
  right; right. split; [done|by right].
Qed.

Lemma positions_snoc (f : ClassifierTool.menu_item -> bool) (i : nat)
    (l : list ClassifierTool.menu_item) (x : ClassifierTool.menu_item) :
  positions f i (l ++ [x])
  = positions f i l ++ (if f x then [i + length l] else []).
Proof.
  revert i. induction l as [|y l IH]; intros i; cbn.
  - rewrite Nat.add_0_r. by destruct (f x).
  - rewrite IH. replace (S i + length l) with (i + S (length l)) by lia.
    by destruct (f y).
Qed.

Lemma positions_partition (f : ClassifierTool.menu_item -> bool) (i : nat)
    (l : list ClassifierTool.menu_item) :
  positions f i l ++ positions (fun x => negb (f x)) i l ≡ₚ seq i (length l).
Proof.
  revert i. induction l as [|y l IH]; intros i; cbn; [done|].
  destruct (f y); cbn.
  - by rewrite IH.
  - rewrite <- Permutation_middle. by rewrite IH.
Qed.

Lemma slices_concat {A : Type} (size fuel : nat) (l : list A) :
  0 < size -> length l <= fuel ->
  concat (ClassifierTool.slices fuel size l) = l.
Proof.
  intros Hsize. revert l. induction fuel as [|fuel IH]; intros l Hlen.
  - destruct l; [done|cbn in Hlen; lia].
  - cbn [ClassifierTool.slices]. destruct l as [|x l]; [done|].
    cbn [concat]. rewrite IH.
    + apply take_drop.
    + rewrite length_drop. cbn [length] in *. lia.
Qed.

Lemma batches_concat {A : Type} (cfg : settings) (l : list A) :
  concat (ClassifierTool.batches cfg l) = l.
Proof. apply slices_concat; [lia|done]. Qed.

Lemma snoc_middle (a b : list nat) (i : nat) :
  (a ++ [i]) ++ b ≡ₚ (a ++ b) ++ [i].
Proof.
  rewrite <- (app_assoc a [i] b), <- (app_assoc a b [i]).
  apply Permutation_app_head. apply (Permutation_cons_append b i).
Qed.

Section BatchInvariants.

Variable cfg : settings.
Variable kb : keywords.
Variable env : oracles.
Variable items : list ClassifierTool.menu_item.

Lemma add_all_inv (q : ClassifierTool.placed)
    (c : ClassifierTool.classification) :
  built_for items q -> well_built items c ->
  well_built items (ClassifierTool.add_all q c).
Proof.
  intros Hq [Hb Ha]. split; [exact Hb|].
  cbn. apply Forall_app. split; [exact Ha|by apply Forall_singleton].
Qed.

Lemma placed_inv (c1 c' : ClassifierTool.classification)
    (p : ClassifierTool.placed) :
  bucketed c' ≡ₚ bucketed c1 ++ [p] ->
  ClassifierTool.all_items c' = ClassifierTool.all_items c1 ->
  built_for items p -> well_built items c1 ->
  well_built items c'
  /\ map ClassifierTool.origin (bucketed c')
       ≡ₚ map ClassifierTool.origin (bucketed c1) ++ [ClassifierTool.origin p].
Proof.
  intros Hperm Hall Hp [Hb Ha]. split; [split|].
  - rewrite Hperm. apply Forall_app. split; [exact Hb|by apply Forall_singleton].
  - by rewrite Hall.
  - rewrite Hperm. by rewrite map_app.
Qed.

Lemma first_pass_step_inv (i : nat) (item : ClassifierTool.menu_item)
    (st : ClassifierTool.classification * list ClassifierTool.pending) :
  items !! i = Some item ->
  well_built items st.1 -> Forall (pending_for items) st.2 ->
  let st' := ClassifierTool.first_pass_step cfg kb env st i item in
  accounted st' ≡ₚ accounted st ++ [i]
  /\ well_built items st'.1
  /\ Forall (pending_for items) st'.2.
Proof.
  destruct st as [c needs]. cbn [fst snd]. intros Hi Hwb Hneeds.
  unfold ClassifierTool.first_pass_step.
  set (keyword_result := LLMClassifier._keyword_classification kb _).
  set (rag_evidence := _retrieve_evidence env _).
  set (rag_result := LLMClassifier._analyze_rag_evidence rag_evidence).
  set (waiting := ClassifierTool.Build_pending _ _ _ _ _ _ _).
  assert (Hwaiting : Forall (pending_for items) (needs ++ [waiting])).
  { apply Forall_app. split; [exact Hneeds|]. apply Forall_singleton.
    by exists item. }
  assert (Hlater : forall c1, well_built items c1 ->
            bucketed c1 = bucketed c ->
            accounted (c1, needs ++ [waiting]) ≡ₚ accounted (c, needs) ++ [i]
            /\ well_built items c1
            /\ Forall (pending_for items) (needs ++ [waiting])).
  { intros c1 Hc1 Hsame. repeat split; try done; try apply Hc1.
    unfold accounted. cbn [fst snd]. rewrite Hsame, map_app.
    cbn. by rewrite app_assoc. }
  assert (Hnow : forall c1 c' p, well_built items c1 ->
            bucketed c1 = bucketed c ->
            bucketed c' ≡ₚ bucketed c1 ++ [p] ->
            ClassifierTool.all_items c' = ClassifierTool.all_items c1 ->
            ClassifierTool.origin p = i -> describes item (ClassifierTool.entry p) ->
            accounted (c', needs) ≡ₚ accounted (c, needs) ++ [i]
            /\ well_built items c'
            /\ Forall (pending_for items) needs).
  { intros c1 c' p Hc1 Hsame Hperm Hall Ho Hd.
    assert (Hp : built_for items p) by (exists item; by rewrite Ho).
    destruct (placed_inv c1 c' p Hperm Hall Hp Hc1) as [Hwb' Ho'].
    repeat split; try done; try apply Hwb'.
    unfold accounted. cbn [fst snd]. rewrite Ho', Hsame, Ho.
    apply snoc_middle. }
  destruct (Qle_bool (9 # 10) (confidence keyword_result)).
  - set (ci := ClassifierTool.classified_item _ _ _ _ _ _ _).
    set (c1 := ClassifierTool.add_all _ c).
    assert (Hc1 : well_built items c1).
    { apply add_all_inv; [|exact Hwb]. exists item. split; [exact Hi|].
      apply describes_detailed, describes_classified_item. }
    destruct (truthy (is_vegetarian keyword_result)); cbn [fst snd].
    + apply (Hnow c1 _ (ClassifierTool.Build_placed i ci)); try done;
        (apply bucketed_snoc_vegetarian || apply describes_classified_item).
    + apply (Hnow c1 _ (ClassifierTool.Build_placed i ci)); try done;
        (apply bucketed_snoc_non_vegetarian || apply describes_classified_item).
  - destruct (Qle_bool (confidence_threshold cfg) (confidence rag_result)).
    + set (ci := ClassifierTool.classified_item _ _ _ _ _ _ _).
      set (c1 := ClassifierTool.add_all _ c).
      assert (Hc1 : well_built items c1).
      { apply add_all_inv; [|exact Hwb]. exists item. split; [exact Hi|].
        apply describes_detailed, describes_classified_item. }
      destruct (truthy (is_vegetarian rag_result)); cbn [fst snd].
      * apply (Hnow c1 _ (ClassifierTool.Build_placed i ci)); try done;
          (apply bucketed_snoc_vegetarian || apply describes_classified_item).
      * destruct (is_vegetarian rag_result) as [|[|]| | | |]; cbn [fst snd];
          try (by apply Hlater).
        apply (Hnow c1 _ (ClassifierTool.Build_placed i ci)); try done;
          (apply bucketed_snoc_non_vegetarian || apply describes_classified_item).
    + cbn [fst snd]. by apply Hlater.
Qed.

(** With a threshold above 0.3 an inconclusive RAG result is never taken
    for decisive, and the first pass either lists an item in [all_items]
    or leaves it waiting for the LLM. *)
Lemma first_pass_step_order (i : nat) (item : ClassifierTool.menu_item)
    (st : ClassifierTool.classification * list ClassifierTool.pending) :
  (3 # 10 < confidence_threshold cfg)%Q ->
  let st' := ClassifierTool.first_pass_step cfg kb env st i item in
  map ClassifierTool.origin (ClassifierTool.all_items st'.1)
    = map ClassifierTool.origin (ClassifierTool.all_items st.1)
      ++ (if settled_early cfg kb env item then [i] else [])
  /\ map ClassifierTool.n_origin st'.2
    = map ClassifierTool.n_origin st.2
      ++ (if settled_early cfg kb env item then [] else [i]).
Proof.
  destruct st as [c needs]. cbn [fst snd]. intros Hthr.
  unfold ClassifierTool.first_pass_step, settled_early.
  set (keyword_result := LLMClassifier._keyword_classification kb _).
  set (rag_evidence := _retrieve_evidence env _).
  set (rag_result := LLMClassifier._analyze_rag_evidence rag_evidence).
  destruct (Qle_bool (9 # 10) (confidence keyword_result)); cbn [orb].
  - destruct (truthy (is_vegetarian keyword_result)); cbn;
      by rewrite map_app, app_nil_r.
  - destruct (Qle_bool (confidence_threshold cfg) (confidence rag_result)) eqn:Hrag.
    + destruct (rag_verdict_cases rag_evidence) as [Hv|[Hv|[Hv Hc]]];
        fold rag_result in Hv.
      * rewrite Hv. cbn. by rewrite map_app, app_nil_r.
      * rewrite Hv. cbn. by rewrite map_app, app_nil_r.
      * exfalso. fold rag_result in Hc. apply Qle_bool_iff in Hrag.
        destruct Hc as [Hc|Hc]; rewrite Hc in Hrag; lra.
    + cbn. by rewrite map_app, app_nil_r.
Qed.

Lemma first_pass_inv (rest done : list ClassifierTool.menu_item)
    (st : ClassifierTool.classification * list ClassifierTool.pending) :
  items = done ++ rest ->
  accounted st ≡ₚ seq 0 (length done) ->
  well_built items st.1 -> Forall (pending_for items) st.2 ->
  let st' := ClassifierTool.first_pass cfg kb env (length done) rest st in
  accounted st' ≡ₚ seq 0 (length items)
  /\ well_built items st'.1
  /\ Forall (pending_for items) st'.2.
Proof.
  revert done st. induction rest as [|item rest IH]; intros done st Hsplit Hacc Hwb Hn.
  - cbn. rewrite app_nil_r in Hsplit. subst done. auto.
  - cbn [ClassifierTool.first_pass].
    assert (Hi : items !! length done = Some item).
    { rewrite Hsplit. by rewrite list_lookup_middle. }
    destruct (first_pass_step_inv (length done) item st Hi Hwb Hn) as (H1 & H2 & H3).
    specialize (IH (done ++ [item])
                   (ClassifierTool.first_pass_step cfg kb env st (length done) item)).
    rewrite length_app in IH. cbn [length] in IH.
    replace (length done + 1) with (S (length done)) in IH by lia.
    apply IH; try done.
    + by rewrite <- app_assoc.
    + rewrite H1, Hacc. by rewrite seq_S.
Qed.

Lemma first_pass_order (rest done : list ClassifierTool.menu_item)
    (st : ClassifierTool.classification * list ClassifierTool.pending) :
  (3 # 10 < confidence_threshold cfg)%Q ->
  items = done ++ rest ->
  map ClassifierTool.origin (ClassifierTool.all_items st.1)
    = positions (settled_early cfg kb env) 0 done ->
  map ClassifierTool.n_origin st.2
    = positions (fun x => negb (settled_early cfg kb env x)) 0 done ->
  let st' := ClassifierTool.first_pass cfg kb env (length done) rest st in
  map ClassifierTool.origin (ClassifierTool.all_items st'.1)
    = positions (settled_early cfg kb env) 0 items
  /\ map ClassifierTool.n_origin st'.2
    = positions (fun x => negb (settled_early cfg kb env x)) 0 items.
Proof.
  intros Hthr.
  revert done st. induction rest as [|item rest IH]; intros done st Hsplit Ha Hn.
  - cbn. rewrite app_nil_r in Hsplit. subst done. by split.
  - cbn [ClassifierTool.first_pass].
    destruct (first_pass_step_order (length done) item st Hthr) as (H1 & H2).
    specialize (IH (done ++ [item])
                   (ClassifierTool.first_pass_step cfg kb env st (length done) item)).
    rewrite length_app in IH. cbn [length] in IH.
    replace (length done + 1) with (S (length done)) in IH by lia.
    apply IH.
    + by rewrite <- app_assoc.
    + rewrite H1, Ha, positions_snoc. reflexivity.
    + rewrite H2, Hn, positions_snoc.
      by destruct (settled_early cfg kb env item).
Qed.

(** Second pass: every waiting item is listed and bucketed once, whatever
    the provider returned for it. *)
Lemma second_pass_step_inv (llm_results : gmap string tier_result)
    (c : ClassifierTool.classification) (n : ClassifierTool.pending) :
  pending_for items n -> well_built items c ->
  let c' := ClassifierTool.second_pass_step cfg llm_results c n in
  map ClassifierTool.origin (ClassifierTool.all_items c')
    = map ClassifierTool.origin (ClassifierTool.all_items c)
      ++ [ClassifierTool.n_origin n]
  /\ map ClassifierTool.origin (bucketed c')
       ≡ₚ map ClassifierTool.origin (bucketed c) ++ [ClassifierTool.n_origin n]
  /\ well_built items c'.
Proof.
  intros (item & Hi & Hname & Hprice & Hsource) Hwb c'. subst c'.
  unfold ClassifierTool.second_pass_step.
  set (combined := LLMClassifier._combine_results _ _ _).
  set (ci := ClassifierTool.classified_item _ _ _ _ _ _ _).
  set (c1 := ClassifierTool.add_all _ c).
  assert (Hci : describes item ci).
  { subst ci. rewrite Hname, Hprice, Hsource. apply describes_classified_item. }
  assert (Hc1 : well_built items c1).
  { apply add_all_inv; [|exact Hwb]. exists item. split; [exact Hi|].
    by apply describes_detailed. }
  destruct (bucket_inv cfg items (ClassifierTool.n_origin n) item ci
              (is_vegetarian combined) (confidence combined) c1 Hi Hci)
    as (Hall & Hperm & Hbuilt).
  rewrite Hall. repeat split.
  - subst c1. cbn. by rewrite map_app.
  - exact Hperm.
  - apply Hbuilt, Hc1.
  - rewrite Hall. apply Hc1.
Qed.

Lemma second_pass_batch_inv (call : nat) (batch : list ClassifierTool.pending)
    (c : ClassifierTool.classification) :
  Forall (pending_for items) batch -> well_built items c ->
  let c' := ClassifierTool.second_pass_batch cfg env call batch c in
  map ClassifierTool.origin (ClassifierTool.all_items c')
    = map ClassifierTool.origin (ClassifierTool.all_items c)
      ++ map ClassifierTool.n_origin batch
  /\ map ClassifierTool.origin (bucketed c')
       ≡ₚ map ClassifierTool.origin (bucketed c)
          ++ map ClassifierTool.n_origin batch
  /\ well_built items c'.
Proof.
  unfold ClassifierTool.second_pass_batch.
  generalize (LLMClassifier.classify_batch_llm env call
                (map ClassifierTool.n_name batch)) as llm_results.
  intros llm_results. revert c.
  induction batch as [|n batch IH]; intros c Hb Hwb.
  - cbn. rewrite !app_nil_r. auto.
  - apply Forall_cons in Hb as [Hn Hb]. cbn [foldl map].
    destruct (second_pass_step_inv llm_results c n Hn Hwb) as (H1 & H2 & H3).
    destruct (IH _ Hb H3) as (I1 & I2 & I3).
    split; [|split; [|exact I3]].
    + rewrite I1, H1. by rewrite <- app_assoc.
    + rewrite I2, H2. by rewrite <- app_assoc.
Qed.

Lemma second_pass_inv (bs : list (list ClassifierTool.pending)) (call : nat)
    (c : ClassifierTool.classification) :
  Forall (pending_for items) (concat bs) -> well_built items c ->
  let c' := ClassifierTool.second_pass cfg env call bs c in
  map ClassifierTool.origin (ClassifierTool.all_items c')
    = map ClassifierTool.origin (ClassifierTool.all_items c)
      ++ map ClassifierTool.n_origin (concat bs)
  /\ map ClassifierTool.origin (bucketed c')
       ≡ₚ map ClassifierTool.origin (bucketed c)
          ++ map ClassifierTool.n_origin (concat bs)
  /\ well_built items c'.
Proof.
  revert call c. induction bs as [|batch bs IH]; intros call c Hb Hwb.
  - cbn. rewrite !app_nil_r. auto.
  - cbn [concat] in Hb. apply Forall_app in Hb as [Hbatch Hb].
    cbn [ClassifierTool.second_pass concat].
    destruct (second_pass_batch_inv call batch c Hbatch Hwb) as (H1 & H2 & H3).
    destruct (IH (S call) _ Hb H3) as (I1 & I2 & I3).
    split; [|split; [|exact I3]].
    + rewrite I1, H1, map_app. by rewrite <- app_assoc.
    + rewrite I2, H2, map_app. by rewrite <- app_assoc.
Qed.

End BatchInvariants.

Lemma complete_bucketing_intro (items : list ClassifierTool.menu_item)
    (c : ClassifierTool.classification) :
  map ClassifierTool.origin (bucketed c) ≡ₚ seq 0 (length items) ->
  Forall (built_for items) (bucketed c) ->
  complete_bucketing items c.
Proof.
  intros Hperm Hbuilt.
  assert (Hnodup : NoDup (map ClassifierTool.origin (bucketed c))).
  { rewrite Hperm. apply NoDup_seq. }
  assert (Hlen : length (bucketed c) = length items).
  { rewrite <- (length_map ClassifierTool.origin), Hperm. apply length_seq. }
  unfold bucketed in Hnodup, Hlen. rewrite !map_app in Hnodup.
  rewrite !length_app in Hlen.
  apply NoDup_app in Hnodup as (_ & Hveg & Hrest).
  apply NoDup_app in Hrest as (_ & Hnon & _).
  split; [lia|]. split; [exact Hperm|].
  split; [rewrite Hperm; apply NoDup_seq|].
  split; [|split; [|split; [|exact Hbuilt]]].
  - intros p q Hp Hq Heq.
    apply (Hveg (ClassifierTool.origin p)).
    + by apply list_elem_of_fmap_2.
    + apply elem_of_app. left. rewrite Heq. by apply list_elem_of_fmap_2.
  - intros p q Hp Hq Heq.
    apply (Hveg (ClassifierTool.origin p)).
    + by apply list_elem_of_fmap_2.
    + apply elem_of_app. right. rewrite Heq. by apply list_elem_of_fmap_2.
  - intros p q Hp Hq Heq.
    apply (Hnon (ClassifierTool.origin p)).
    + by apply list_elem_of_fmap_2.
    + rewrite Heq. by apply list_elem_of_fmap_2.
Qed.

Lemma execute_sequential_inv (cfg : settings) (kb : keywords) (env : oracles)
    (items : list ClassifierTool.menu_item) :
  let c := ClassifierTool._execute_sequential cfg kb env items in
  map ClassifierTool.origin (ClassifierTool.all_items c) = seq 0 (length items)
  /\ map ClassifierTool.origin (bucketed c) ≡ₚ seq 0 (length items)
  /\ Forall (built_for items) (bucketed c)
  /\ Forall (built_for items) (ClassifierTool.all_items c).
Proof.
  unfold ClassifierTool._execute_sequential.
  by apply (sequential_loop_inv cfg kb env items items [] ClassifierTool.no_items).
Qed.

Lemma execute_with_batch_inv (cfg : settings) (kb : keywords) (env : oracles)
    (items : list ClassifierTool.menu_item) :
  let c := ClassifierTool._execute_with_batch cfg kb env items in
  map ClassifierTool.origin (bucketed c) ≡ₚ seq 0 (length items)
  /\ well_built items c.
Proof.
  unfold ClassifierTool._execute_with_batch.
  destruct (first_pass_inv cfg kb env items items []
              (ClassifierTool.no_items, [])) as (Hacc & Hwb & Hn);
    [done|done|by split|done|].
  cbn [length] in Hacc, Hwb, Hn.
  destruct (ClassifierTool.first_pass cfg kb env 0 items
              (ClassifierTool.no_items, [])) as [c needs_llm].
  cbn [fst snd] in *.
  destruct (second_pass_inv cfg env items (ClassifierTool.batches cfg needs_llm) 0 c)
    as (_ & Hperm & Hwb'); [by rewrite batches_concat|done|].
  rewrite batches_concat in Hperm.
  split; [|exact Hwb']. by rewrite Hperm.
Qed.

(** C5. For every request and under either strategy, bucketing is complete:
    the sizes of the three buckets add up to the number of input items,
    every input position has exactly one dict in the buckets, so the
    buckets are pairwise disjoint, and that dict carries the name, price
    and source image of the item.  The provider is arbitrary, so this
    covers batches for which the parser returns no result for an item. *)
Theorem bucketing_is_complete_under_either_strategy
    (cfg : settings) (kb : keywords) (env : oracles)
    (items : list ClassifierTool.menu_item) :
  complete_bucketing items (ClassifierTool._execute_sequential cfg kb env items)
  /\ complete_bucketing items (ClassifierTool._execute_with_batch cfg kb env items)
  /\ complete_bucketing items (ClassifierTool.execute cfg kb env items).
Proof.
  assert (Hseq : complete_bucketing items
                   (ClassifierTool._execute_sequential cfg kb env items)).
  { destruct (execute_sequential_inv cfg kb env items) as (_ & Hperm & Hb & _).
    by apply complete_bucketing_intro. }
  assert (Hbatch : complete_bucketing items
                     (ClassifierTool._execute_with_batch cfg kb env items)).
  { destruct (execute_with_batch_inv cfg kb env items) as (Hperm & Hb & _).
    by apply complete_bucketing_intro. }
  split; [exact Hseq|]. split; [exact Hbatch|].
  unfold ClassifierTool.execute. by destruct (llm_batch_enabled cfg).
Qed.

(** An item for which the batch parser returns no result is still bucketed:
    it is listed as uncertain. *)
Example unanswered_item_is_uncertain :
  let c := ClassifierTool.execute default_settings default_keywords silent_env
             mystery_then_chicken in
  map ClassifierTool.origin (ClassifierTool.uncertain_items c) = [0]
  /\ map ClassifierTool.origin (ClassifierTool.non_vegetarian_items c) = [1]
  /\ ClassifierTool.vegetarian_items c = [].
Proof. repeat split. Qed.

(** C4.  The batch strategy does not keep [all_items] in input order, as
    the claim requires and as the sequential strategy does: on the request
    [Chef's Mystery Bowl, Chicken Wings] the first pass lists the chicken
    dish, which the keyword tier settles, and the second pass then adds the
    dish that had to wait for the provider, so [all_items] is in the order
    [Chicken Wings, Chef's Mystery Bowl]. *)
Lemma batch_all_items_not_in_input_order :
  let c := ClassifierTool.execute default_settings default_keywords mystery_env
             mystery_then_chicken in
  llm_batch_enabled default_settings = true
  /\ map (fun p => get (ClassifierTool.entry p) "name" VNone)
         (ClassifierTool.all_items c)
     = [VStr "Chicken Wings"; VStr "Chef's Mystery Bowl"]
  /\ map (fun p => get (ClassifierTool.entry p) "name" VNone)
         (ClassifierTool.all_items c)
     <> map (fun item => VStr (ClassifierTool.i_name item)) mystery_then_chicken.
Proof.
  cbv zeta. split; [reflexivity|]. split; [reflexivity|].
  intros H. vm_compute in H. discriminate H.
Qed.

(** The order of [all_items] under the two strategies.  The sequential
    strategy lists the items in input order.  The batch strategy, with a
    confidence threshold above 0.3, lists every item once: first, in input
    order, the items the keyword or RAG tier settles, then, in input order,
    the items sent to the provider.  Under both, each entry carries the
    name, price and source image of the item it stands for. *)
Lemma all_items_order_by_strategy
    (cfg : settings) (kb : keywords) (env : oracles)
    (items : list ClassifierTool.menu_item) :
  let s := ClassifierTool._execute_sequential cfg kb env items in
  let b := ClassifierTool._execute_with_batch cfg kb env items in
  map ClassifierTool.origin (ClassifierTool.all_items s) = seq 0 (length items)
  /\ Forall (built_for items) (ClassifierTool.all_items s)
  /\ Forall (built_for items) (ClassifierTool.all_items b)
  /\ ((3 # 10 < confidence_threshold cfg)%Q ->
      map ClassifierTool.origin (ClassifierTool.all_items b)
      = positions (settled_early cfg kb env) 0 items
        ++ positions (fun x => negb (settled_early cfg kb env x)) 0 items
      /\ map ClassifierTool.origin (ClassifierTool.all_items b)
           ≡ₚ seq 0 (length items)).
Proof.
  intros s b.
  destruct (execute_sequential_inv cfg kb env items) as (Hs & _ & _ & Hsb).
  destruct (execute_with_batch_inv cfg kb env items) as (_ & _ & Hbb).
  split; [exact Hs|]. split; [exact Hsb|]. split; [exact Hbb|].
  intros Hthr.
  assert (Hb : map ClassifierTool.origin (ClassifierTool.all_items b)
               = positions (settled_early cfg kb env) 0 items
                 ++ positions (fun x => negb (settled_early cfg kb env x)) 0 items).
  { subst b. unfold ClassifierTool._execute_with_batch.
    destruct (first_pass_order cfg kb env items items []
                (ClassifierTool.no_items, []) Hthr) as (Ha & Hn);
      [done|done|done|].
    destruct (first_pass_inv cfg kb env items items []
                (ClassifierTool.no_items, [])) as (_ & Hwb & Hp);
      [done|done|by split|done|].
    cbn [length] in Ha, Hn, Hwb, Hp.
    destruct (ClassifierTool.first_pass cfg kb env 0 items
                (ClassifierTool.no_items, [])) as [c needs_llm].
    cbn [fst snd] in *.
    destruct (second_pass_inv cfg env items (ClassifierTool.batches cfg needs_llm) 0 c)
      as (Hall & _ & _); [by rewrite batches_concat|done|].
    rewrite Hall, batches_concat, Ha, Hn. reflexivity. }
  split; [exact Hb|].
  rewrite Hb. apply positions_partition.
Qed.

(** ** The tests of the repository, replayed on the embedding *)

(** [tests/test_classifier.py], [TestCalculator]. *)
Example test_calculate_sum :
  CalculatorTool.execute
    [menu_dict "Salad" (VFloat (850 # 100)); menu_dict "Burger" (VFloat 12)]
  = {| CalculatorTool.total_sum := 2050 # 100; CalculatorTool.item_count := 2 |}.
Proof. reflexivity. Qed.

Example test_calculate_empty_list :
  CalculatorTool.execute []
  = {| CalculatorTool.total_sum := 0 # 100; CalculatorTool.item_count := 0 |}.
Proof. reflexivity. Qed.

Example test_calculate_filters_invalid :
  CalculatorTool.execute
    [menu_dict "Valid" (VFloat 10); menu_dict "Invalid" (VFloat (-5));
     menu_dict "Zero" (VInt 0)]
  = {| CalculatorTool.total_sum := 1000 # 100; CalculatorTool.item_count := 1 |}.
Proof. reflexivity. Qed.

(** The same tests on doubles. *)
Example test_calculate_sum_on_doubles :
  Binary64.execute
    [<["name" := Binary64.DStr "Salad"]> (priced (Binary64.DFloat 8.5));
     <["name" := Binary64.DStr "Burger"]> (priced (Binary64.DFloat 12))]
  = Some {| Binary64.total_sum := 20.5; Binary64.item_count := 2 |}.
Proof. reflexivity. Qed.

Example test_calculate_empty_list_on_doubles :
  Binary64.execute []
  = Some {| Binary64.total_sum := 0; Binary64.item_count := 0 |}.
Proof. reflexivity. Qed.

Example test_calculate_filters_invalid_on_doubles :
  Binary64.execute
    [priced (Binary64.DFloat 10); priced (Binary64.DFloat (-5));
     priced (Binary64.DInt 0); priced (Binary64.DStr "12.00"); priced Binary64.DNone;
     priced (Binary64.DFloat PrimFloat.nan)]
  = Some {| Binary64.total_sum := 10; Binary64.item_count := 1 |}.
Proof. reflexivity. Qed.

(** [tests/test_classifier.py], [TestKeywordClassification]. *)
Example test_vegetarian_keyword_positive :
  is_vegetarian (LLMClassifier._keyword_classification default_keywords "Veggie Burger")
  = VBool true.
Proof. reflexivity. Qed.

Example test_meat_keyword_negative :
  is_vegetarian (LLMClassifier._keyword_classification default_keywords "Chicken Wings")
  = VBool false.
Proof. reflexivity. Qed.

Example test_no_keyword_match :
  LLMClassifier._keyword_classification default_keywords "Mushroom Risotto"
  = {| is_vegetarian := VNone; confidence := 0;
       reasoning := "No keyword match"; method := "keyword" |}.
Proof. reflexivity. Qed.

(** Word boundaries: "hammock" does not contain the keyword "ham". *)
Example hammock_is_not_ham :
  is_vegetarian (LLMClassifier._keyword_classification default_keywords "Hammock Special")
  = VNone.
Proof. reflexivity. Qed.

(** A reviewer who corrects the soup twice: the later label decides, and
    both corrections are counted. *)
Example soup_corrected_twice :
  keep_last_of "soup" soup_no_then_yes
  = [ {| CalculatorTool.c_name := "SOUP";
         CalculatorTool.c_is_vegetarian := VBool true |} ]
  /\ CalculatorTool.recompute_with_corrections
       [menu_dict "Soup" (VFloat 7)] soup_no_then_yes
     = Some {| CalculatorTool.vegetarian_items :=
                 [CalculatorTool.human_verified "Soup" (VFloat 7)];
               CalculatorTool.r_total_sum := 700 # 100;
               CalculatorTool.corrections_applied := 2 |}.
Proof. split; reflexivity. Qed.

(** The sequential strategy on the request that the batch strategy reorders. *)
Example sequential_keeps_input_order :
  map (fun p => get (ClassifierTool.entry p) "name" VNone)
      (ClassifierTool.all_items
         (ClassifierTool.execute sequential_settings default_keywords mystery_env
            mystery_then_chicken))
  = [VStr "Chef's Mystery Bowl"; VStr "Chicken Wings"].
Proof. reflexivity. Qed.

(* ================================================================== *)
(** * Further properties of the code *)

(** ** Calculator, continued *)

Lemma round_half_even_nonneg (x : Q) : (0 <= x)%Q -> (0 <= round_half_even x)%Z.
Proof.
  intros Hx. unfold round_half_even.
  assert (Hf : (0 <= Qfloor x)%Z).
  { change 0%Z with (Qfloor 0). by apply Qfloor_resp_le. }
  destruct (x - inject_Z (Qfloor x) ?= 1 # 2)%Q; [destruct (Z.even _)| |]; lia.
Qed.

Lemma round_ndigits_nonneg (n : nat) (x : Q) :
  (0 <= x)%Q -> (0 <= round_ndigits n x)%Q.
Proof.
  intros Hx. unfold round_ndigits. destruct n.
  - change 0%Q with (inject_Z 0). rewrite <- Zle_Qle.
    by apply round_half_even_nonneg.
  - assert (Hs : (0 <= x * inject_Z (Z.pos (10 ^ Pos.of_nat (S n))))%Q).
    { apply Qmult_le_0_compat; [exact Hx|].
      change 0%Q with (inject_Z 0). rewrite <- Zle_Qle. lia. }
    apply round_half_even_nonneg in Hs.
    unfold Qle. cbn. lia.
Qed.

Lemma Qsigma_positive_prices_nonneg (l : list pydict) :
  (0 <= Qsigma (positive_prices l))%Q.
Proof.
  induction l as [|item l IH]; [cbn; lra|].
  cbn [positive_prices omap list_omap]. fold (positive_prices l).
  destruct (as_number (get item "price" (VFloat 0))) as [p|]; cbn [mbind option_bind];
    [|exact IH].
  destruct (Qlt_bool 0 p) eqn:Hp; [|exact IH].
  apply Qlt_bool_iff in Hp. cbn [Qsigma foldr]. fold (Qsigma (positive_prices l)). lra.
Qed.

Lemma length_positive_prices (l : list pydict) :
  length (positive_prices l) <= length l.
Proof.
  induction l as [|item l IH]; [done|].
  cbn [positive_prices omap list_omap]. fold (positive_prices l).
  destruct (as_number (get item "price" (VFloat 0))) as [p|]; cbn [mbind option_bind length];
    [|lia].
  destruct (Qlt_bool 0 p); cbn [length]; lia.
Qed.

(** X1. The total of [execute] is never negative, whatever the prices, and
    it counts at most as many items as it is given. *)
Theorem calculator_total_never_negative (l : list pydict) :
  (0 <= CalculatorTool.total_sum (CalculatorTool.execute l))%Q
  /\ CalculatorTool.item_count (CalculatorTool.execute l) <= length l.
Proof.
  unfold CalculatorTool.execute, round2.
  cbn [CalculatorTool.total_sum CalculatorTool.item_count].
  destruct (execute_loop_spec l 0%Q 0%nat) as [H1 H2].
  pose proof (Qsigma_positive_prices_nonneg l) as Hnn.
  pose proof (length_positive_prices l) as Hlen.
  split.
  - apply round_ndigits_nonneg. rewrite H1. lra.
  - rewrite H2. lia.
Qed.

Lemma recompute_step_kept (cmap : gmap string pyval) (acc : list pydict)
    (item : pydict) :
  CalculatorTool.recompute_step cmap acc item = (fun out => acc ++ out) <$> kept cmap item.
Proof.
  unfold kept, CalculatorTool.recompute_step.
  destruct (get item "name" (VStr "")); try reflexivity.
  destruct (cmap !! lower s) as [label|].
  - destruct (truthy label); cbn; rewrite ?app_nil_r; reflexivity.
  - destruct (truthy (get item "is_vegetarian" (VBool false))); cbn;
      rewrite ?app_nil_r; reflexivity.
Qed.

Lemma recompute_loop_from (cmap : gmap string pyval) (items acc : list pydict) :
  foldl (fun acc item => acc ≫= fun a => CalculatorTool.recompute_step cmap a item)
        (Some acc) items
  = (fun outs => acc ++ concat outs) <$> mapM (kept cmap) items.
Proof.
  revert acc. induction items as [|item items IH]; intros acc.
  - cbn. by rewrite app_nil_r.
  - cbn [foldl mapM]. cbn [mbind option_bind]. rewrite recompute_step_kept.
    destruct (kept cmap item) as [out|]; cbn.
    + rewrite IH. destruct (mapM (kept cmap) items); cbn; [|done].
      by rewrite app_assoc.
    + clear IH. induction items as [|i items IH]; [done|]. cbn. exact IH.
Qed.

Lemma kept_shape (cmap : gmap string pyval) (item : pydict) (out : list pydict) :
  kept cmap item = Some out ->
  out = []
  \/ (out = [item] /\ kept cmap item = Some [item]
      /\ truthy (get item "is_vegetarian" (VBool false)) = true)
  \/ (exists d, out = [d] /\ human_verified_by cmap d).
Proof.
  unfold kept, CalculatorTool.recompute_step.
  destruct (get item "name" (VStr "")) as [| | | |n|] eqn:Hn; try discriminate.
  destruct (cmap !! lower n) as [label|] eqn:Hl.
  - destruct (truthy label) eqn:Ht; intros [= <-]; [|by left].
    right; right. eexists. split; [reflexivity|]. by exists n, (get item "price" (VFloat 0)), label.
  - destruct (truthy (get item "is_vegetarian" (VBool false))) eqn:Ht;
      intros [= <-]; [|by left].
    right; left. done.
Qed.

Lemma kept_human_verified (cmap : gmap string pyval) (d : pydict) :
  human_verified_by cmap d -> kept cmap d = Some [d].
Proof.
  intros (n & price & label & -> & Hl & Ht).
  unfold kept, CalculatorTool.recompute_step.
  replace (get (CalculatorTool.human_verified n price) "name" (VStr "")) with (VStr n)
    by reflexivity.
  rewrite Hl, Ht.
  replace (get (CalculatorTool.human_verified n price) "price" (VFloat 0)) with price
    by reflexivity.
  reflexivity.
Qed.

Lemma recompute_loop_fixpoint (cmap : gmap string pyval) (items veg : list pydict) :
  CalculatorTool.recompute_loop cmap items = Some veg ->
  CalculatorTool.recompute_loop cmap veg = Some veg.
Proof.
  unfold CalculatorTool.recompute_loop. rewrite !recompute_loop_from.
  cbn [app]. intros H.
  destruct (mapM (kept cmap) items) as [outs|] eqn:Houts; [|discriminate].
  cbn in H. injection H as <-.
  assert (Hveg : mapM (kept cmap) (concat outs) = Some (map (fun d => [d]) (concat outs))).
  { clear -Houts. revert outs Houts.
    induction items as [|item items IH]; intros outs Houts.
    - cbn in Houts. injection Houts as <-. reflexivity.
    - cbn [mapM] in Houts. cbn [mbind option_bind] in Houts.
      destruct (kept cmap item) as [out|] eqn:Hk; [|discriminate].
      cbn in Houts.
      destruct (mapM (kept cmap) items) as [outs'|]; [|discriminate].
      cbn in Houts. injection Houts as <-.
      specialize (IH outs' eq_refl). cbn [concat].
      destruct (kept_shape cmap item out Hk) as [->|[(-> & Hself & _)|(d & -> & Hd)]].
      + exact IH.
      + cbn. rewrite Hself. cbn. by rewrite IH.
      + cbn. rewrite (kept_human_verified cmap d Hd). cbn. by rewrite IH. }
  rewrite Hveg. cbn. f_equal. clear.
  induction (concat outs) as [|d l IHl]; [done|]. cbn. by rewrite IHl.
Qed.

(** X2. Corrections are idempotent: when [recompute_with_corrections]
    returns a result, running it again with the same corrections on the
    vegetarian items it returned gives the very same result. *)
Theorem recompute_is_idempotent
    (items : list pydict) (cs : list CalculatorTool.correction)
    (r : CalculatorTool.recomputed) :
  CalculatorTool.recompute_with_corrections items cs = Some r ->
  CalculatorTool.recompute_with_corrections (CalculatorTool.vegetarian_items r) cs
  = Some r.
Proof.
  unfold CalculatorTool.recompute_with_corrections.
  destruct (CalculatorTool.recompute_loop _ items) as [veg|] eqn:Hloop; [|discriminate].
  cbn [mbind option_bind].
  destruct (CalculatorTool.sum_prices veg) as [total|] eqn:Hsum; [|discriminate].
  cbn [mbind option_bind]. intros [= <-]. cbn [CalculatorTool.vegetarian_items].
  rewrite (recompute_loop_fixpoint _ _ _ Hloop). cbn [mbind option_bind].
  rewrite Hsum. reflexivity.
Qed.

Lemma recompute_is_idempotent_witness :
  CalculatorTool.recompute_with_corrections
    [CalculatorTool.human_verified "Soup" (VFloat 7)] soup_no_then_yes
  = Some {| CalculatorTool.vegetarian_items :=
              [CalculatorTool.human_verified "Soup" (VFloat 7)];
            CalculatorTool.r_total_sum := 700 # 100;
            CalculatorTool.corrections_applied := 2 |}.
Proof.
  apply (recompute_is_idempotent [menu_dict "Soup" (VFloat 7)] soup_no_then_yes
           {| CalculatorTool.vegetarian_items :=
                [CalculatorTool.human_verified "Soup" (VFloat 7)];
              CalculatorTool.r_total_sum := 700 # 100;
              CalculatorTool.corrections_applied := 2 |}).
  reflexivity.
Defined.

Lemma correction_map_of_entries (cs : list CalculatorTool.correction)
    (m : gmap string pyval) :
  foldl (fun m c => <[lower (CalculatorTool.c_name c)
                      := CalculatorTool.c_is_vegetarian c]> m) m cs
  = foldl (fun m (kv : string * pyval) => <[kv.1 := kv.2]> m) m (map map_entry cs).
Proof.
  revert m. induction cs as [|c cs IH]; intros m; [reflexivity|].
  cbn [foldl map]. apply IH.
Qed.

(** X3. Correction names are matched without regard to case: two lists of
    corrections whose names agree after lower-casing, with the same labels
    in the same order, give the same result on every item list. *)
Theorem recompute_ignores_case_of_correction_names
    (items : list pydict) (cs cs' : list CalculatorTool.correction) :
  map map_entry cs = map map_entry cs' ->
  CalculatorTool.recompute_with_corrections items cs
  = CalculatorTool.recompute_with_corrections items cs'.
Proof.
  intros H. unfold CalculatorTool.recompute_with_corrections, CalculatorTool.correction_map.
  rewrite !correction_map_of_entries, H.
  assert (Hlen : length cs = length cs').
  { by rewrite <- (length_map map_entry cs), H, length_map. }
  by rewrite Hlen.
Qed.

Lemma recompute_ignores_case_of_correction_names_witness :
  CalculatorTool.recompute_with_corrections [menu_dict "Soup" (VFloat 7)]
    soup_no_then_yes
  = CalculatorTool.recompute_with_corrections [menu_dict "Soup" (VFloat 7)]
      soup_no_then_yes_other_case.
Proof.
  apply (recompute_ignores_case_of_correction_names
           [menu_dict "Soup" (VFloat 7)] soup_no_then_yes soup_no_then_yes_other_case).
  reflexivity.
Defined.

Lemma mapM_kept_unlabelled (cmap : gmap string pyval) (items : list pydict)
    (outs : list (list pydict)) :
  Forall (fun item : pydict => item !! "is_vegetarian" = None) items ->
  mapM (kept cmap) items = Some outs ->
  Forall (human_verified_by cmap) (concat outs)
  /\ length (concat outs) <= length items.
Proof.
  revert outs. induction items as [|item items IH]; intros outs Hno Houts.
  - cbn in Houts. injection Houts as <-. cbn. split; [constructor|lia].
  - apply Forall_cons in Hno as [Hitem Hno].
    cbn [mapM] in Houts. cbn [mbind option_bind] in Houts.
    destruct (kept cmap item) as [out|] eqn:Hk; [|discriminate].
    cbn in Houts.
    destruct (mapM (kept cmap) items) as [outs'|]; [|discriminate].
    cbn in Houts. injection Houts as <-.
    destruct (IH outs' Hno eq_refl) as [IH1 IH2]. cbn [concat].
    destruct (kept_shape cmap item out Hk) as [->|[(-> & _ & Ht)|(d & -> & Hd)]].
    + cbn. split; [exact IH1|lia].
    + unfold get in Ht. rewrite Hitem in Ht. discriminate Ht.
    + cbn. split; [by constructor|lia].
Qed.

(** X4. When no item carries an [is_vegetarian] key, as for the items the
    review store keeps, every vegetarian item that
    [recompute_with_corrections] returns is the human-verified copy
    (confidence 1.0, reasoning "Human verified") of a dish that a correction
    with a true label names; an item that no correction names is not
    returned, whatever it was classified as before. *)
Theorem recompute_returns_only_corrected_dishes
    (items : list pydict) (cs : list CalculatorTool.correction)
    (r : CalculatorTool.recomputed) :
  Forall (fun item : pydict => item !! "is_vegetarian" = None) items ->
  CalculatorTool.recompute_with_corrections items cs = Some r ->
  Forall (human_verified_by (CalculatorTool.correction_map cs))
         (CalculatorTool.vegetarian_items r)
  /\ Forall (fun d : pydict => d !! "confidence" = Some (VFloat 1)
                               /\ d !! "reasoning" = Some (VStr "Human verified"))
            (CalculatorTool.vegetarian_items r)
  /\ length (CalculatorTool.vegetarian_items r) <= length items.
Proof.
  intros Hno. unfold CalculatorTool.recompute_with_corrections.
  destruct (CalculatorTool.recompute_loop _ items) as [veg|] eqn:Hloop; [|discriminate].
  cbn [mbind option_bind].
  destruct (CalculatorTool.sum_prices veg) as [total|]; [|discriminate].
  cbn [mbind option_bind]. intros [= <-]. cbn [CalculatorTool.vegetarian_items].
  unfold CalculatorTool.recompute_loop in Hloop. rewrite recompute_loop_from in Hloop.
  destruct (mapM (kept (CalculatorTool.correction_map cs)) items) as [outs|] eqn:Houts;
    [|discriminate].
  cbn in Hloop. injection Hloop as <-.
  destruct (mapM_kept_unlabelled _ items outs Hno Houts) as [H1 H2].
  split; [exact H1|]. split; [|exact H2].
  eapply Forall_impl; [exact H1|].
  intros d (n & price & label & -> & _ & _). split; reflexivity.
Qed.

Lemma recompute_returns_only_corrected_dishes_witness :
  Forall (human_verified_by (CalculatorTool.correction_map [refund_is_vegetarian]))
         [CalculatorTool.human_verified "Refund" (VFloat (-5))].
Proof.
  apply (recompute_returns_only_corrected_dishes
           [refund_item; menu_dict "Salad" (VFloat 8)] [refund_is_vegetarian]
           {| CalculatorTool.vegetarian_items :=
                [CalculatorTool.human_verified "Refund" (VFloat (-5))];
              CalculatorTool.r_total_sum := round2 (-5);
              CalculatorTool.corrections_applied := 1 |}).
  - repeat constructor.
  - reflexivity.
Defined.

(** ** Keyword matcher, continued *)

Lemma search_word_from_contains (prev : option ascii) (kw hay : string) :
  search_word_from prev kw hay = true -> contains kw hay = true.
Proof.
  revert prev. induction hay as [|c hay IH]; intros prev; cbn [search_word_from contains].
  - rewrite orb_false_r. unfold word_match_here.
    intros H. apply andb_true_iff in H as [H _]. apply andb_true_iff in H as [H _].
    by rewrite H.
  - intros H. apply orb_true_iff in H as [H|H].
    + unfold word_match_here in H.
      apply andb_true_iff in H as [H _]. apply andb_true_iff in H as [H _].
      by rewrite H.
    + rewrite (IH _ H). apply orb_true_r.
Qed.

Lemma find_none_existsb {A : Type} (f : A -> bool) (l : list A) :
  find f l = None -> existsb f l = false.
Proof.
  induction l as [|a l IH]; [done|]. cbn [find existsb].
  destruct (f a); [discriminate|]. exact IH.
Qed.

(** X5. The keyword matcher calls a dish non-vegetarian only when no
    vegetarian marker is contained in its lower-cased name, no positive
    keyword matches it on word boundaries, and one of the negative keywords
    does; that keyword then is a substring of the lower-cased name, and the
    confidence is 0.95. *)
Theorem keyword_non_vegetarian_is_sound (kb : keywords) (dish_name : string) :
  is_vegetarian (LLMClassifier._keyword_classification kb dish_name) = VBool false ->
  existsb (fun marker => contains marker (lower dish_name))
          (_vegetarian_markers kb) = false
  /\ existsb (fun kw => search_word kw (lower dish_name))
             (_positive_keywords kb) = false
  /\ (exists kw, In kw (_negative_keywords kb)
                 /\ search_word kw (lower dish_name) = true
                 /\ contains kw (lower dish_name) = true)
  /\ confidence (LLMClassifier._keyword_classification kb dish_name) = 95 # 100.
Proof.
  unfold LLMClassifier._keyword_classification.
  destruct (find _ (_vegetarian_markers kb)) as [m|] eqn:Hm; [discriminate|].
  destruct (find _ (_positive_keywords kb)) as [p|] eqn:Hp; [discriminate|].
  destruct (find _ (_negative_keywords kb)) as [n|] eqn:Hn; [|discriminate].
  intros _. apply find_some in Hn as [Hin Hmatch].
  split; [by apply find_none_existsb|]. split; [by apply find_none_existsb|].
  split; [|reflexivity].
  exists n. split; [exact Hin|]. split; [exact Hmatch|].
  by apply (search_word_from_contains None).
Qed.

Lemma keyword_non_vegetarian_is_sound_witness :
  exists kw, In kw (_negative_keywords default_keywords)
             /\ search_word kw (lower "Chicken Wings") = true
             /\ contains kw (lower "Chicken Wings") = true.
Proof.
  apply (keyword_non_vegetarian_is_sound default_keywords "Chicken Wings").
  reflexivity.
Defined.

(** ** RAG evidence *)

Lemma rag_scores_nonneg (evidence : list rag_hit) (v n : Q) (rs : list string) :
  (0 <= v)%Q -> (0 <= n)%Q ->
  let '(v', n', _) := foldl LLMClassifier.rag_step (v, n, rs) evidence in
  (0 <= v')%Q /\ (0 <= n')%Q.
Proof.
  revert v n rs. induction evidence as [|h evidence IH]; intros v n rs Hv Hn.
  - by split.
  - cbn [foldl]. unfold LLMClassifier.rag_step at 2.
    destruct (Qlt_bool (relevance_score h) (3 # 10)) eqn:Hrel; [by apply IH|].
    apply Qlt_bool_false_iff in Hrel.
    destruct (m_is_vegetarian (h_metadata h)) as [|[|]| | | |];
      try (by apply IH); apply IH; lra.
Qed.

Lemma py_min_bounds (a b : Q) : (py_min a b <= a)%Q /\ (py_min a b <= b)%Q.
Proof.
  unfold py_min. destruct (Qlt_bool b a) eqn:E.
  - apply Qlt_bool_iff in E. split; lra.
  - apply Qlt_bool_false_iff in E. split; lra.
Qed.

Lemma py_min_pos (a b : Q) : (0 < a)%Q -> (0 < b)%Q -> (0 < py_min a b)%Q.
Proof. intros Ha Hb. unfold py_min. by destruct (Qlt_bool b a). Qed.

Lemma share_pos (x y : Q) : (0 < x)%Q -> (0 <= y)%Q -> (0 < x / (x + y + (1 # 10)))%Q.
Proof.
  intros Hx Hy. apply Qlt_shift_div_l; lra.
Qed.

Lemma rag_confidence_bounds (evidence : list rag_hit) :
  let r := LLMClassifier._analyze_rag_evidence evidence in
  (0 <= confidence r)%Q /\ (confidence r <= 85 # 100)%Q
  /\ (is_none (is_vegetarian r) = true \/ (0 < confidence r)%Q).
Proof.
  unfold LLMClassifier._analyze_rag_evidence.
  destruct evidence as [|e evidence]; [cbn; split; [lra|split; [lra|by left]]|].
  pose proof (rag_scores_nonneg (e :: evidence) 0 0 [] ltac:(lra) ltac:(lra)) as Hnn.
  destruct (foldl LLMClassifier.rag_step (0%Q, 0%Q, []) (e :: evidence))
    as [[veg_score non_veg_score] reasons].
  destruct Hnn as [Hv Hn].
  destruct (Qlt_bool non_veg_score veg_score && Qlt_bool (1 # 2) veg_score) eqn:Hveg.
  - apply andb_true_iff in Hveg as [_ Hhalf]. apply Qlt_bool_iff in Hhalf.
    cbn [confidence is_vegetarian is_none].
    assert (Hpos : (0 < py_min (85 # 100)
                          (veg_score / (veg_score + non_veg_score + (1 # 10))))%Q).
    { apply py_min_pos; [lra|]. apply share_pos; lra. }
    destruct (py_min_bounds (85 # 100)
                (veg_score / (veg_score + non_veg_score + (1 # 10)))) as [Hle _].
    split; [lra|]. split; [exact Hle|by right].
  - destruct (Qlt_bool veg_score non_veg_score && Qlt_bool (1 # 2) non_veg_score) eqn:Hnon.
    + apply andb_true_iff in Hnon as [_ Hhalf]. apply Qlt_bool_iff in Hhalf.
      cbn [confidence is_vegetarian is_none].
      assert (Hpos : (0 < py_min (85 # 100)
                            (non_veg_score / (veg_score + non_veg_score + (1 # 10))))%Q).
      { apply py_min_pos; [lra|].
        apply Qlt_shift_div_l; lra. }
      destruct (py_min_bounds (85 # 100)
                  (non_veg_score / (veg_score + non_veg_score + (1 # 10)))) as [Hle _].
      split; [lra|]. split; [exact Hle|by right].
    + cbn. split; [lra|]. split; [lra|by left].
Qed.

(** X7. Whatever the store returns (any relevance scores, negative ones
    included), the confidence of the RAG tier lies between 0 and 0.85, and
    it is positive whenever the tier has an opinion. *)
Theorem rag_confidence_is_bounded (evidence : list rag_hit) :
  let r := LLMClassifier._analyze_rag_evidence evidence in
  (0 <= confidence r)%Q /\ (confidence r <= 85 # 100)%Q
  /\ (is_none (is_vegetarian r) = true \/ (0 < confidence r)%Q).
Proof. apply rag_confidence_bounds. Qed.

Lemma rag_fold_relevant (evidence : list rag_hit) (acc : Q * Q * list string) :
  foldl LLMClassifier.rag_step acc (List.filter relevant evidence)
  = foldl LLMClassifier.rag_step acc evidence.
Proof.
  revert acc. induction evidence as [|h evidence IH]; intros acc; [reflexivity|].
  cbn [List.filter foldl]. unfold relevant at 1.
  destruct (Qlt_bool (relevance_score h) (3 # 10)) eqn:Hrel; cbn [negb].
  - rewrite IH. f_equal. unfold LLMClassifier.rag_step.
    destruct acc as [[v n] rs]. by rewrite Hrel.
  - cbn [foldl]. apply IH.
Qed.

(** X8. Hits with a relevance below 0.3 carry no weight: as long as one
    hit reaches 0.3, the RAG tier answers exactly as it does on the hits
    that reach it. *)
Theorem rag_ignores_faint_hits (evidence : list rag_hit) :
  existsb relevant evidence = true ->
  LLMClassifier._analyze_rag_evidence evidence
  = LLMClassifier._analyze_rag_evidence (List.filter relevant evidence).
Proof.
  intros Hsome. unfold LLMClassifier._analyze_rag_evidence.
  rewrite rag_fold_relevant.
  destruct evidence as [|e evidence]; [discriminate Hsome|].
  destruct (List.filter relevant (e :: evidence)) as [|k kept_hits] eqn:Hk;
    [|reflexivity].
  exfalso. apply existsb_exists in Hsome as (h & Hin & Hrel).
  assert (Hin' : In h (List.filter relevant (e :: evidence)))
    by (apply List.filter_In; by split).
  rewrite Hk in Hin'. destruct Hin'.
Qed.

Lemma rag_ignores_faint_hits_witness :
  LLMClassifier._analyze_rag_evidence [tofu_hit; faint_hit]
  = LLMClassifier._analyze_rag_evidence (List.filter relevant [tofu_hit; faint_hit]).
Proof.
  apply (rag_ignores_faint_hits [tofu_hit; faint_hit]). reflexivity.
Defined.

(** ** The tiered policy *)

Lemma keyword_opinion_is_decisive (kb : keywords) (dish_name : string) :
  let r := LLMClassifier._keyword_classification kb dish_name in
  (is_vegetarian r = VNone /\ confidence r = 0%Q)
  \/ (exists b, is_vegetarian r = VBool b /\ confidence r = 95 # 100).
Proof.
  unfold LLMClassifier._keyword_classification.
  destruct (find _ (_vegetarian_markers kb)); [right; by exists true|].
  destruct (find _ (_positive_keywords kb)); [right; by exists true|].
  destruct (find _ (_negative_keywords kb)); [right; by exists false|].
  by left.
Qed.

(** X9. A dish the keyword matcher has an opinion about is settled by it
    alone: [classify] returns the keyword result with no evidence, and the
    answer depends neither on the thresholds nor on the vector store nor on
    the provider, none of which is consulted. *)
Theorem classify_keyword_opinion_is_final
    (cfg cfg' : settings) (kb : keywords) (env env' : oracles)
    (call call' : nat) (dish_name : string) :
  is_none (is_vegetarian (LLMClassifier._keyword_classification kb dish_name)) = false ->
  LLMClassifier.c_result (LLMClassifier.classify cfg kb env call dish_name)
    = LLMClassifier._keyword_classification kb dish_name
  /\ LLMClassifier.c_evidence (LLMClassifier.classify cfg kb env call dish_name) = []
  /\ LLMClassifier.classify cfg kb env call dish_name
     = LLMClassifier.classify cfg' kb env' call' dish_name.
Proof.
  intros Hop. unfold LLMClassifier.classify.
  destruct (keyword_opinion_is_decisive kb dish_name) as [[Hv _]|(b & _ & Hc)].
  - rewrite Hv in Hop. discriminate Hop.
  - rewrite Hc. cbn. by repeat split.
Qed.

Lemma classify_keyword_opinion_is_final_witness :
  LLMClassifier.classify default_settings default_keywords mystery_env 0 "Veggie Burger"
  = LLMClassifier.classify sequential_settings default_keywords tofu_env 7 "Veggie Burger".
Proof.
  apply (classify_keyword_opinion_is_final default_settings sequential_settings
           default_keywords mystery_env tofu_env 0 7 "Veggie Burger").
  reflexivity.
Defined.

(** X10. A dish without keyword opinion whose RAG confidence reaches the
    threshold is settled by the RAG tier: [classify] returns the RAG result
    with the first three documents as evidence, and the provider is not
    consulted, so the answer is the same under any provider. *)
Theorem classify_rag_decision_is_final
    (cfg : settings) (kb : keywords) (env env' : oracles)
    (call call' : nat) (dish_name : string) :
  _retrieve_evidence env' dish_name = _retrieve_evidence env dish_name ->
  is_none (is_vegetarian (LLMClassifier._keyword_classification kb dish_name)) = true ->
  Qle_bool (confidence_threshold cfg)
    (confidence (LLMClassifier._analyze_rag_evidence
                   (_retrieve_evidence env dish_name))) = true ->
  LLMClassifier.c_result (LLMClassifier.classify cfg kb env call dish_name)
    = LLMClassifier._analyze_rag_evidence (_retrieve_evidence env dish_name)
  /\ LLMClassifier.c_evidence (LLMClassifier.classify cfg kb env call dish_name)
     = map document (take 3 (_retrieve_evidence env dish_name))
  /\ LLMClassifier.classify cfg kb env call dish_name
     = LLMClassifier.classify cfg kb env' call' dish_name.
Proof.
  intros Hsame Hkw Hrag. unfold LLMClassifier.classify.
  destruct (keyword_opinion_is_decisive kb dish_name) as [[_ Hc]|(b & Hv & _)].
  - rewrite Hc, Hsame, Hrag. cbn. by repeat split.
  - rewrite Hv in Hkw. discriminate Hkw.
Qed.

Lemma classify_rag_decision_is_final_witness :
  LLMClassifier.c_result
    (LLMClassifier.classify default_settings default_keywords tofu_env 0 "Mapo Bowl")
  = LLMClassifier._analyze_rag_evidence [tofu_hit; faint_hit].
Proof.
  apply (classify_rag_decision_is_final default_settings default_keywords
           tofu_env tofu_env_answering 0 1 "Mapo Bowl"); reflexivity.
Defined.

(** ** Weighted combination, continued *)

Lemma round_half_even_le (x : Q) (m : Z) :
  (x <= inject_Z m)%Q -> (round_half_even x <= m)%Z.
Proof.
  intros Hx. unfold round_half_even.
  assert (Hf : (Qfloor x <= m)%Z).
  { rewrite <- (Qfloor_Z m). by apply Qfloor_resp_le. }
  assert (Hstep : (0 < x - inject_Z (Qfloor x))%Q -> (Qfloor x + 1 <= m)%Z).
  { intros Hr. destruct (Z.eq_dec (Qfloor x) m) as [E|]; [|lia].
    rewrite E in Hr. lra. }
  destruct (x - inject_Z (Qfloor x) ?= 1 # 2)%Q eqn:Hc.
  - apply Qeq_alt in Hc. destruct (Z.even (Qfloor x)); [exact Hf|].
    apply Hstep. rewrite Hc. reflexivity.
  - exact Hf.
  - apply Qgt_alt in Hc. apply Hstep. lra.
Qed.

Lemma round3_unit_interval (x : Q) :
  (0 <= x)%Q -> (x <= 1)%Q -> (0 <= round3 x)%Q /\ (round3 x <= 1)%Q.
Proof.
  intros H0 H1. split; [by apply round_ndigits_nonneg|].
  unfold round3, round_ndigits.
  assert (Hs : (x * inject_Z (Z.pos (10 ^ Pos.of_nat 3))
                <= inject_Z (Z.pos (10 ^ Pos.of_nat 3)))%Q).
  { assert (Hp : (0 <= inject_Z (Z.pos (10 ^ Pos.of_nat 3)))%Q)
      by (change 0%Q with (inject_Z 0); rewrite <- Zle_Qle; lia).
    nra. }
  apply round_half_even_le in Hs. unfold Qle. cbn in *. lia.
Qed.

Lemma weight_term_le_total (l : list (tier_result * Q)) (x : tier_result * Q) :
  Forall (fun rw : tier_result * Q => 0 <= confidence rw.1 /\ 0 <= rw.2)%Q l ->
  In x l ->
  (0 <= weight_term x)%Q /\ (weight_term x <= Qsum (map weight_term l))%Q
  /\ (0 <= Qsum (map weight_term l))%Q.
Proof.
  induction l as [|y l IH] using rev_ind; intros Hall Hin; [destruct Hin|].
  apply Forall_app in Hall as [Hl Hy]. apply Forall_singleton in Hy as [Hc Hw].
  rewrite map_app. cbn [map]. rewrite Qsum_snoc.
  assert (Hyw : (0 <= weight_term y)%Q) by (by apply Qmult_le_0_compat).
  assert (Hsum : (0 <= Qsum (map weight_term l))%Q).
  { destruct (vote_bounds l Hl) as [H0 H1]. lra. }
  apply in_app_or in Hin as [Hin|[<-|[]]].
  - destruct (IH Hl Hin) as (H1 & H2 & H3). repeat split; lra.
  - repeat split; lra.
Qed.

Lemma opinions_of_tiers (k r l : tier_result) (x : tier_result * Q) :
  In x (List.filter has_opinion [(k, 4 # 10); (r, 3 # 10); (l, 3 # 10)]) ->
  has_opinion x = true
  /\ (x = (k, 4 # 10) \/ x = (r, 3 # 10) \/ x = (l, 3 # 10)).
Proof.
  intros Hin. apply List.filter_In in Hin as [Hin Hop]. split; [exact Hop|].
  destruct Hin as [<-|[<-|[<-|[]]]]; auto.
Qed.

Lemma combined_confidence_bounds (k r l : tier_result) :
  (0 <= confidence k)%Q -> (0 <= confidence r)%Q -> (0 <= confidence l)%Q ->
  (0 <= confidence (LLMClassifier._combine_results k r l))%Q
  /\ (confidence (LLMClassifier._combine_results k r l) <= 1)%Q.
Proof.
  intros Hk Hr Hl.
  set (valid := List.filter has_opinion [(k, 4 # 10); (r, 3 # 10); (l, 3 # 10)]).
  assert (Hall : Forall (fun rw : tier_result * Q =>
                           0 <= confidence rw.1 /\ 0 <= rw.2)%Q valid).
  { apply Forall_forall. intros x Hin. apply list_elem_of_In in Hin.
    apply opinions_of_tiers in Hin as [_ [-> | [-> | ->]]]; cbn; split; (assumption || lra). }
  destruct valid as [|first rest] eqn:Hvalid.
  - unfold LLMClassifier._combine_results.
    change (fun rw : tier_result * Q => negb (is_none (is_vegetarian rw.1)))
      with has_opinion. fold valid. rewrite Hvalid. cbn. lra.
  - destruct (Qeq_bool (Qsum (map weight_term (first :: rest))) 0) eqn:Hden.
    + assert (Hres : LLMClassifier._combine_results k r l = first.1).
      { unfold LLMClassifier._combine_results.
        change (fun rw : tier_result * Q => negb (is_none (is_vegetarian rw.1)))
          with has_opinion. fold valid. rewrite Hvalid.
        change (fun rw : tier_result * Q => (confidence rw.1 * rw.2)%Q) with weight_term.
        by rewrite Hden. }
      rewrite Hres. apply Qeq_bool_iff in Hden.
      destruct (weight_term_le_total (first :: rest) first Hall (or_introl eq_refl))
        as (H0 & H1 & _).
      assert (Hin : In first valid) by (rewrite Hvalid; by left).
      apply opinions_of_tiers in Hin as [_ [-> | [-> | ->]]];
        rewrite Hden in H1; unfold weight_term in H0, H1; cbn [fst snd] in *; lra.
    + assert (Hc : confidence (LLMClassifier._combine_results k r l)
                   = vote_confidence valid).
      { apply combine_results_confidence; fold valid; rewrite Hvalid; [done|exact Hden]. }
      rewrite Hc, Hvalid. unfold vote_confidence.
      destruct (vote_bounds (first :: rest) Hall) as [Hn0 Hn1].
      apply Qeq_bool_neq in Hden.
      set (num := Qsum (map vote_term (first :: rest))) in *.
      set (den := Qsum (map weight_term (first :: rest))) in *.
      assert (Hpos : (0 < den)%Q).
      { destruct (Qlt_le_dec 0 den) as [|Hle]; [assumption|]. exfalso. apply Hden. lra. }
      assert (Hp0 : (0 <= num / den)%Q) by (apply Qle_shift_div_l; lra).
      assert (Hp1 : (num / den <= 1)%Q) by (apply Qle_shift_div_r; lra).
      apply round3_unit_interval.
      * pose proof (Qabs_nonneg (num / den - (1 # 2))). lra.
      * assert (Habs : (Qabs (num / den - (1 # 2)) <= 1 # 2)%Q)
          by (apply Qabs_Qle_condition; split; lra).
        lra.
Qed.

(** X11. With the three tier confidences in [0,1], the combined confidence
    is in [0,1] as well, whatever the tiers say: in the weighted vote, when
    the weights add up to zero and the first opinion is returned as it is,
    and when no tier has an opinion. *)
Theorem combined_confidence_within_unit_interval (k r l : tier_result) :
  (0 <= confidence k <= 1)%Q -> (0 <= confidence r <= 1)%Q ->
  (0 <= confidence l <= 1)%Q ->
  (0 <= confidence (LLMClassifier._combine_results k r l))%Q
  /\ (confidence (LLMClassifier._combine_results k r l) <= 1)%Q.
Proof. intros [Hk _] [Hr _] [Hl _]. by apply combined_confidence_bounds. Qed.

Lemma combined_confidence_within_unit_interval_witness :
  (0 <= confidence
          (LLMClassifier._combine_results no_result rag_leaning_non_veg llm_says_veg))%Q
  /\ (confidence
        (LLMClassifier._combine_results no_result rag_leaning_non_veg llm_says_veg)
      <= 1)%Q.
Proof.
  apply (combined_confidence_within_unit_interval
           no_result rag_leaning_non_veg llm_says_veg);
    cbn; lra.
Defined.

Lemma unanimous_vote (valid : list (tier_result * Q)) (s : bool) :
  Forall (fun rw : tier_result * Q => truthy (is_vegetarian rw.1) = s) valid ->
  (Qsum (map vote_term valid)
   == if s then Qsum (map weight_term valid) else 0)%Q.
Proof.
  induction valid as [|x valid IH] using rev_ind; intros Hall.
  - cbn. by destruct s.
  - apply Forall_app in Hall as [Hv Hx]. rewrite Forall_singleton in Hx.
    specialize (IH Hv). destruct s.
    + rewrite !map_app. cbn [map]. rewrite !Qsum_snoc.
      assert (E : (vote_term x == weight_term x)%Q)
        by (unfold vote_term, weight_term; rewrite Hx; ring).
      lra.
    + rewrite map_app. cbn [map]. rewrite Qsum_snoc.
      assert (E : (vote_term x == 0)%Q)
        by (unfold vote_term; rewrite Hx; ring).
      lra.
Qed.

Lemma unanimous_combination (k r l : tier_result) (s : bool) :
  (0 <= confidence k)%Q -> (0 <= confidence r)%Q -> (0 <= confidence l)%Q ->
  Forall (fun t => is_none (is_vegetarian t) = true
                   \/ truthy (is_vegetarian t) = s) [k; r; l] ->
  Exists (fun t => is_none (is_vegetarian t) = false
                   /\ (0 < confidence t)%Q) [k; r; l] ->
  is_vegetarian (LLMClassifier._combine_results k r l) = VBool s
  /\ confidence (LLMClassifier._combine_results k r l) = round3 1
  /\ method (LLMClassifier._combine_results k r l) = "combined".
Proof.
  intros Hk Hr Hl Hagree Hsome.
  set (valid := List.filter has_opinion [(k, 4 # 10); (r, 3 # 10); (l, 3 # 10)]).
  assert (Hall : Forall (fun rw : tier_result * Q =>
                           0 <= confidence rw.1 /\ 0 <= rw.2)%Q valid).
  { apply Forall_forall. intros x Hin. apply list_elem_of_In in Hin.
    apply opinions_of_tiers in Hin as [_ [-> | [-> | ->]]]; cbn; split; (assumption || lra). }
  assert (Hsign : Forall (fun rw : tier_result * Q =>
                            truthy (is_vegetarian rw.1) = s) valid).
  { apply Forall_forall. intros x Hin. apply list_elem_of_In in Hin.
    apply opinions_of_tiers in Hin as [Hop Hx].
    unfold has_opinion in Hop. apply negb_true_iff in Hop.
    apply Forall_cons in Hagree as [Hak Hagree].
    apply Forall_cons in Hagree as [Har Hagree].
    apply Forall_cons in Hagree as [Hal _].
    destruct Hx as [-> | [-> | ->]]; cbn [fst] in Hop |- *;
      [destruct Hak as [Hnone|Hs] | destruct Har as [Hnone|Hs]
       | destruct Hal as [Hnone|Hs]];
      (exact Hs || (rewrite Hnone in Hop; discriminate Hop)). }
  assert (Hpos : (0 < Qsum (map weight_term valid))%Q).
  { apply Exists_exists in Hsome as (t & Hin & Hop & Hc).
    assert (Hw : exists w, In (t, w) valid /\ (3 # 10 <= w)%Q).
    { apply list_elem_of_In in Hin.
      assert (Hopx : forall w, has_opinion (t, w) = true)
        by (intros w; unfold has_opinion; cbn; by rewrite Hop).
      destruct Hin as [<-|[<-|[<-|[]]]].
      - exists (4 # 10). split; [|lra]. apply List.filter_In. split; [by left|apply Hopx].
      - exists (3 # 10). split; [|lra].
        apply List.filter_In. split; [right; by left|apply Hopx].
      - exists (3 # 10). split; [|lra].
        apply List.filter_In. split; [right; right; by left|apply Hopx]. }
    destruct Hw as (w & Hinw & Hwpos).
    destruct (weight_term_le_total valid (t, w) Hall Hinw) as (_ & Hle & _).
    unfold weight_term at 1 in Hle. cbn [fst snd] in Hle.
    assert (0 < confidence t * w)%Q by (apply Qmult_lt_0_compat; lra).
    lra. }
  assert (Hne : valid <> []).
  { intros E. rewrite E in Hpos. cbn in Hpos. lra. }
  assert (Hden : Qeq_bool (Qsum (map weight_term valid)) 0 = false).
  { destruct (Qeq_bool _ 0) eqn:E; [|reflexivity]. apply Qeq_bool_iff in E. lra. }
  pose proof (unanimous_vote valid s Hsign) as Hnum.
  split; [|split].
  - rewrite combine_results_verdict. fold valid. unfold verdict.
    destruct valid as [|first rest] eqn:Hvalid; [done|]. rewrite Hden.
    rewrite (half_lt_div _ _ Hpos). f_equal. destruct s.
    + apply Qlt_bool_iff. rewrite Hnum. lra.
    + apply Qlt_bool_false_iff. rewrite Hnum. lra.
  - rewrite (combine_results_confidence k r l Hne Hden). fold valid.
    unfold vote_confidence, round3. apply round_ndigits_proper.
    rewrite Hnum. destruct s.
    + assert (E : (Qsum (map weight_term valid) / Qsum (map weight_term valid) == 1)%Q)
        by (field; lra).
      rewrite E. reflexivity.
    + assert (E : (0 / Qsum (map weight_term valid) == 0)%Q) by (field; lra).
      rewrite E. reflexivity.
  - unfold LLMClassifier._combine_results.
    change (fun rw : tier_result * Q => negb (is_none (is_vegetarian rw.1)))
      with has_opinion. fold valid.
    destruct valid as [|first rest] eqn:Hvalid; [done|].
    change (fun rw : tier_result * Q => (confidence rw.1 * rw.2)%Q) with weight_term.
    by rewrite Hden.
Qed.

(** X12. When the tier confidences are in [0,1], the tiers that have an
    opinion all agree, and one of them has a confidence of at least 0.001,
    the combined result takes their verdict with confidence exactly 1.0 and
    method "combined", however weak the individual confidences are; in
    particular a single opinion of confidence 0.5 is returned with
    confidence 1.0. *)
Theorem combine_unanimous_is_certain (k r l : tier_result) (s : bool) :
  (0 <= confidence k <= 1)%Q -> (0 <= confidence r <= 1)%Q ->
  (0 <= confidence l <= 1)%Q ->
  Forall (fun t => is_none (is_vegetarian t) = true
                   \/ truthy (is_vegetarian t) = s) [k; r; l] ->
  Exists (fun t => is_none (is_vegetarian t) = false
                   /\ (1 # 1000 <= confidence t)%Q) [k; r; l] ->
  is_vegetarian (LLMClassifier._combine_results k r l) = VBool s
  /\ confidence (LLMClassifier._combine_results k r l) = round3 1
  /\ method (LLMClassifier._combine_results k r l) = "combined".
Proof.
  intros [Hk _] [Hr _] [Hl _] Hagree Hsome.
  apply unanimous_combination; try assumption.
  eapply List.Exists_impl; [|exact Hsome].
  intros t [Hop Hc]. split; [exact Hop|lra].
Qed.

Lemma combine_unanimous_is_certain_witness :
  is_vegetarian (LLMClassifier._combine_results no_result rag_leaning_non_veg no_result)
  = VBool false
  /\ confidence (LLMClassifier._combine_results no_result rag_leaning_non_veg no_result)
     = round3 1
  /\ method (LLMClassifier._combine_results no_result rag_leaning_non_veg no_result)
     = "combined".
Proof.
  apply (combine_unanimous_is_certain no_result rag_leaning_non_veg no_result false).
  - cbn. lra.
  - cbn. lra.
  - cbn. lra.
  - apply Forall_cons; split; [left; reflexivity|].
    apply Forall_cons; split; [right; reflexivity|].
    apply Forall_cons; split; [left; reflexivity|]. constructor.
  - apply Exists_cons_tl, Exists_cons_hd. cbn. split; [reflexivity|lra].
Defined.

(** ** The LLM tier *)

(** X13. The LLM tier never raises and has an opinion only when the
    provider's reply decodes to an object whose confidence converts to a
    number; it then reports the object's verdict and that number unchanged
    (0.7 when the object has no confidence).  A provider error, a reply
    without JSON object and a confidence that does not convert all give
    [is_vegetarian = None] with confidence 0. *)
Theorem llm_tier_opinion_comes_from_the_reply
    (env : oracles) (call : nat) (dish_name : string) (evidence : list rag_hit) :
  let r := LLMClassifier._llm_classification env call dish_name evidence in
  (is_vegetarian r = VNone /\ confidence r = 0%Q /\ method r = "llm")
  \/ (exists o c,
        generate_single env call dish_name (take 5 evidence) = SObject o
        /\ LLMClassifier.py_float env (default (VFloat (7 # 10)) (o_confidence o)) = Ok c
        /\ r = {| is_vegetarian := o_is_vegetarian o; confidence := c;
                  reasoning := default "LLM classification" (o_reasoning o);
                  method := "llm" |}).
Proof.
  unfold LLMClassifier._llm_classification.
  destruct (generate_single env call dish_name (take 5 evidence)) as [msg| |o] eqn:Hreply;
    [by left|by left|].
  unfold LLMClassifier._parse_llm_response, LLMClassifier.result_of_object.
  destruct (LLMClassifier.py_float env (default (VFloat (7 # 10)) (o_confidence o)))
    as [c|[m|m]] eqn:Hc; [|by left|by left].
  right. by exists o, c.
Qed.

(** ** Batch replies *)

Lemma errors_lookup (items : list string) (r : tier_result)
    (m : gmap string tier_result) (name : string) :
  In name items ->
  foldl (fun m n => <[n := r]> m) m items !! name = Some r.
Proof.
  revert m. induction items as [|n items IH]; intros m Hin; [destruct Hin|].
  cbn [foldl]. destruct (in_dec string_dec name items) as [Hlater|Hnot].
  - by apply IH.
  - destruct Hin as [->|Hin]; [|contradiction].
    clear IH. revert m. induction items as [|n' items IH]; intros m.
    + apply lookup_insert_eq.
    + cbn [foldl].
      assert (Hne : n' <> name) by (intros ->; apply Hnot; by left).
      assert (Hnot' : ~ In name items) by (intros H; apply Hnot; by right).
      rewrite insert_insert_ne by done. by apply IH.
Qed.

Lemma fill_missing_lookup (items : list string)
    (results : gmap string tier_result) (name : string) :
  LLMClassifier.fill_missing items results !! name
  = match results !! name with
    | Some r => Some r
    | None => if bool_decide (name ∈ items)
              then Some (LLMClassifier.failed "Failed to parse batch response" "llm_batch")
              else None
    end.
Proof.
  unfold LLMClassifier.fill_missing. revert results.
  induction items as [|n items IH]; intros results.
  - cbn. by destruct (results !! name).
  - cbn [foldl]. rewrite IH.
    destruct (results !! n) as [rn|] eqn:Hn.
    + destruct (results !! name) as [r|] eqn:Hr; [done|].
      assert (Hne : n <> name) by (intros ->; congruence).
      rewrite (bool_decide_ext (name ∈ n :: items) (name ∈ items)); [done|set_solver].
    + destruct (decide (n = name)) as [->|Hne].
      * rewrite lookup_insert_eq, Hn. rewrite bool_decide_eq_true_2; [done|set_solver].
      * rewrite lookup_insert_ne by done.
        destruct (results !! name); [done|].
        rewrite (bool_decide_ext (name ∈ n :: items) (name ∈ items)); [done|set_solver].
Qed.

Lemma batch_failure_lookup
    (env : oracles) (call : nat) (items : list string) (name : string) :
  no_array (generate_batch env call items) = true ->
  In name items ->
  exists r, LLMClassifier.classify_batch_llm env call items !! name = Some r
            /\ is_vegetarian r = VNone /\ confidence r = 0%Q
            /\ method r = "llm_batch".
Proof.
  intros Hno Hin. unfold LLMClassifier.classify_batch_llm.
  destruct items as [|i items]; [destruct Hin|].
  destruct (generate_batch env call (i :: items)) as [msg| |data]; [| |discriminate Hno].
  - eexists. split; [by apply errors_lookup|]. by repeat split.
  - cbn [LLMClassifier._parse_batch_response].
    eexists. split.
    + rewrite fill_missing_lookup, lookup_empty.
      rewrite bool_decide_eq_true_2; [reflexivity|by apply list_elem_of_In].
    + by repeat split.
Qed.

(** X14. When the provider raises or its reply holds no decodable array,
    the batch call still returns a result for every dish it was asked
    about, each without opinion and with confidence 0. *)
Theorem batch_failure_gives_every_dish_a_null_result
    (env : oracles) (call : nat) (items : list string) (name : string) :
  no_array (generate_batch env call items) = true ->
  In name items ->
  exists r, LLMClassifier.classify_batch_llm env call items !! name = Some r
            /\ is_vegetarian r = VNone /\ confidence r = 0%Q
            /\ method r = "llm_batch".
Proof. apply batch_failure_lookup. Qed.

Lemma batch_failure_gives_every_dish_a_null_result_witness :
  exists r, LLMClassifier.classify_batch_llm tofu_env 0 ["Mapo Bowl"; "Chef's Mystery Bowl"]
              !! "Chef's Mystery Bowl" = Some r
            /\ is_vegetarian r = VNone /\ confidence r = 0%Q
            /\ method r = "llm_batch".
Proof.
  apply (batch_failure_gives_every_dish_a_null_result tofu_env 0
           ["Mapo Bowl"; "Chef's Mystery Bowl"] "Chef's Mystery Bowl").
  - reflexivity.
  - right. by left.
Defined.

Lemma contains_refl (s : string) : contains s s = true.
Proof.
  assert (H : String.prefix s s = true).
  { induction s as [|c s IH]; [reflexivity|]. cbn.
    destruct (Ascii.ascii_dec c c); [exact IH|done]. }
  destruct s; cbn [contains]; by rewrite H.
Qed.

Lemma find_own_name (items : list string) (d : string) :
  unrelated_names items -> In d items ->
  find (fun item => contains (lower item) (lower d)
                    || contains (lower d) (lower item)) items = Some d.
Proof.
  intros Hun Hin.
  destruct (find _ items) as [x|] eqn:Hfind.
  - apply find_some in Hfind as [Hx Hmatch].
    destruct (string_dec x d) as [->|Hne]; [reflexivity|].
    rewrite (Hun x d Hx Hin Hne) in Hmatch.
    rewrite (Hun d x Hin Hx (not_eq_sym Hne)) in Hmatch. discriminate Hmatch.
  - pose proof (find_none _ _ Hfind d Hin) as Hd. cbn in Hd.
    rewrite contains_refl in Hd. discriminate Hd.
Qed.

Lemma batch_step_named (env : oracles) (items : list string) (i : nat)
    (da : string * llm_object) (results : gmap string tier_result) :
  unrelated_names items -> In da.1 items -> da.1 <> "" ->
  is_Some (object_result env da.2) ->
  LLMClassifier.batch_elem_step env items i (answer_for da) results
  = Ok (match object_result env da.2 with
        | Some r => <[da.1 := r]> results
        | None => results
        end).
Proof.
  intros Hun Hin Hne [r Hr]. destruct da as [d o]. cbn [fst snd] in *.
  unfold LLMClassifier.batch_elem_step, answer_for. cbn [fst snd].
  assert (Htruthy : truthy (VStr d) = true).
  { cbn. destruct (String.eqb_spec d ""); [contradiction|reflexivity]. }
  unfold LLMClassifier.or_else. cbv zeta. rewrite !Htruthy.
  cbn [negb andb]. rewrite !Htruthy.
  rewrite (find_own_name items d Hun Hin).
  unfold object_result in Hr |- *.
  destruct (LLMClassifier.result_of_object env o "Batch LLM" "llm_batch");
    [reflexivity|discriminate Hr].
Qed.

Lemma batch_loop_named (env : oracles) (items : list string)
    (answers : list (string * llm_object)) (i : nat)
    (results : gmap string tier_result) :
  unrelated_names items ->
  Forall (fun da : string * llm_object =>
            In da.1 items /\ da.1 <> "" /\ is_Some (object_result env da.2)) answers ->
  LLMClassifier.batch_loop env items i (map answer_for answers) results
  = (foldl (fun m (da : string * llm_object) =>
              match object_result env da.2 with
              | Some r => <[da.1 := r]> m
              | None => m
              end) results answers, None).
Proof.
  intros Hun. revert i results.
  induction answers as [|da answers IH]; intros i results Hall; [reflexivity|].
  apply Forall_cons in Hall as [(Hin & Hne & Hr) Hall].
  cbn [map LLMClassifier.batch_loop foldl].
  rewrite (batch_step_named env items i da results Hun Hin Hne Hr).
  by apply IH.
Qed.

Lemma stored_lookup (env : oracles) (answers : list (string * llm_object))
    (m : gmap string tier_result) (d : string) :
  Forall (fun da : string * llm_object => is_Some (object_result env da.2)) answers ->
  foldl (fun m (da : string * llm_object) =>
           match object_result env da.2 with
           | Some r => <[da.1 := r]> m
           | None => m
           end) m answers !! d
  = match find (fun da : string * llm_object => String.eqb da.1 d) (rev answers) with
    | Some da => object_result env da.2
    | None => m !! d
    end.
Proof.
  revert m. induction answers as [|da answers IH] using rev_ind; intros m Hall.
  - reflexivity.
  - rewrite foldl_app, rev_app_distr. cbn [foldl rev app find].
    apply Forall_app in Hall as [Hall Hda]. rewrite Forall_singleton in Hda.
    destruct Hda as [r Hr]. rewrite Hr.
    destruct (String.eqb_spec da.1 d) as [->|Hne].
    + by rewrite lookup_insert_eq.
    + rewrite lookup_insert_ne by done. by apply IH.
Qed.

(** X15. The batch parser tolerates reordered and missing answers.  When
    no name of the batch is contained in another one (case ignored) and the
    reply is an array of objects that name dishes of the batch, in any
    order, with confidences that convert, every dish gets the result built
    from the last answer that names it, and a dish that no answer names
    gets none. *)
Theorem batch_answers_are_paired_by_name
    (env : oracles) (items : list string) (answers : list (string * llm_object))
    (d : string) :
  unrelated_names items ->
  Forall (fun da : string * llm_object =>
            In da.1 items /\ da.1 <> "" /\ is_Some (object_result env da.2)) answers ->
  exists results,
    LLMClassifier._parse_batch_response env (BArray (map answer_for answers)) items
      = Ok results
    /\ results = stored_answers env answers
    /\ results !! d
       = match find (fun da : string * llm_object => String.eqb da.1 d) (rev answers) with
         | Some da => object_result env da.2
         | None => None
         end.
Proof.
  intros Hun Hall. exists (stored_answers env answers).
  unfold LLMClassifier._parse_batch_response.
  rewrite (batch_loop_named env items answers 0 ∅ Hun Hall).
  split; [reflexivity|]. split; [reflexivity|].
  unfold stored_answers. rewrite stored_lookup; [by rewrite lookup_empty|].
  eapply Forall_impl; [exact Hall|]. by intros da (_ & _ & H).
Qed.

Lemma batch_answers_are_paired_by_name_witness :
  exists results,
    LLMClassifier._parse_batch_response mystery_env
      (BArray (map answer_for [("Lentil Soup", says_vegetarian);
                               ("House Salad", says_meat)]))
      ["House Salad"; "Lentil Soup"; "Daily Special"] = Ok results
    /\ results = stored_answers mystery_env [("Lentil Soup", says_vegetarian);
                                             ("House Salad", says_meat)]
    /\ results !! "House Salad"
       = match find (fun da : string * llm_object => String.eqb da.1 "House Salad")
                    (rev [("Lentil Soup", says_vegetarian); ("House Salad", says_meat)]) with
         | Some da => object_result mystery_env da.2
         | None => None
         end.
Proof.
  apply (batch_answers_are_paired_by_name mystery_env
           ["House Salad"; "Lentil Soup"; "Daily Special"]
           [("Lentil Soup", says_vegetarian); ("House Salad", says_meat)]
           "House Salad").
  - intros a b Ha Hb Hne.
    destruct Ha as [<-|[<-|[<-|[]]]]; destruct Hb as [<-|[<-|[<-|[]]]];
      (reflexivity || (exfalso; by apply Hne)).
  - apply Forall_cons; split.
    + split; [right; by left|]. split; [discriminate|]. by eexists.
    + apply Forall_cons; split; [|constructor].
      split; [by left|]. split; [discriminate|]. by eexists.
Defined.

(** X16. When the name of the first dish of a batch is contained in the
    name of the second (as "Salad" in "Greek Salad"), an in-order reply that
    names both dishes exactly is paired wrongly: the answer for the second
    dish overwrites the answer for the first, and the second dish is left
    without a result. *)
Theorem batch_answer_goes_to_contained_name
    (env : oracles) (a b : string) (oa ob : llm_object) (ra rb : tier_result) :
  a <> "" -> a <> b ->
  contains (lower a) (lower b) = true ->
  object_result env oa = Some ra ->
  object_result env ob = Some rb ->
  exists results,
    LLMClassifier._parse_batch_response env
      (BArray [answer_for (a, oa); answer_for (b, ob)]) [a; b] = Ok results
    /\ results !! a = Some rb
    /\ results !! b = None.
Proof.
  intros Ha Hab Hcontained Hra Hrb.
  assert (Hb : b <> "").
  { intros ->. destruct a as [|c a]; [done|]. discriminate Hcontained. }
  assert (Hta : truthy (VStr a) = true)
    by (cbn; destruct (String.eqb_spec a ""); [contradiction|reflexivity]).
  assert (Htb : truthy (VStr b) = true)
    by (cbn; destruct (String.eqb_spec b ""); [contradiction|reflexivity]).
  unfold object_result in Hra, Hrb.
  destruct (LLMClassifier.result_of_object env oa "Batch LLM" "llm_batch")
    as [ra'|] eqn:Hoa; [|discriminate]. injection Hra as ->.
  destruct (LLMClassifier.result_of_object env ob "Batch LLM" "llm_batch")
    as [rb'|] eqn:Hob; [|discriminate]. injection Hrb as ->.
  exists (<[a := rb]> (<[a := ra]> ∅)).
  split; [|split].
  - unfold LLMClassifier._parse_batch_response.
    cbn [LLMClassifier.batch_loop].
    unfold LLMClassifier.batch_elem_step, answer_for, LLMClassifier.or_else.
    cbv zeta. cbn [fst snd]. rewrite !Hta, !Htb. cbn [negb andb].
    rewrite !Hta, !Htb. cbn [find].
    rewrite contains_refl. cbn [orb]. rewrite Hoa.
    rewrite Hcontained. cbn [orb]. rewrite Hob. reflexivity.
  - apply lookup_insert_eq.
  - rewrite !lookup_insert_ne by done. apply lookup_empty.
Qed.

Lemma batch_answer_goes_to_contained_name_witness :
  exists results,
    LLMClassifier._parse_batch_response mystery_env
      (BArray [answer_for ("Salad", says_vegetarian); answer_for ("Chicken Salad", says_meat)])
      ["Salad"; "Chicken Salad"] = Ok results
    /\ results !! "Salad"
       = Some {| is_vegetarian := VBool false; confidence := 8 # 10;
                 reasoning := "contains meat"; method := "llm_batch" |}
    /\ results !! "Chicken Salad" = None.
Proof.
  apply (batch_answer_goes_to_contained_name mystery_env "Salad" "Chicken Salad"
           says_vegetarian says_meat
           {| is_vegetarian := VBool true; confidence := 9 # 10;
              reasoning := "vegetables only"; method := "llm_batch" |});
    (reflexivity || discriminate).
Defined.

(** ** Review store *)

Lemma kept_model_dump (cs : list CalculatorTool.correction)
    (item : Review.MenuItemSchema) :
  kept (CalculatorTool.correction_map cs) (Review.model_dump item)
  = Some (if corrected_vegetarian cs item then [verified_copy item] else []).
Proof.
  unfold kept, CalculatorTool.recompute_step, corrected_vegetarian, verified_copy.
  change (get (Review.model_dump item) "name" (VStr "")) with (VStr (Review.s_name item)).
  change (get (Review.model_dump item) "price" (VFloat 0))
    with (VFloat (Review.s_price item)).
  change (get (Review.model_dump item) "is_vegetarian" (VBool false)) with (VBool false).
  cbv beta iota.
  destruct (_ !! lower (Review.s_name item)) as [label|]; [|reflexivity].
  destruct (truthy label); reflexivity.
Qed.

Lemma recompute_loop_model_dump (cs : list CalculatorTool.correction)
    (items : list Review.MenuItemSchema) :
  CalculatorTool.recompute_loop (CalculatorTool.correction_map cs)
    (map Review.model_dump items)
  = Some (map verified_copy
            (filter (fun item => corrected_vegetarian cs item = true) items)).
Proof.
  unfold CalculatorTool.recompute_loop. rewrite recompute_loop_from.
  assert (H : mapM (kept (CalculatorTool.correction_map cs))
                (map Review.model_dump items)
              = Some (map (fun item => if corrected_vegetarian cs item
                                       then [verified_copy item] else []) items)).
  { induction items as [|item items IH]; [reflexivity|].
    cbn [map mapM]. rewrite kept_model_dump, IH. reflexivity. }
  rewrite H. cbn [fmap option_fmap option_map app]. f_equal. clear H.
  induction items as [|item items IH]; [reflexivity|].
  cbn [map concat]. rewrite filter_cons.
  destruct (decide (corrected_vegetarian cs item = true)) as [E|E].
  - rewrite E. cbn [map app]. f_equal. exact IH.
  - apply not_true_is_false in E. rewrite E. cbn [app]. exact IH.
Qed.

Lemma sum_prices_verified (items : list Review.MenuItemSchema) :
  CalculatorTool.sum_prices (map verified_copy items)
  = Some (Qsum (map Review.s_price items)).
Proof.
  unfold CalculatorTool.sum_prices, Qsum. generalize 0%Q at 2 3.
  induction items as [|item items IH]; intros t; [reflexivity|].
  cbn [map foldl]. cbn [mbind option_bind].
  change (get (verified_copy item) "price" (VFloat 0)) with (VFloat (Review.s_price item)).
  cbn [as_number]. apply IH.
Qed.

Lemma recompute_model_dump (cs : list CalculatorTool.correction)
    (items : list Review.MenuItemSchema) :
  CalculatorTool.recompute_with_corrections (map Review.model_dump items) cs
  = Some {| CalculatorTool.vegetarian_items :=
              map verified_copy
                (filter (fun item => corrected_vegetarian cs item = true) items);
            CalculatorTool.r_total_sum :=
              round2 (Qsum (map Review.s_price
                (filter (fun item => corrected_vegetarian cs item = true) items)));
            CalculatorTool.corrections_applied := length cs |}.
Proof.
  unfold CalculatorTool.recompute_with_corrections.
  rewrite recompute_loop_model_dump. cbn [mbind option_bind].
  rewrite sum_prices_verified. reflexivity.
Qed.

Lemma submit_review_success (writable : bool) (now : nat -> string)
    (request_id : string) (cs : list CalculatorTool.correction)
    (st : Review.state) (pending : Review.pending_review) :
  Review.get_pending_review request_id st = Some pending ->
  Review.submit_review writable true now request_id cs st
  = (Review.clear_pending_review request_id
       (Review.log_feedback writable now request_id cs st),
     Review.Reviewed request_id
       (map verified_copy
          (filter (fun item => corrected_vegetarian cs item = true)
                  (Review.p_items pending)))
       (round2 (Qsum (map Review.s_price
          (filter (fun item => corrected_vegetarian cs item = true)
                  (Review.p_items pending)))))
       (length cs)).
Proof.
  intros Hp. unfold Review.submit_review. rewrite Hp.
  rewrite recompute_model_dump. reflexivity.
Qed.



(** X18. A request is reviewed at most once: after a review that succeeded,
    a second [submit_review] for the same request id answers 404 and changes
    neither the store nor the feedback log, whatever corrections it
    brings. *)
Theorem submit_review_answers_once
    (writable writable' mcp_up' : bool) (now now' : nat -> string)
    (request_id : string) (cs cs' : list CalculatorTool.correction)
    (st : Review.state) (pending : Review.pending_review) :
  Review.get_pending_review request_id st = Some pending ->
  Review.submit_review writable' mcp_up' now' request_id cs'
    (Review.submit_review writable true now request_id cs st).1
  = ((Review.submit_review writable true now request_id cs st).1, Review.NotFound).
Proof.
  intros Hp. rewrite (submit_review_success _ _ _ _ _ _ Hp). cbn [fst].
  unfold Review.submit_review at 1.
  unfold Review.get_pending_review, Review.clear_pending_review.
  cbn [Review._pending_reviews]. by rewrite lookup_delete_eq.
Qed.

Lemma submit_review_answers_once_witness :
  (Review.submit_review true true fixed_clock "r-1" [refund_is_vegetarian]
     (Review.submit_review true true fixed_clock "r-1" [soup_is_vegetarian]
        one_pending_review).1).2
  = Review.NotFound.
Proof.
  rewrite (submit_review_answers_once true true true fixed_clock fixed_clock "r-1"
             [soup_is_vegetarian] [refund_is_vegetarian] one_pending_review
             {| Review.p_items := [soup_schema; salad_schema];
                Review.p_partial_result := ∅ |});
    reflexivity.
Defined.

(** X19. When the call to the MCP server fails, [submit_review] leaves the
    request pending but has already logged the corrections; a retry that
    succeeds logs them again, so the feedback log then holds every
    correction twice. *)
Theorem failed_review_is_logged_again_on_retry
    (now now' : nat -> string) (request_id : string)
    (cs : list CalculatorTool.correction) (st : Review.state)
    (pending : Review.pending_review) :
  Review.get_pending_review request_id st = Some pending ->
  let failed := Review.submit_review true false now request_id cs st in
  let retried := Review.submit_review true true now' request_id cs failed.1 in
  failed.2 = Review.ServerError
  /\ Review.get_pending_review request_id failed.1 = Some pending
  /\ Review.get_pending_review request_id retried.1 = None
  /\ Review.feedback_file retried.1
     = Some (default [] (Review.feedback_file st)
             ++ Review.feedback_records now request_id cs
             ++ Review.feedback_records now' request_id cs).
Proof.
  intros Hp failed retried.
  assert (Hfailed : failed = (Review.log_feedback true now request_id cs st,
                              Review.ServerError)).
  { unfold failed, Review.submit_review. by rewrite Hp. }
  assert (Hp' : Review.get_pending_review request_id failed.1 = Some pending).
  { rewrite Hfailed. exact Hp. }
  split; [by rewrite Hfailed|]. split; [exact Hp'|].
  unfold retried. rewrite (submit_review_success _ _ _ _ _ _ Hp'). cbn [fst].
  split.
  - unfold Review.get_pending_review, Review.clear_pending_review.
    cbn [Review._pending_reviews]. by rewrite lookup_delete_eq.
  - rewrite Hfailed. cbn. by rewrite <- app_assoc.
Qed.

Lemma failed_review_is_logged_again_on_retry_witness :
  Review.feedback_file
    (Review.submit_review true true fixed_clock "r-1" [soup_is_vegetarian]
       (Review.submit_review true false fixed_clock "r-1" [soup_is_vegetarian]
          one_pending_review).1).1
  = Some (Review.feedback_records fixed_clock "r-1" [soup_is_vegetarian]
          ++ Review.feedback_records fixed_clock "r-1" [soup_is_vegetarian]).
Proof.
  apply (failed_review_is_logged_again_on_retry fixed_clock fixed_clock "r-1"
           [soup_is_vegetarian] one_pending_review
           {| Review.p_items := [soup_schema; salad_schema];
              Review.p_partial_result := ∅ |}).
  reflexivity.
Defined.

(** ** Feedback statistics *)

Lemma tally_snoc_other (d : string) (feedback : list Review.feedback_record)
    (r : Review.feedback_record) :
  about d r = false -> tally d (feedback ++ [r]) = tally d feedback.
Proof.
  intros H. unfold tally. rewrite !filter_app.
  rewrite (filter_cons _ r []), filter_nil.
  destruct (decide (about d r = true)) as [E|_]; [congruence|].
  by rewrite !app_nil_r.
Qed.

Lemma tally_snoc_same (d : string) (feedback : list Review.feedback_record)
    (r : Review.feedback_record) :
  about d r = true ->
  tally d (feedback ++ [r])
  = if truthy (Review.f_human_label r)
    then (S (tally d feedback).1, (tally d feedback).2)
    else ((tally d feedback).1, S (tally d feedback).2).
Proof.
  intros H. unfold tally. rewrite !filter_app.
  rewrite (filter_cons _ r []), filter_nil.
  destruct (decide (about d r = true)) as [_|E]; [|congruence].
  rewrite !(filter_cons _ r []), !filter_nil.
  rewrite !length_app. cbn [fst snd].
  destruct (truthy (Review.f_human_label r)) eqn:Ht.
  - destruct (decide (true = true)) as [_|E]; [|congruence].
    destruct (decide (true = false)) as [E|_]; [congruence|].
    cbn [length]. f_equal; lia.
  - destruct (decide (false = true)) as [E|_]; [congruence|].
    destruct (decide (false = false)) as [_|E]; [|congruence].
    cbn [length]. f_equal; lia.
Qed.

Lemma tally_of_unknown_dish (d : string) (feedback : list Review.feedback_record) :
  existsb (about d) feedback = false -> tally d feedback = (0, 0).
Proof.
  induction feedback as [|r feedback IH] using rev_ind; [reflexivity|].
  rewrite existsb_app. cbn [existsb]. rewrite orb_false_r.
  intros H. apply orb_false_iff in H as [H1 H2].
  rewrite (tally_snoc_other d feedback r H2). by apply IH.
Qed.

Lemma count_loop_lookup (d : string) (feedback : list Review.feedback_record) :
  foldl Review.count_step ∅ feedback !! d
  = if existsb (about d) feedback then Some (tally d feedback) else None.
Proof.
  induction feedback as [|r feedback IH] using rev_ind; [reflexivity|].
  rewrite foldl_app. cbn [foldl]. rewrite existsb_app. cbn [existsb].
  rewrite orb_false_r.
  set (dishes := foldl Review.count_step ∅ feedback) in *.
  destruct (about d r) eqn:Hd.
  - rewrite orb_true_r. rewrite (tally_snoc_same d feedback r Hd).
    apply String.eqb_eq in Hd. unfold Review.count_step. rewrite Hd, IH.
    assert (E : default (0, 0)
                  (if existsb (about d) feedback then Some (tally d feedback) else None)
                = tally d feedback).
    { destruct (existsb (about d) feedback) eqn:Hex; [reflexivity|].
      by rewrite (tally_of_unknown_dish d feedback Hex). }
    rewrite E.
    destruct (truthy (Review.f_human_label r)); by rewrite lookup_insert_eq.
  - rewrite orb_false_r. rewrite (tally_snoc_other d feedback r Hd).
    assert (Hne : Review.f_dish_name r <> d).
    { intros E. apply String.eqb_eq in E. unfold about in Hd. congruence. }
    unfold Review.count_step.
    destruct (truthy (Review.f_human_label r));
      by rewrite lookup_insert_ne.
Qed.

Lemma count_loop_dom (feedback : list Review.feedback_record) :
  dom (foldl Review.count_step ∅ feedback)
  = (list_to_set (map Review.f_dish_name feedback) : gset string).
Proof.
  induction feedback as [|r feedback IH] using rev_ind.
  - cbn. by rewrite dom_empty_L.
  - rewrite foldl_app, map_app, list_to_set_app_L. cbn [foldl map list_to_set].
    rewrite <- IH. generalize (foldl Review.count_step ∅ feedback).
    intros dishes. unfold Review.count_step.
    destruct (truthy (Review.f_human_label r)); rewrite dom_insert_L; set_solver.
Qed.

(** X20. [get_feedback_stats] over an existing feedback log:
    [total_corrections] is the number of records, [unique_dishes] the number
    of distinct dish names (compared exactly, so names differing in case
    count as different dishes), and for each name that occurs [dish_stats]
    holds the number of its records with a true label and the number of its
    other records; these two counts add up to the number of records about
    the dish.  [recent_feedback] is the tail of the log, twenty records or
    the whole log when it is shorter. *)
Theorem feedback_stats_count_the_log
    (st : Review.state) (feedback : list Review.feedback_record) (d : string) :
  Review.feedback_file st = Some feedback ->
  exists dishes recent,
    Review.get_feedback_stats st
    = Review.Stats (length feedback)
        (size (list_to_set (map Review.f_dish_name feedback) : gset string))
        dishes recent
    /\ dishes !! d
       = (if existsb (about d) feedback then Some (tally d feedback) else None)
    /\ (tally d feedback).1 + (tally d feedback).2
       = length (filter (fun r => about d r = true) feedback)
    /\ (exists older, feedback = older ++ recent)
    /\ length recent = Nat.min 20 (length feedback).
Proof.
  intros Hfile. unfold Review.get_feedback_stats. rewrite Hfile.
  assert (Hsplit : forall l : list Review.feedback_record,
             length (filter (fun r => truthy (Review.f_human_label r) = true) l)
             + length (filter (fun r => truthy (Review.f_human_label r) = false) l)
             = length l).
  { clear. induction l as [|r l IH]; [reflexivity|].
    rewrite !filter_cons.
    destruct (truthy (Review.f_human_label r)).
    - destruct (decide (true = true)) as [_|E]; [|congruence].
      destruct (decide (true = false)) as [E|_]; [congruence|]. cbn [length]. lia.
    - destruct (decide (false = true)) as [E|_]; [congruence|].
      destruct (decide (false = false)) as [_|E]; [|congruence]. cbn [length]. lia. }
  eexists _, _. split.
  { f_equal. rewrite <- count_loop_dom. by rewrite size_dom. }
  split; [apply count_loop_lookup|]. split; [apply Hsplit|]. split.
  - exists (take (length feedback - 20) feedback). by rewrite take_drop.
  - rewrite length_drop. lia.
Qed.

Lemma feedback_stats_count_the_log_witness :
  exists dishes recent,
    Review.get_feedback_stats
      (Review.log_feedback true fixed_clock "r-1" soup_no_then_yes one_pending_review)
    = Review.Stats 2 2 dishes recent
    /\ dishes !! "Soup" = Some (0, 1).
Proof.
  destruct (feedback_stats_count_the_log
              (Review.log_feedback true fixed_clock "r-1" soup_no_then_yes
                 one_pending_review)
              (Review.feedback_records fixed_clock "r-1" soup_no_then_yes)
              "Soup" eq_refl)
    as (dishes & recent & H1 & H2 & _).
  exists dishes, recent. split; [exact H1|exact H2].
Defined.

(** X21. Every correction of a review is one more record in the statistics:
    a call of [log_feedback] that can write makes [total_corrections] grow
    by the number of corrections, and one that cannot write leaves it as it
    was. *)
Theorem logged_corrections_are_counted
    (writable : bool) (now : nat -> string) (request_id : string)
    (cs : list CalculatorTool.correction) (st : Review.state) :
  Review.total_corrections
    (Review.get_feedback_stats (Review.log_feedback writable now request_id cs st))
  = Review.total_corrections (Review.get_feedback_stats st)
    + (if writable then length cs else 0).
Proof.
  unfold Review.log_feedback, Review.get_feedback_stats.
  destruct writable; [|lia].
  cbn [Review.feedback_file Review.total_corrections].
  rewrite length_app. unfold Review.feedback_records. rewrite length_imap.
  by destruct (Review.feedback_file st).
Qed.

(** ** Provider selection *)

(** X22. [get_llm_provider] decided case by case.  It returns the OpenAI
    provider exactly when the API key is longer than ten characters and
    either OpenAI is the configured provider or the configured Ollama failed
    its probe.  It returns the Ollama provider exactly when Ollama is
    configured and passes its probe, or the key is too short and the
    fallback probe succeeds (the second probe of the call when Ollama is
    configured, the only probe when OpenAI is).  It raises exactly when the
    key is too short and every probe made has failed. *)
Theorem provider_selection_is_sound
    (cfg : Providers.provider_settings) (probe : nat -> bool) :
  let usable_key := 10 < String.length (Providers.openai_api_key cfg) in
  let chosen := Providers.get_llm_provider cfg probe in
  (chosen = Some Providers.OpenAI
   <-> usable_key
       /\ (Providers.llm_provider cfg = Providers.OpenAI \/ probe 0 = false))
  /\ (chosen = Some Providers.Ollama
      <-> match Providers.llm_provider cfg with
          | Providers.Ollama =>
              probe 0 = true \/ (~ usable_key /\ probe 1 = true)
          | Providers.OpenAI => ~ usable_key /\ probe 0 = true
          end)
  /\ (chosen = None
      <-> ~ usable_key /\ probe 0 = false
          /\ match Providers.llm_provider cfg with
             | Providers.Ollama => probe 1 = false
             | Providers.OpenAI => True
             end).
Proof.
  intros usable_key chosen. subst usable_key chosen.
  assert (Hkey : Providers.openai_is_available cfg
                 = bool_decide (10 < String.length (Providers.openai_api_key cfg))).
  { unfold Providers.openai_is_available.
    destruct (Providers.openai_api_key cfg) as [|c key]; [reflexivity|].
    cbn [String.eqb negb andb].
    destruct (Nat.ltb_spec 10 (String.length (String c key)));
      symmetry; [by apply bool_decide_eq_true|by apply bool_decide_eq_false; lia]. }
  unfold Providers.get_llm_provider. rewrite Hkey.
  destruct (Providers.llm_provider cfg), (probe 0) eqn:H0, (probe 1) eqn:H1;
    case_bool_decide; cbn;
    repeat split; intros; try discriminate; try congruence; try tauto;
    intuition (try discriminate; try congruence; try lia).
Qed.

(** ** Buckets and verdicts *)

Lemma listed_with_mono (c c' : ClassifierTool.classification)
    (P : pyval -> Prop) (p : ClassifierTool.placed) :
  ClassifierTool.all_items c ⊆ ClassifierTool.all_items c' ->
  listed_with c P p -> listed_with c' P p.
Proof.
  intros Hsub (a & v & Ha & H). exists a, v. split; [by apply Hsub|exact H].
Qed.

Lemma buckets_agree_mono (c c' : ClassifierTool.classification) :
  ClassifierTool.vegetarian_items c' = ClassifierTool.vegetarian_items c ->
  ClassifierTool.non_vegetarian_items c' = ClassifierTool.non_vegetarian_items c ->
  ClassifierTool.uncertain_items c' = ClassifierTool.uncertain_items c ->
  ClassifierTool.all_items c ⊆ ClassifierTool.all_items c' ->
  buckets_agree c -> buckets_agree c'.
Proof.
  intros Hv Hn Hu Hsub (H1 & H2 & H3). unfold buckets_agree.
  rewrite Hv, Hn, Hu.
  split; [|split]; (eapply Forall_impl; [eassumption|]);
    intros p Hp; by apply (listed_with_mono c c').
Qed.

(** A dict [ci] goes to [all_items] as [detailed ci v ...] and, itself or
    with the suggestion, to one bucket. *)
Lemma listed_detailed (c : ClassifierTool.classification) (i : nat)
    (ci ci' : pydict) (v : pyval) (related : list string) (category : pyval)
    (P : pyval -> Prop) :
  ci' !! "name" = ci !! "name" ->
  ci' !! "confidence" = ci !! "confidence" ->
  P v ->
  {| ClassifierTool.origin := i;
     ClassifierTool.entry := ClassifierTool.detailed ci v related category |}
    ∈ ClassifierTool.all_items c ->
  listed_with c P {| ClassifierTool.origin := i; ClassifierTool.entry := ci' |}.
Proof.
  intros Hname Hconf HP Hin.
  exists {| ClassifierTool.origin := i;
            ClassifierTool.entry := ClassifierTool.detailed ci v related category |}, v.
  split; [exact Hin|]. split; [reflexivity|].
  cbn [ClassifierTool.entry]. unfold ClassifierTool.detailed.
  rewrite Hname, Hconf.
  repeat split; try exact HP; by simplify_map_eq.
Qed.

Lemma bucket_agrees (cfg : settings) (i : nat) (ci : pydict) (v : pyval) (conf : Q)
    (related : list string) (category : pyval) (c : ClassifierTool.classification) :
  buckets_agree c ->
  buckets_agree
    (ClassifierTool.bucket cfg i ci v conf
       (ClassifierTool.add_all
          {| ClassifierTool.origin := i;
             ClassifierTool.entry := ClassifierTool.detailed ci v related category |}
          c)).
Proof.
  intros Hc.
  set (c1 := ClassifierTool.add_all _ c).
  assert (Hin : {| ClassifierTool.origin := i;
                   ClassifierTool.entry := ClassifierTool.detailed ci v related category |}
                ∈ ClassifierTool.all_items c1).
  { unfold c1. cbn. set_solver. }
  assert (H1 : buckets_agree c1).
  { apply (buckets_agree_mono c c1); try reflexivity; [|exact Hc].
    unfold c1. cbn. set_solver. }
  clearbody c1. clear Hc c. destruct H1 as (Hv & Hn & Hu).
  unfold ClassifierTool.bucket.
  destruct (is_none v || Qlt_bool conf (hitl_threshold cfg)) eqn:Hunc;
    [|destruct (truthy v) eqn:Ht].
  - split; [exact Hv|]. split; [exact Hn|].
    cbn [ClassifierTool.uncertain_items ClassifierTool.add_uncertain].
    apply Forall_app. split; [exact Hu|]. apply Forall_singleton.
    apply (listed_detailed _ i ci _ v related category); try exact Hin;
      by simplify_map_eq.
  - split; [|split; [exact Hn|exact Hu]].
    cbn [ClassifierTool.vegetarian_items ClassifierTool.add_vegetarian].
    apply Forall_app. split; [exact Hv|]. apply Forall_singleton.
    by apply (listed_detailed _ i ci ci v related category).
  - split; [exact Hv|]. split; [|exact Hu].
    cbn [ClassifierTool.non_vegetarian_items ClassifierTool.add_non_vegetarian].
    apply Forall_app. split; [exact Hn|]. apply Forall_singleton.
    apply orb_false_iff in Hunc as [Hnone _].
    by apply (listed_detailed _ i ci ci v related category).
Qed.

Lemma sequential_loop_agrees (cfg : settings) (kb : keywords) (env : oracles)
    (items : list ClassifierTool.menu_item) (i : nat)
    (c : ClassifierTool.classification) :
  buckets_agree c ->
  buckets_agree (ClassifierTool.sequential_loop cfg kb env i items c).
Proof.
  revert i c. induction items as [|item items IH]; intros i c Hc; [exact Hc|].
  cbn [ClassifierTool.sequential_loop]. apply IH.
  unfold ClassifierTool.sequential_step. by apply bucket_agrees.
Qed.

Lemma first_pass_step_agrees (cfg : settings) (kb : keywords) (env : oracles)
    (st : ClassifierTool.classification * list ClassifierTool.pending)
    (i : nat) (item : ClassifierTool.menu_item) :
  buckets_agree st.1 ->
  buckets_agree (ClassifierTool.first_pass_step cfg kb env st i item).1.
Proof.
  destruct st as [c needs_llm]. cbn [fst]. intros Hc.
  unfold ClassifierTool.first_pass_step.
  set (k := LLMClassifier._keyword_classification kb (ClassifierTool.i_name item)).
  set (rag := LLMClassifier._analyze_rag_evidence _).
  assert (Hadd : forall a, buckets_agree (ClassifierTool.add_all a c)).
  { intros a. apply (buckets_agree_mono c); try reflexivity; [|exact Hc].
    cbn. set_solver. }
  assert (Hlast : forall a, a ∈ ClassifierTool.all_items (ClassifierTool.add_all a c)).
  { intros a. cbn. set_solver. }
  destruct (Qle_bool (9 # 10) (confidence k)) eqn:Hk.
  - set (ci := ClassifierTool.classified_item _ _ _ _ _ _ _).
    set (a := {| ClassifierTool.origin := i;
                 ClassifierTool.entry := ClassifierTool.detailed ci (is_vegetarian k) [] VNone |}).
    destruct (Hadd a) as (Hv & Hn & Hu). specialize (Hlast a).
    assert (Hop : exists b, is_vegetarian k = VBool b).
    { destruct (keyword_opinion_is_decisive kb (ClassifierTool.i_name item))
        as [[_ H0]|(b & Hb & _)]; [|by exists b].
      fold k in H0. rewrite H0 in Hk. discriminate Hk. }
    destruct Hop as (b & Hb).
    destruct (truthy (is_vegetarian k)) eqn:Ht; cbn [fst].
    + split; [|split; [exact Hn|exact Hu]].
      cbn [ClassifierTool.vegetarian_items ClassifierTool.add_vegetarian].
      apply Forall_app. split; [exact Hv|]. apply Forall_singleton.
      by apply (listed_detailed _ i ci ci (is_vegetarian k) [] VNone).
    + split; [exact Hv|]. split; [|exact Hu].
      cbn [ClassifierTool.non_vegetarian_items ClassifierTool.add_non_vegetarian].
      apply Forall_app. split; [exact Hn|]. apply Forall_singleton.
      apply (listed_detailed _ i ci ci (is_vegetarian k) [] VNone); try done.
      split; [by rewrite Hb|exact Ht].
  - destruct (Qle_bool (confidence_threshold cfg) (confidence rag)) eqn:Hr;
      [|exact Hc].
    set (ci := ClassifierTool.classified_item _ _ _ _ _ _ _).
    set (related := map _ _). set (category := match _ with [] => VNone | _ => _ end).
    set (a := {| ClassifierTool.origin := i;
                 ClassifierTool.entry :=
                   ClassifierTool.detailed ci (is_vegetarian rag) related category |}).
    destruct (Hadd a) as (Hv & Hn & Hu). specialize (Hlast a).
    destruct (truthy (is_vegetarian rag)) eqn:Ht; cbn [fst].
    + split; [|split; [exact Hn|exact Hu]].
      cbn [ClassifierTool.vegetarian_items ClassifierTool.add_vegetarian].
      apply Forall_app. split; [exact Hv|]. apply Forall_singleton.
      by apply (listed_detailed _ i ci ci (is_vegetarian rag) related category).
    + destruct (is_vegetarian rag) as [|[|]| | | |] eqn:Hverdict; cbn [fst];
        try exact (Hadd a).
      split; [exact Hv|]. split; [|exact Hu].
      cbn [ClassifierTool.non_vegetarian_items ClassifierTool.add_non_vegetarian].
      apply Forall_app. split; [exact Hn|]. apply Forall_singleton.
      by apply (listed_detailed _ i ci ci (VBool false) related category).
Qed.

Lemma first_pass_agrees (cfg : settings) (kb : keywords) (env : oracles)
    (items : list ClassifierTool.menu_item) (i : nat)
    (st : ClassifierTool.classification * list ClassifierTool.pending) :
  buckets_agree st.1 ->
  buckets_agree (ClassifierTool.first_pass cfg kb env i items st).1.
Proof.
  revert i st. induction items as [|item items IH]; intros i st Hst; [exact Hst|].
  cbn [ClassifierTool.first_pass]. apply IH. by apply first_pass_step_agrees.
Qed.

Lemma second_pass_batch_agrees (cfg : settings) (env : oracles) (call : nat)
    (batch : list ClassifierTool.pending) (c : ClassifierTool.classification) :
  buckets_agree c ->
  buckets_agree (ClassifierTool.second_pass_batch cfg env call batch c).
Proof.
  unfold ClassifierTool.second_pass_batch.
  generalize (LLMClassifier.classify_batch_llm env call
                (map ClassifierTool.n_name batch)).
  intros llm_results. revert c.
  induction batch as [|n batch IH]; intros c Hc; [exact Hc|].
  cbn [foldl]. apply IH. unfold ClassifierTool.second_pass_step.
  by apply bucket_agrees.
Qed.

Lemma second_pass_agrees (cfg : settings) (env : oracles)
    (bs : list (list ClassifierTool.pending)) (call : nat)
    (c : ClassifierTool.classification) :
  buckets_agree c ->
  buckets_agree (ClassifierTool.second_pass cfg env call bs c).
Proof.
  revert call c. induction bs as [|batch bs IH]; intros call c Hc; [exact Hc|].
  cbn [ClassifierTool.second_pass]. apply IH. by apply second_pass_batch_agrees.
Qed.

(** X23. Under either strategy the buckets agree with [all_items]: every
    dict in [vegetarian_items] has its counterpart in [all_items] (same
    position, name and confidence) with a true [is_vegetarian]; every dict in
    [non_vegetarian_items] has one whose [is_vegetarian] is present and
    false; every dict in [uncertain_items] carries the [is_vegetarian] of its
    counterpart as [suggested_classification].  So a dish about which no
    tier had an opinion is never filed as vegetarian or as
    non-vegetarian. *)
Theorem buckets_agree_with_all_items
    (cfg : settings) (kb : keywords) (env : oracles)
    (items : list ClassifierTool.menu_item) :
  buckets_agree (ClassifierTool.execute cfg kb env items).
Proof.
  assert (H0 : buckets_agree ClassifierTool.no_items).
  { repeat split; constructor. }
  unfold ClassifierTool.execute. destruct (llm_batch_enabled cfg).
  - unfold ClassifierTool._execute_with_batch.
    pose proof (first_pass_agrees cfg kb env items 0 (ClassifierTool.no_items, []) H0)
      as H1.
    destruct (ClassifierTool.first_pass cfg kb env 0 items (ClassifierTool.no_items, []))
      as [c needs_llm].
    by apply second_pass_agrees.
  - by apply sequential_loop_agrees.
Qed.

(** ** The batch strategy without a provider *)

Lemma combine_without_opinions (k r l : tier_result) :
  is_none (is_vegetarian k) = true ->
  is_none (is_vegetarian r) = true ->
  is_none (is_vegetarian l) = true ->
  LLMClassifier._combine_results k r l
  = {| is_vegetarian := VNone; confidence := 0;
       reasoning := "Unable to classify"; method := "combined" |}.
Proof.
  intros Hk Hr Hl. unfold LLMClassifier._combine_results.
  cbn [List.filter fst]. by rewrite Hk, Hr, Hl.
Qed.

Section BatchWithoutProvider.

Variable cfg : settings.
Variable kb : keywords.
Variable env : oracles.

Hypothesis hitl_at_most_one : (hitl_threshold cfg <= 1)%Q.
Hypothesis provider_down :
  forall call names, no_array (generate_batch env call names) = true.

Lemma first_pass_step_silent
    (st : ClassifierTool.classification * list ClassifierTool.pending)
    (i : nat) (item : ClassifierTool.menu_item) :
  let st' := ClassifierTool.first_pass_step cfg kb env st i item in
  ClassifierTool.uncertain_items st'.1 = ClassifierTool.uncertain_items st.1
  /\ map ClassifierTool.n_origin (List.filter rag_silent st'.2)
     = map ClassifierTool.n_origin (List.filter rag_silent st.2)
       ++ (if without_opinion kb env item then [i] else [])
  /\ (Forall rag_sound st.2 -> Forall rag_sound st'.2).
Proof.
  destruct st as [c needs]. cbn [fst snd].
  unfold ClassifierTool.first_pass_step, without_opinion.
  set (k := LLMClassifier._keyword_classification kb _).
  set (evidence := _retrieve_evidence env _).
  set (rag := LLMClassifier._analyze_rag_evidence evidence).
  destruct (keyword_opinion_is_decisive kb (ClassifierTool.i_name item))
    as [[Hkv Hkc]|(b & Hkv & Hkc)]; fold k in Hkv, Hkc; rewrite Hkv, Hkc.
  - change (Qle_bool (9 # 10) 0) with false. cbn [is_none andb].
    assert (Hsound : Forall rag_sound needs ->
              forall w, ClassifierTool.n_rag_result w = rag ->
                        Forall rag_sound (needs ++ [w])).
    { intros H w Hw. apply Forall_app. split; [exact H|]. apply Forall_singleton.
      unfold rag_sound, rag_silent. rewrite Hw.
      destruct (rag_confidence_bounds evidence) as (H0 & _ & H1). by split. }
    assert (Hwait : forall w, ClassifierTool.n_rag_result w = rag ->
              ClassifierTool.n_origin w = i ->
              map ClassifierTool.n_origin (List.filter rag_silent (needs ++ [w]))
              = map ClassifierTool.n_origin (List.filter rag_silent needs)
                ++ (if is_none (is_vegetarian rag) then [i] else [])).
    { intros w Hw Hi. rewrite List.filter_app, map_app. cbn [List.filter].
      unfold rag_silent at 2. rewrite Hw.
      destruct (is_none (is_vegetarian rag)); cbn [map]; by rewrite ?Hi. }
    destruct (Qle_bool (confidence_threshold cfg) (confidence rag)).
    + destruct (rag_verdict_cases evidence) as [Hv|[Hv|[Hv _]]];
        fold rag in Hv; rewrite Hv; cbn [truthy is_none fst snd].
      * split; [reflexivity|]. split; [by rewrite app_nil_r|auto].
      * split; [reflexivity|]. split; [by rewrite app_nil_r|auto].
      * split; [reflexivity|]. split.
        -- rewrite Hwait by reflexivity. by rewrite Hv.
        -- intros H. by apply Hsound.
    + cbn [fst snd]. split; [reflexivity|]. split.
      * by rewrite Hwait.
      * intros H. by apply Hsound.
  - change (Qle_bool (9 # 10) (95 # 100)) with true. cbn [is_none andb].
    destruct (truthy (VBool b)); cbn [fst snd];
      (split; [reflexivity|]; split; [by rewrite app_nil_r|auto]).
Qed.

Lemma first_pass_silent (rest done : list ClassifierTool.menu_item)
    (st : ClassifierTool.classification * list ClassifierTool.pending) :
  ClassifierTool.uncertain_items st.1 = [] ->
  map ClassifierTool.n_origin (List.filter rag_silent st.2)
    = positions (without_opinion kb env) 0 done ->
  Forall rag_sound st.2 ->
  let st' := ClassifierTool.first_pass cfg kb env (length done) rest st in
  ClassifierTool.uncertain_items st'.1 = []
  /\ map ClassifierTool.n_origin (List.filter rag_silent st'.2)
     = positions (without_opinion kb env) 0 (done ++ rest)
  /\ Forall rag_sound st'.2.
Proof.
  revert done st. induction rest as [|item rest IH]; intros done st Hu Hn Hs.
  - cbn. by rewrite app_nil_r.
  - cbn [ClassifierTool.first_pass].
    destruct (first_pass_step_silent st (length done) item) as (H1 & H2 & H3).
    specialize (IH (done ++ [item])
                   (ClassifierTool.first_pass_step cfg kb env st (length done) item)).
    rewrite length_app in IH. cbn [length] in IH.
    replace (length done + 1) with (S (length done)) in IH by lia.
    rewrite <- app_assoc in IH. cbn [app] in IH. apply IH.
    + by rewrite H1.
    + rewrite H2, Hn, positions_snoc. reflexivity.
    + by apply H3.
Qed.

Lemma second_pass_step_silent (llm_results : gmap string tier_result)
    (c : ClassifierTool.classification) (n : ClassifierTool.pending) :
  (exists r, llm_results !! ClassifierTool.n_name n = Some r
             /\ is_vegetarian r = VNone /\ confidence r = 0%Q) ->
  rag_sound n ->
  let c' := ClassifierTool.second_pass_step cfg llm_results c n in
  map ClassifierTool.origin (ClassifierTool.uncertain_items c')
    = map ClassifierTool.origin (ClassifierTool.uncertain_items c)
      ++ (if rag_silent n then [ClassifierTool.n_origin n] else [])
  /\ (Forall no_suggestion (ClassifierTool.uncertain_items c) ->
      Forall no_suggestion (ClassifierTool.uncertain_items c')).
Proof.
  intros (r & Hr & Hrv & Hrc) [Hnn Hpos]. unfold ClassifierTool.second_pass_step.
  rewrite Hr. cbn [default from_option id].
  set (rag := ClassifierTool.n_rag_result n) in *.
  destruct (rag_silent n) eqn:Hsilent.
  - rewrite (combine_without_opinions no_result rag r);
      [|reflexivity|exact Hsilent|by rewrite Hrv].
    cbn [is_vegetarian confidence reasoning].
    unfold ClassifierTool.bucket. cbn [is_none orb].
    cbn [ClassifierTool.uncertain_items ClassifierTool.add_uncertain
         ClassifierTool.add_all].
    split.
    + by rewrite map_app.
    + intros H. apply Forall_app. split; [exact H|]. apply Forall_singleton.
      unfold no_suggestion, ClassifierTool.classified_item.
      cbn [ClassifierTool.entry]. split; by simplify_map_eq.
  - destruct Hpos as [Hpos|Hpos]; [congruence|].
    destruct (unanimous_combination no_result rag r (truthy (is_vegetarian rag)))
      as (Hv & Hc & _).
    + cbn. lra.
    + exact Hnn.
    + rewrite Hrc. lra.
    + apply Forall_cons; split; [by left|].
      apply Forall_cons; split; [by right|].
      apply Forall_cons; split; [left; by rewrite Hrv|constructor].
    + apply Exists_cons_tl, Exists_cons_hd. split; [exact Hsilent|exact Hpos].
    + rewrite Hv, Hc. unfold ClassifierTool.bucket. cbn [is_none orb].
      assert (Hhitl : Qlt_bool (round3 1) (hitl_threshold cfg) = false).
      { apply Qlt_bool_false_iff.
        assert (E : (round3 1 == 1)%Q) by reflexivity.
        rewrite E. exact hitl_at_most_one. }
      rewrite Hhitl.
      destruct (truthy (VBool (truthy (is_vegetarian rag))));
        cbn [ClassifierTool.uncertain_items ClassifierTool.add_vegetarian
             ClassifierTool.add_non_vegetarian ClassifierTool.add_all];
        by rewrite app_nil_r.
Qed.

Lemma second_pass_batch_silent (call : nat) (batch : list ClassifierTool.pending)
    (c : ClassifierTool.classification) :
  Forall rag_sound batch ->
  let c' := ClassifierTool.second_pass_batch cfg env call batch c in
  map ClassifierTool.origin (ClassifierTool.uncertain_items c')
    = map ClassifierTool.origin (ClassifierTool.uncertain_items c)
      ++ map ClassifierTool.n_origin (List.filter rag_silent batch)
  /\ (Forall no_suggestion (ClassifierTool.uncertain_items c) ->
      Forall no_suggestion (ClassifierTool.uncertain_items c')).
Proof.
  unfold ClassifierTool.second_pass_batch.
  assert (Hnull : forall n, In n batch ->
            exists r, LLMClassifier.classify_batch_llm env call
                        (map ClassifierTool.n_name batch) !! ClassifierTool.n_name n
                      = Some r
                      /\ is_vegetarian r = VNone /\ confidence r = 0%Q).
  { intros n Hin.
    destruct (batch_failure_lookup env call (map ClassifierTool.n_name batch)
                (ClassifierTool.n_name n) (provider_down _ _)
                (in_map ClassifierTool.n_name batch n Hin))
      as (r & H1 & H2 & H3 & _).
    by exists r. }
  revert Hnull.
  generalize (LLMClassifier.classify_batch_llm env call
                (map ClassifierTool.n_name batch)).
  intros llm_results. revert c.
  induction batch as [|n batch IH]; intros c Hnull Hsound.
  - cbn. by rewrite app_nil_r.
  - apply Forall_cons in Hsound as [Hn Hsound]. cbn [foldl].
    destruct (second_pass_step_silent llm_results c n (Hnull n (or_introl eq_refl)) Hn)
      as [H1 H2].
    destruct (IH (ClassifierTool.second_pass_step cfg llm_results c n)
                 (fun m Hm => Hnull m (or_intror Hm)) Hsound) as [I1 I2].
    split.
    + rewrite I1, H1. cbn [List.filter].
      destruct (rag_silent n); cbn [map app]; by rewrite <- app_assoc.
    + auto.
Qed.

Lemma second_pass_silent (bs : list (list ClassifierTool.pending)) (call : nat)
    (c : ClassifierTool.classification) :
  Forall rag_sound (concat bs) ->
  let c' := ClassifierTool.second_pass cfg env call bs c in
  map ClassifierTool.origin (ClassifierTool.uncertain_items c')
    = map ClassifierTool.origin (ClassifierTool.uncertain_items c)
      ++ map ClassifierTool.n_origin (List.filter rag_silent (concat bs))
  /\ (Forall no_suggestion (ClassifierTool.uncertain_items c) ->
      Forall no_suggestion (ClassifierTool.uncertain_items c')).
Proof.
  revert call c. induction bs as [|batch bs IH]; intros call c Hsound.
  - cbn. by rewrite app_nil_r.
  - cbn [concat] in Hsound. apply Forall_app in Hsound as [Hb Hsound].
    cbn [ClassifierTool.second_pass concat].
    destruct (second_pass_batch_silent call batch c Hb) as [H1 H2].
    destruct (IH (S call) (ClassifierTool.second_pass_batch cfg env call batch c) Hsound)
      as [I1 I2].
    split.
    + rewrite I1, H1, List.filter_app, map_app. by rewrite <- app_assoc.
    + auto.
Qed.

Lemma execute_with_batch_silent (items : list ClassifierTool.menu_item) :
  let c := ClassifierTool._execute_with_batch cfg kb env items in
  map ClassifierTool.origin (ClassifierTool.uncertain_items c)
    = positions (without_opinion kb env) 0 items
  /\ Forall no_suggestion (ClassifierTool.uncertain_items c).
Proof.
  unfold ClassifierTool._execute_with_batch.
  destruct (first_pass_silent items [] (ClassifierTool.no_items, [])
              eq_refl eq_refl (Forall_nil_2 _)) as (H1 & H2 & H3).
  cbn [length app] in H1, H2, H3.
  destruct (ClassifierTool.first_pass cfg kb env 0 items (ClassifierTool.no_items, []))
    as [c needs]. cbn [fst snd] in H1, H2, H3.
  destruct (second_pass_silent (ClassifierTool.batches cfg needs) 0 c) as [I1 I2].
  { by rewrite batches_concat. }
  rewrite batches_concat in I1. split.
  - rewrite I1, H1, H2. reflexivity.
  - apply I2. rewrite H1. constructor.
Qed.

End BatchWithoutProvider.

(** X24. The batch strategy with the provider down (every batch call raises
    or returns no array) and a review threshold of at most 1: the dishes
    sent to review are exactly those about which neither the keyword matcher
    nor the RAG tier has an opinion, in input order, each with confidence 0
    and no suggestion.  A dish with a RAG opinion is filed as vegetarian or
    non-vegetarian even when that opinion stayed below the confidence
    threshold. *)
Theorem batch_without_provider_reviews_only_unknown_dishes
    (cfg : settings) (kb : keywords) (env : oracles)
    (items : list ClassifierTool.menu_item) :
  (hitl_threshold cfg <= 1)%Q ->
  (forall call names, no_array (generate_batch env call names) = true) ->
  map ClassifierTool.origin
      (ClassifierTool.uncertain_items
         (ClassifierTool._execute_with_batch cfg kb env items))
    = positions (without_opinion kb env) 0 items
  /\ Forall no_suggestion
       (ClassifierTool.uncertain_items
          (ClassifierTool._execute_with_batch cfg kb env items)).
Proof. intros Hhitl Hdown. by apply execute_with_batch_silent. Qed.

Lemma batch_without_provider_reviews_only_unknown_dishes_witness :
  map ClassifierTool.origin
      (ClassifierTool.uncertain_items
         (ClassifierTool._execute_with_batch default_settings default_keywords
            down_env mystery_then_chicken))
    = [0].
Proof.
  apply (batch_without_provider_reviews_only_unknown_dishes
           default_settings default_keywords down_env mystery_then_chicken).
  - cbn. lra.
  - intros call names. reflexivity.
Defined.

(** ** The review threshold under the two strategies *)

Lemma sequential_loop_confident (cfg : settings) (kb : keywords) (env : oracles)
    (items : list ClassifierTool.menu_item) (i : nat)
    (c : ClassifierTool.classification) :
  Forall (not_below_threshold cfg)
         (ClassifierTool.vegetarian_items c ++ ClassifierTool.non_vegetarian_items c) ->
  let c' := ClassifierTool.sequential_loop cfg kb env i items c in
  Forall (not_below_threshold cfg)
         (ClassifierTool.vegetarian_items c' ++ ClassifierTool.non_vegetarian_items c').
Proof.
  revert i c. induction items as [|item items IH]; intros i c Hc; [exact Hc|].
  cbn [ClassifierTool.sequential_loop]. apply IH.
  unfold ClassifierTool.sequential_step, ClassifierTool.bucket.
  set (r := LLMClassifier.c_result _).
  apply Forall_app in Hc as [Hv Hn].
  destruct (is_none (is_vegetarian r)); cbn [orb].
  { apply Forall_app. by split. }
  destruct (Qlt_bool (confidence r) (hitl_threshold cfg)) eqn:Hlow.
  { apply Forall_app. by split. }
  assert (Hnew : forall ci, ci !! "confidence" = Some (VFloat (confidence r)) ->
            not_below_threshold cfg {| ClassifierTool.origin := i;
                                    ClassifierTool.entry := ci |}).
  { intros ci Hci. by exists (confidence r). }
  destruct (truthy (is_vegetarian r));
    cbn [ClassifierTool.vegetarian_items ClassifierTool.non_vegetarian_items
         ClassifierTool.add_vegetarian ClassifierTool.add_non_vegetarian
         ClassifierTool.add_all];
    rewrite ?Forall_app, ?Forall_singleton; repeat split; try assumption;
    apply Hnew; unfold ClassifierTool.classified_item; by simplify_map_eq.
Qed.

(** X25. Under the sequential strategy no dict in [vegetarian_items] or in
    [non_vegetarian_items] has a confidence below [hitl_threshold]: the
    test [confidence < hitl_threshold] is false for each of them, so nothing
    below the review threshold is filed as settled. *)
Theorem sequential_buckets_respect_review_threshold
    (cfg : settings) (kb : keywords) (env : oracles)
    (items : list ClassifierTool.menu_item) :
  Forall (not_below_threshold cfg)
    (ClassifierTool.vegetarian_items (ClassifierTool._execute_sequential cfg kb env items)
     ++ ClassifierTool.non_vegetarian_items
          (ClassifierTool._execute_sequential cfg kb env items)).
Proof. apply sequential_loop_confident. constructor. Qed.

Lemma keyword_known_result (kb : keywords) (item : ClassifierTool.menu_item) :
  keyword_known kb item ->
  exists b,
    is_vegetarian (LLMClassifier._keyword_classification kb (ClassifierTool.i_name item))
      = VBool b
    /\ confidence (LLMClassifier._keyword_classification kb (ClassifierTool.i_name item))
       = 95 # 100.
Proof.
  unfold keyword_known. intros Hk.
  destruct (keyword_opinion_is_decisive kb (ClassifierTool.i_name item))
    as [[Hv _]|(b & Hv & Hc)]; [rewrite Hv in Hk; discriminate Hk|].
  by exists b.
Qed.

Lemma sequential_loop_all_uncertain (cfg : settings) (kb : keywords) (env : oracles)
    (items : list ClassifierTool.menu_item) (i : nat)
    (c : ClassifierTool.classification) :
  (95 # 100 < hitl_threshold cfg)%Q ->
  Forall (keyword_known kb) items ->
  map ClassifierTool.origin
      (ClassifierTool.uncertain_items (ClassifierTool.sequential_loop cfg kb env i items c))
  = map ClassifierTool.origin (ClassifierTool.uncertain_items c) ++ seq i (length items).
Proof.
  intros Hhitl. revert i c.
  induction items as [|item items IH]; intros i c Hk.
  - cbn. by rewrite app_nil_r.
  - apply Forall_cons in Hk as [Hitem Hk]. cbn [ClassifierTool.sequential_loop].
    rewrite (IH _ _ Hk). cbn [length seq].
    destruct (keyword_known_result kb item Hitem) as (b & Hv & Hc).
    unfold ClassifierTool.sequential_step, LLMClassifier.classify.
    rewrite Hc. change (Qle_bool (9 # 10) (95 # 100)) with true.
    cbn [LLMClassifier.c_result LLMClassifier.c_evidence]. rewrite Hv, Hc.
    unfold ClassifierTool.bucket. cbn [is_none orb].
    apply Qlt_bool_iff in Hhitl. rewrite Hhitl.
    cbn [ClassifierTool.uncertain_items ClassifierTool.add_uncertain
         ClassifierTool.add_all].
    rewrite map_app. cbn [map ClassifierTool.origin]. by rewrite <- app_assoc.
Qed.

Lemma first_pass_keywords_only (cfg : settings) (kb : keywords) (env : oracles)
    (items : list ClassifierTool.menu_item) (i : nat)
    (c : ClassifierTool.classification) (needs : list ClassifierTool.pending) :
  Forall (keyword_known kb) items ->
  exists c',
    ClassifierTool.first_pass cfg kb env i items (c, needs) = (c', needs)
    /\ ClassifierTool.uncertain_items c' = ClassifierTool.uncertain_items c.
Proof.
  revert i c. induction items as [|item items IH]; intros i c Hk.
  - by exists c.
  - apply Forall_cons in Hk as [Hitem Hk]. cbn [ClassifierTool.first_pass].
    destruct (keyword_known_result kb item Hitem) as (b & Hv & Hc).
    unfold ClassifierTool.first_pass_step.
    rewrite Hc. change (Qle_bool (9 # 10) (95 # 100)) with true. cbv iota.
    rewrite Hv.
    destruct (truthy (VBool b));
      match goal with
      | |- context [ClassifierTool.first_pass _ _ _ _ _ (?c1, _)] =>
          destruct (IH (S i) c1 Hk) as (c' & H1 & H2)
      end;
      exists c'; (split; [exact H1|by rewrite H2]).
Qed.

(** X26. The two strategies apply the review threshold differently.  With
    [hitl_threshold] above 0.95 and a menu of dishes the keyword matcher
    knows, the sequential strategy sends every dish to review (the keyword
    confidence 0.95 is below the threshold), while the batch strategy sends
    none: its first pass files keyword decisions without looking at the
    threshold. *)
Theorem strategies_disagree_on_keyword_dishes
    (cfg : settings) (kb : keywords) (env : oracles)
    (items : list ClassifierTool.menu_item) :
  (95 # 100 < hitl_threshold cfg)%Q ->
  Forall (keyword_known kb) items ->
  map ClassifierTool.origin
      (ClassifierTool.uncertain_items (ClassifierTool._execute_sequential cfg kb env items))
    = seq 0 (length items)
  /\ ClassifierTool.uncertain_items (ClassifierTool._execute_with_batch cfg kb env items)
     = [].
Proof.
  intros Hhitl Hk. split.
  - unfold ClassifierTool._execute_sequential.
    by rewrite (sequential_loop_all_uncertain cfg kb env items 0 _ Hhitl Hk).
  - unfold ClassifierTool._execute_with_batch.
    destruct (first_pass_keywords_only cfg kb env items 0 ClassifierTool.no_items [] Hk)
      as (c' & H1 & H2).
    rewrite H1. exact H2.
Qed.

Lemma strategies_disagree_on_keyword_dishes_witness :
  map ClassifierTool.origin
      (ClassifierTool.uncertain_items
         (ClassifierTool._execute_sequential strict_settings default_keywords down_env
            [ {| ClassifierTool.i_name := "Chicken Wings";
                 ClassifierTool.i_price := VFloat 9;
                 ClassifierTool.i_source_image := VInt 1 |} ]))
    = [0]
  /\ ClassifierTool.uncertain_items
       (ClassifierTool._execute_with_batch strict_settings default_keywords down_env
          [ {| ClassifierTool.i_name := "Chicken Wings";
               ClassifierTool.i_price := VFloat 9;
               ClassifierTool.i_source_image := VInt 1 |} ])
     = [].
Proof.
  apply (strategies_disagree_on_keyword_dishes strict_settings default_keywords down_env
           [ {| ClassifierTool.i_name := "Chicken Wings";
                ClassifierTool.i_price := VFloat 9;
                ClassifierTool.i_source_image := VInt 1 |} ]).
  - cbn. lra.
  - apply Forall_cons; split; [reflexivity|constructor].
Defined.

(** ** The engine when the provider fails *)

(** X27. A dish the keyword matcher does not know, whose RAG opinion stayed
    below the confidence threshold, and for which the provider raises or
    returns no JSON object: [classify] marks the LLM as failed, ends the
    fallback chain with [fallback_to_rag], and returns the RAG verdict with
    confidence 1.0, not with the confidence the RAG tier gave it. *)
Theorem classify_promotes_rag_opinion_when_llm_fails
    (cfg : settings) (kb : keywords) (env : oracles) (call : nat)
    (dish_name : string) :
  let evidence := _retrieve_evidence env dish_name in
  let rag := LLMClassifier._analyze_rag_evidence evidence in
  let result := LLMClassifier.classify cfg kb env call dish_name in
  is_none (is_vegetarian (LLMClassifier._keyword_classification kb dish_name)) = true ->
  is_none (is_vegetarian rag) = false ->
  (confidence rag < confidence_threshold cfg)%Q ->
  no_object (generate_single env call dish_name (take 5 evidence)) = true ->
  is_vegetarian (LLMClassifier.c_result result) = VBool (truthy (is_vegetarian rag))
  /\ confidence (LLMClassifier.c_result result) = round3 1
  /\ LLMClassifier.c_llm_failed result = Some true
  /\ last (LLMClassifier.c_fallback_chain result) = Some LLMClassifier.FallbackToRag.
Proof.
  intros evidence rag result Hk Hrag Hthr Hreply. unfold result, LLMClassifier.classify.
  destruct (keyword_opinion_is_decisive kb dish_name) as [[Hkv Hkc]|(b & Hkv & _)];
    [|rewrite Hkv in Hk; discriminate Hk].
  rewrite Hkc. change (Qle_bool (9 # 10) 0) with false. cbv iota.
  fold evidence. fold rag.
  assert (Hlow : Qle_bool (confidence_threshold cfg) (confidence rag) = false).
  { destruct (Qle_bool _ _) eqn:H; [|reflexivity].
    apply Qle_bool_iff in H. lra. }
  rewrite Hlow.
  assert (Hllm : exists why,
            LLMClassifier._llm_classification env call dish_name evidence
            = LLMClassifier.failed why "llm").
  { unfold LLMClassifier._llm_classification.
    destruct (generate_single env call dish_name (take 5 evidence));
      [by eexists|by eexists|discriminate Hreply]. }
  destruct Hllm as (why & Hllm). rewrite Hllm.
  cbn [LLMClassifier.c_result LLMClassifier.c_llm_failed LLMClassifier.c_fallback_chain
       LLMClassifier.failed confidence is_vegetarian is_none orb].
  change (Qeq_bool 0 0) with true. cbn [orb].
  destruct (rag_confidence_bounds evidence) as (Hnn & _ & [Hnone|Hpos]);
    fold rag in Hnn, Hnone || fold rag in Hnn, Hpos; [congruence|].
  destruct (unanimous_combination
              (LLMClassifier._keyword_classification kb dish_name) rag
              {| is_vegetarian := VNone; confidence := 0; reasoning := why;
                 method := "llm" |}
              (truthy (is_vegetarian rag))) as (Hv & Hc & _).
  - rewrite Hkc. lra.
  - exact Hnn.
  - cbn. lra.
  - apply Forall_cons; split; [by left|].
    apply Forall_cons; split; [by right|].
    apply Forall_cons; split; [by left|constructor].
  - apply Exists_cons_tl, Exists_cons_hd. by split.
  - split; [exact Hv|]. split; [exact Hc|]. split; [reflexivity|].
    by rewrite last_snoc.
Qed.

Lemma classify_promotes_rag_opinion_when_llm_fails_witness :
  confidence
    (LLMClassifier.c_result
       (LLMClassifier.classify wary_settings default_keywords tofu_env 0 "Mapo Bowl"))
  = round3 1.
Proof.
  apply (classify_promotes_rag_opinion_when_llm_fails
           wary_settings default_keywords tofu_env 0 "Mapo Bowl").
  - reflexivity.
  - reflexivity.
  - vm_compute. reflexivity.
  - reflexivity.
Defined.
